(** * Colmena: a shallow embedding of the bee-hive simulation

    Source files: [practica2/colmena.py] (class [Colmena]) and
    [practica2/agentes.py] (classes [Abeja], [Recolectora], [Almacenadora],
    [Nodriza], [Defensora], [Reina]).

    Python integers are [Z]; a finite float ([calidad_flores], a ratio of
    [equilibrio_ideal], a deviation of [identificar_desequilibrio], a random
    draw) is the rational that is its exact value, every float operation
    rounding its exact result to the nearest float ([Py.fl]), and
    [float('inf')] is a separate constructor; [defaultdict]s are [gmap]s read
    with a default; insertion-ordered [dict]s whose iteration order the code
    relies on are association lists; [queue.Queue] is a list used first-in
    first-out; a [threading.Event] is a [bool]; a [threading.Semaphore] is
    its counter. Random draws, fresh identifiers and the clock are explicit
    arguments. *)

From Stdlib Require Import ZArith QArith Qround Qabs Lia.
From stdpp Require Import base gmap strings list fin_maps.

Local Open Scope Z_scope.

(** ** Python helpers *)

Module Py.

(** [round(x)] on a float returns an [int], rounding halves to even. *)
Definition round (x : Q) : Z :=
  let f := Qfloor x in
  match Qcompare (x - inject_Z f) (1 # 2) with
  | Lt => f
  | Gt => f + 1
  | Eq => if Z.even f then f else f + 1
  end.

(** *** Floats

    A Python [float] is a binary64 number: a significand of 53 bits and a
    power of two. A finite float is represented by its exact value, a
    rational. Every operation that yields a float (the conversion of an
    [int], a product, a quotient, a decimal literal of the program text)
    yields the float nearest to the exact result, a tie going to the even
    significand; [fl] is that rounding. The range of the exponent is left
    unbounded: there is no overflow to [inf] and no subnormal number. *)

(** [2 ** k] for an integer [k] of either sign. *)
Definition pow2 (k : Z) : Q :=
  if 0 <=? k then inject_Z (2 ^ k) else 1 # Z.to_pos (2 ^ (- k)).

(** The exponent of [q <> 0]: the [e] with [2 ** e <= |q| < 2 ** (e + 1)]. *)
Definition exponente (q : Q) : Z :=
  let e := Z.log2 (Z.abs (Qnum q)) - Z.log2 (Zpos (Qden q)) in
  if Qle_bool (pow2 e) (Qabs q) then e else e - 1.

(** The float nearest to [q]: [q] is scaled so that its integer part has 53
    bits, rounded to an integer with halves to even, and scaled back. *)
Definition fl (q : Q) : Q :=
  if Qeq_bool q 0 then 0
  else
    let ulp := pow2 (exponente q - 52) in
    Qred (inject_Z (round (q / ulp)) * ulp).

(** [float(n)], the conversion an [int] undergoes when it meets a float. *)
Definition float_of_int (n : Z) : Q := fl (inject_Z n).

(** [x * y] on floats. *)
Definition fmul (x y : Q) : Q := fl (x * y).

(** [a / b] on [int]s, for [b <> 0]: the float nearest to the quotient. *)
Definition truediv (a b : Z) : Q := fl (inject_Z a / inject_Z b).

(** [d.get(k, 0)] and the read of a [defaultdict(int)]. *)
Definition get0 (d : gmap string Z) (k : string) : Z := default 0 (d !! k).

(** [sum(d.values())]. *)
Definition sum_values (d : gmap string Z) : Z :=
  map_fold (fun _ v acc => v + acc) 0 d.

(** [d[k] += n] on a [defaultdict(int)]. *)
Definition add_at (k : string) (n : Z) (d : gmap string Z) : gmap string Z :=
  <[k := get0 d k + n]> d.

(** [d[a][k] += n] on a [defaultdict(lambda: defaultdict(int))]. *)
Definition add_at2 (a k : string) (n : Z)
    (d : gmap string (gmap string Z)) : gmap string (gmap string Z) :=
  <[a := add_at k n (default ∅ (d !! a))]> d.

(** Truth value of a [str]: only the empty string is false. *)
Definition truthy (s : string) : bool :=
  match s with EmptyString => false | _ => true end.

End Py.

(** ** Messages sent to the queen ([queue_reina])

    The four dictionaries the code builds, by their ["tipo"]. *)
Inductive Mensaje : Type :=
| Muerte (rol id : string)                       (* "muerte" *)
| Inactiva (rol id : string) (intentos : Z)      (* "inactiva" *)
| FaltaAlimento (rol id : string)                (* "falta_alimento" *)
| NecesidadNectar.                               (* "necesidad_nectar" *)

(** ** The shared state: class [Colmena] *)

(** [contador_global]: a dict with seven fixed keys. *)
Record Contadores : Type := mkContadores {
  nectar_recolectado : Z;
  nectar_almacenado : Z;
  ataques_detectados : Z;
  ataques_neutralizados : Z;
  cambios_rol : Z;
  flores_visitadas : Z;
  cg_larvas_alimentadas : Z   (* contador_global["larvas_alimentadas"] *)
}.

Record Colmena : Type := mkColmena {
  capacidad_celdas : Z;
  capacidad_polen : Z;
  celdas_ocupadas : Z;
  num_larvas : Z;
  larvas_alimentadas : Z;
  queue_nectar : list (Z * string);
  contador_global : Contadores;
  estadisticas_abejas : gmap string (gmap string Z);
  semaforo_celdas : Z;
  event_ataque : bool;
  event_dia : bool;
  event_lluvia : bool;
  event_fin_simulacion : bool;
  calidad_flores : Q;
  abejas_por_rol : gmap string Z;
  queue_reina : list Mensaje
}.

(** Field updates. *)
Definition con_celdas_ocupadas (v : Z) (c : Colmena) : Colmena :=
  mkColmena (capacidad_celdas c) (capacidad_polen c) v (num_larvas c)
    (larvas_alimentadas c) (queue_nectar c) (contador_global c)
    (estadisticas_abejas c) (semaforo_celdas c) (event_ataque c) (event_dia c)
    (event_lluvia c) (event_fin_simulacion c) (calidad_flores c)
    (abejas_por_rol c) (queue_reina c).

Definition con_larvas_alimentadas (v : Z) (c : Colmena) : Colmena :=
  mkColmena (capacidad_celdas c) (capacidad_polen c) (celdas_ocupadas c)
    (num_larvas c) v (queue_nectar c) (contador_global c)
    (estadisticas_abejas c) (semaforo_celdas c) (event_ataque c) (event_dia c)
    (event_lluvia c) (event_fin_simulacion c) (calidad_flores c)
    (abejas_por_rol c) (queue_reina c).

Definition con_queue_nectar (v : list (Z * string)) (c : Colmena) : Colmena :=
  mkColmena (capacidad_celdas c) (capacidad_polen c) (celdas_ocupadas c)
    (num_larvas c) (larvas_alimentadas c) v (contador_global c)
    (estadisticas_abejas c) (semaforo_celdas c) (event_ataque c) (event_dia c)
    (event_lluvia c) (event_fin_simulacion c) (calidad_flores c)
    (abejas_por_rol c) (queue_reina c).

Definition con_contador_global (v : Contadores) (c : Colmena) : Colmena :=
  mkColmena (capacidad_celdas c) (capacidad_polen c) (celdas_ocupadas c)
    (num_larvas c) (larvas_alimentadas c) (queue_nectar c) v
    (estadisticas_abejas c) (semaforo_celdas c) (event_ataque c) (event_dia c)
    (event_lluvia c) (event_fin_simulacion c) (calidad_flores c)
    (abejas_por_rol c) (queue_reina c).

Definition con_estadisticas_abejas (v : gmap string (gmap string Z))
    (c : Colmena) : Colmena :=
  mkColmena (capacidad_celdas c) (capacidad_polen c) (celdas_ocupadas c)
    (num_larvas c) (larvas_alimentadas c) (queue_nectar c) (contador_global c)
    v (semaforo_celdas c) (event_ataque c) (event_dia c)
    (event_lluvia c) (event_fin_simulacion c) (calidad_flores c)
    (abejas_por_rol c) (queue_reina c).

Definition con_semaforo_celdas (v : Z) (c : Colmena) : Colmena :=
  mkColmena (capacidad_celdas c) (capacidad_polen c) (celdas_ocupadas c)
    (num_larvas c) (larvas_alimentadas c) (queue_nectar c) (contador_global c)
    (estadisticas_abejas c) v (event_ataque c) (event_dia c)
    (event_lluvia c) (event_fin_simulacion c) (calidad_flores c)
    (abejas_por_rol c) (queue_reina c).

Definition con_event_ataque (v : bool) (c : Colmena) : Colmena :=
  mkColmena (capacidad_celdas c) (capacidad_polen c) (celdas_ocupadas c)
    (num_larvas c) (larvas_alimentadas c) (queue_nectar c) (contador_global c)
    (estadisticas_abejas c) (semaforo_celdas c) v (event_dia c)
    (event_lluvia c) (event_fin_simulacion c) (calidad_flores c)
    (abejas_por_rol c) (queue_reina c).

Definition con_event_dia (v : bool) (c : Colmena) : Colmena :=
  mkColmena (capacidad_celdas c) (capacidad_polen c) (celdas_ocupadas c)
    (num_larvas c) (larvas_alimentadas c) (queue_nectar c) (contador_global c)
    (estadisticas_abejas c) (semaforo_celdas c) (event_ataque c) v
    (event_lluvia c) (event_fin_simulacion c) (calidad_flores c)
    (abejas_por_rol c) (queue_reina c).

Definition con_event_lluvia (v : bool) (c : Colmena) : Colmena :=
  mkColmena (capacidad_celdas c) (capacidad_polen c) (celdas_ocupadas c)
    (num_larvas c) (larvas_alimentadas c) (queue_nectar c) (contador_global c)
    (estadisticas_abejas c) (semaforo_celdas c) (event_ataque c) (event_dia c)
    v (event_fin_simulacion c) (calidad_flores c)
    (abejas_por_rol c) (queue_reina c).

Definition con_event_fin_simulacion (v : bool) (c : Colmena) : Colmena :=
  mkColmena (capacidad_celdas c) (capacidad_polen c) (celdas_ocupadas c)
    (num_larvas c) (larvas_alimentadas c) (queue_nectar c) (contador_global c)
    (estadisticas_abejas c) (semaforo_celdas c) (event_ataque c) (event_dia c)
    (event_lluvia c) v (calidad_flores c)
    (abejas_por_rol c) (queue_reina c).

Definition con_calidad_flores (v : Q) (c : Colmena) : Colmena :=
  mkColmena (capacidad_celdas c) (capacidad_polen c) (celdas_ocupadas c)
    (num_larvas c) (larvas_alimentadas c) (queue_nectar c) (contador_global c)
    (estadisticas_abejas c) (semaforo_celdas c) (event_ataque c) (event_dia c)
    (event_lluvia c) (event_fin_simulacion c) v
    (abejas_por_rol c) (queue_reina c).

Definition con_abejas_por_rol (v : gmap string Z) (c : Colmena) : Colmena :=
  mkColmena (capacidad_celdas c) (capacidad_polen c) (celdas_ocupadas c)
    (num_larvas c) (larvas_alimentadas c) (queue_nectar c) (contador_global c)
    (estadisticas_abejas c) (semaforo_celdas c) (event_ataque c) (event_dia c)
    (event_lluvia c) (event_fin_simulacion c) (calidad_flores c)
    v (queue_reina c).

Definition con_queue_reina (v : list Mensaje) (c : Colmena) : Colmena :=
  mkColmena (capacidad_celdas c) (capacidad_polen c) (celdas_ocupadas c)
    (num_larvas c) (larvas_alimentadas c) (queue_nectar c) (contador_global c)
    (estadisticas_abejas c) (semaforo_celdas c) (event_ataque c) (event_dia c)
    (event_lluvia c) (event_fin_simulacion c) (calidad_flores c)
    (abejas_por_rol c) v.

(** Updates of single counters of [contador_global]. *)
Definition mas_nectar_recolectado (n : Z) (g : Contadores) : Contadores :=
  mkContadores (nectar_recolectado g + n) (nectar_almacenado g)
    (ataques_detectados g) (ataques_neutralizados g) (cambios_rol g)
    (flores_visitadas g) (cg_larvas_alimentadas g).

Definition mas_nectar_almacenado (n : Z) (g : Contadores) : Contadores :=
  mkContadores (nectar_recolectado g) (nectar_almacenado g + n)
    (ataques_detectados g) (ataques_neutralizados g) (cambios_rol g)
    (flores_visitadas g) (cg_larvas_alimentadas g).

Definition mas_ataques_detectados (g : Contadores) : Contadores :=
  mkContadores (nectar_recolectado g) (nectar_almacenado g)
    (ataques_detectados g + 1) (ataques_neutralizados g) (cambios_rol g)
    (flores_visitadas g) (cg_larvas_alimentadas g).

Definition mas_ataques_neutralizados (g : Contadores) : Contadores :=
  mkContadores (nectar_recolectado g) (nectar_almacenado g)
    (ataques_detectados g) (ataques_neutralizados g + 1) (cambios_rol g)
    (flores_visitadas g) (cg_larvas_alimentadas g).

Definition mas_cambios_rol (g : Contadores) : Contadores :=
  mkContadores (nectar_recolectado g) (nectar_almacenado g)
    (ataques_detectados g) (ataques_neutralizados g) (cambios_rol g + 1)
    (flores_visitadas g) (cg_larvas_alimentadas g).

Definition mas_flores_visitadas (g : Contadores) : Contadores :=
  mkContadores (nectar_recolectado g) (nectar_almacenado g)
    (ataques_detectados g) (ataques_neutralizados g) (cambios_rol g)
    (flores_visitadas g + 1) (cg_larvas_alimentadas g).

Definition mas_larvas_alimentadas (g : Contadores) : Contadores :=
  mkContadores (nectar_recolectado g) (nectar_almacenado g)
    (ataques_detectados g) (ataques_neutralizados g) (cambios_rol g)
    (flores_visitadas g) (cg_larvas_alimentadas g + 1).

(** *** [Colmena.__init__]

    [threading.Semaphore(capacidad_celdas)] raises [ValueError] on a negative
    initial value, so no hive with a negative cell capacity exists: [None]. *)
Definition Colmena_init (capacidad_celdas capacidad_polen num_larvas : Z)
    : option Colmena :=
  if capacidad_celdas <? 0 then None
  else Some {|
    capacidad_celdas := capacidad_celdas;
    capacidad_polen := capacidad_polen;
    celdas_ocupadas := 0;
    num_larvas := num_larvas;
    larvas_alimentadas := 0;
    queue_nectar := [];
    contador_global := mkContadores 0 0 0 0 0 0 0;
    estadisticas_abejas := ∅;
    semaforo_celdas := capacidad_celdas;
    event_ataque := false;
    event_dia := true;
    event_lluvia := false;
    event_fin_simulacion := false;
    calidad_flores := 1%Q;
    abejas_por_rol := ∅;
    queue_reina := []
  |}.

(** Defaults of the constructor: [Colmena()]. *)
Definition Colmena_por_defecto : option Colmena := Colmena_init 100 5 20.

(** ** Methods of [Colmena]

    Each method is written as the sequence of its critical sections (a
    [with lock] block, a semaphore operation or a queue operation); the
    sections are named so that the interleaving model further down can run
    them one at a time. A method returns its result and the new state. *)

(** [registrar_abeja]: [abejas_por_rol[rol] += 1]. *)
Definition registrar_abeja (id_abeja rol : string) (c : Colmena) : Colmena :=
  con_abejas_por_rol (Py.add_at rol 1 (abejas_por_rol c)) c.

(** [cambiar_rol_abeja]: the two census updates in program order, then the
    counter of role changes. *)
Definition cambiar_rol_abeja (rol_anterior rol_nuevo : string) (c : Colmena)
    : Colmena :=
  let d1 := Py.add_at rol_anterior (-1) (abejas_por_rol c) in
  let d2 := Py.add_at rol_nuevo 1 d1 in
  con_contador_global (mas_cambios_rol (contador_global c))
    (con_abejas_por_rol d2 c).

(** [obtener_distribucion_roles]: a copy of the census. *)
Definition obtener_distribucion_roles (c : Colmena) : gmap string Z :=
  abejas_por_rol c.

(** [agregar_nectar_cola], first statement: [queue_nectar.put]. *)
Definition cola_nectar_put (cantidad : Z) (id_abeja : string) (c : Colmena)
    : Colmena :=
  con_queue_nectar (queue_nectar c ++ [(cantidad, id_abeja)]) c.

(** [agregar_nectar_cola], the block under [lock_estadisticas]. *)
Definition contar_recolectado (cantidad : Z) (id_abeja : string) (c : Colmena)
    : Colmena :=
  con_estadisticas_abejas
    (Py.add_at2 id_abeja "nectar_recolectado" cantidad (estadisticas_abejas c))
    (con_contador_global (mas_nectar_recolectado cantidad (contador_global c)) c).

Definition agregar_nectar_cola (cantidad : Z) (id_abeja : string) (c : Colmena)
    : Colmena :=
  contar_recolectado cantidad id_abeja (cola_nectar_put cantidad id_abeja c).

(** [obtener_nectar_cola]: [get(block=False)], [None] on [queue.Empty]. *)
Definition obtener_nectar_cola (c : Colmena) : option (Z * string) * Colmena :=
  match queue_nectar c with
  | [] => (None, c)
  | lote :: resto => (Some lote, con_queue_nectar resto c)
  end.

(** [semaforo_celdas.acquire(blocking=False)]: [Some] the state with one
    permit less, [None] when there is no permit. *)
Definition semaforo_acquire (c : Colmena) : option Colmena :=
  if 0 <? semaforo_celdas c
  then Some (con_semaforo_celdas (semaforo_celdas c - 1) c)
  else None.

(** [almacenar_nectar], the block under [lock_celdas]. *)
Definition ocupar_celda (c : Colmena) : Colmena :=
  con_celdas_ocupadas (celdas_ocupadas c + 1) c.

(** [almacenar_nectar], the block under [lock_estadisticas]. *)
Definition contar_almacenado (cantidad : Z) (id_abeja : string) (c : Colmena)
    : Colmena :=
  con_estadisticas_abejas
    (Py.add_at2 id_abeja "nectar_almacenado" cantidad (estadisticas_abejas c))
    (con_contador_global (mas_nectar_almacenado cantidad (contador_global c)) c).

Definition almacenar_nectar (cantidad : Z) (id_abeja : string) (c : Colmena)
    : bool * Colmena :=
  match semaforo_acquire c with
  | Some c1 => (true, contar_almacenado cantidad id_abeja (ocupar_celda c1))
  | None => (false, c)
  end.

(** [consumir_nectar]: one block under [lock_celdas]. *)
Definition consumir_nectar (id_abeja : string) (c : Colmena) : bool * Colmena :=
  if 0 <? celdas_ocupadas c then
    let c1 := con_celdas_ocupadas (celdas_ocupadas c - 1) c in
    let c2 := con_semaforo_celdas (semaforo_celdas c1 + 1) c1 in
    (true,
     con_estadisticas_abejas
       (Py.add_at2 id_abeja "nectar_consumido" 1 (estadisticas_abejas c2)) c2)
  else (false, c).

(** [alimentar_larva], the block under [lock_larvas], entered after
    [consumir_nectar] has returned [True]. *)
Definition alimentar_si_cabe (id_abeja : string) (c : Colmena) : bool * Colmena :=
  if larvas_alimentadas c <? num_larvas c then
    let c1 := con_larvas_alimentadas (larvas_alimentadas c + 1) c in
    (true,
     con_estadisticas_abejas
       (Py.add_at2 id_abeja "larvas_alimentadas" 1 (estadisticas_abejas c1))
       (con_contador_global (mas_larvas_alimentadas (contador_global c1)) c1))
  else (false, c).

Definition alimentar_larva (id_abeja : string) (c : Colmena) : bool * Colmena :=
  match consumir_nectar id_abeja c with
  | (true, c1) => alimentar_si_cabe id_abeja c1
  | (false, c1) => (false, c1)
  end.

(** [visitar_flor]. [azar] is the value drawn by
    [random.uniform(1, capacidad_polen)]; it and [calidad_flores] are
    floats, and so is their product. *)
Definition visitar_flor (azar : Q) (id_abeja : string) (c : Colmena)
    : Z * Colmena :=
  if negb (event_dia c) then (0, c)
  else
    let calidad := calidad_flores c in
    let polen_recolectado :=
      Z.min (Py.round (Py.fmul (Py.fl azar) (Py.fl calidad)))
        (capacidad_polen c) in
    let c1 :=
      con_estadisticas_abejas
        (Py.add_at2 id_abeja "flores_visitadas" 1 (estadisticas_abejas c))
        (con_contador_global (mas_flores_visitadas (contador_global c)) c) in
    (Z.max 0 polen_recolectado, c1).

Definition registrar_ataque (c : Colmena) : Colmena :=
  let c1 := con_event_ataque true c in
  con_contador_global (mas_ataques_detectados (contador_global c1)) c1.

Definition neutralizar_ataque (id_abeja : string) (c : Colmena) : Colmena :=
  let c1 := con_event_ataque false c in
  con_estadisticas_abejas
    (Py.add_at2 id_abeja "ataques_neutralizados" 1 (estadisticas_abejas c1))
    (con_contador_global (mas_ataques_neutralizados (contador_global c1)) c1).

Definition cambiar_clima (lluvia : bool) (calidad : Q) (c : Colmena) : Colmena :=
  con_calidad_flores calidad (con_event_lluvia lluvia c).

Definition cambiar_ciclo_dia (es_dia : bool) (c : Colmena) : Colmena :=
  con_event_dia es_dia c.

Definition enviar_mensaje_reina (mensaje : Mensaje) (c : Colmena) : Colmena :=
  con_queue_reina (queue_reina c ++ [mensaje]) c.

(** [obtener_mensaje_reina]: the head of the mailbox, [None] when the
    timeout expires on an empty mailbox. *)
Definition obtener_mensaje_reina (c : Colmena) : option Mensaje * Colmena :=
  match queue_reina c with
  | [] => (None, c)
  | m :: resto => (Some m, con_queue_reina resto c)
  end.

(** [obtener_metricas]: the counters and the two derived cell figures. *)
Record Metricas : Type := mkMetricas {
  m_contadores : Contadores;
  m_celdas_ocupadas : Z;
  m_celdas_libres : Z
}.

Definition obtener_metricas (c : Colmena) : Metricas :=
  mkMetricas (contador_global c) (celdas_ocupadas c)
    (capacidad_celdas c - celdas_ocupadas c).

(** ** Agents: class [Abeja] and its subclasses *)

(** The Python class of an agent object. It is fixed at construction:
    [cambiar_rol] rewrites the attribute [rol], not the class, so the
    [trabajar] that runs is always the one of the class. *)
Inductive Clase : Type :=
| Recolectora | Almacenadora | Nodriza | Defensora | Reina.

(** Where the thread of an agent stands. [Creada]: constructed, [start] not
    yet called. [EnBucle]: at the head of the [while] of [run]. [Terminada]:
    [run] has returned. The other values are the points between two
    critical sections inside one call of [trabajar], with the local
    variables that are live there. *)
Inductive Hilo : Type :=
| Creada
| EnBucle
| RecLleva (polen : Z)        (* Recolectora: [visitar_flor] returned [polen > 0] *)
| RecPuesto (polen : Z)       (* agregar_nectar_cola: after [put], before the counters *)
| AlmObtenido (cantidad : Z)  (* Almacenadora: a batch was dequeued *)
| AlmAdquirido (cantidad : Z) (* almacenar_nectar: permit acquired *)
| AlmContado (cantidad : Z)   (* almacenar_nectar: [celdas_ocupadas] incremented *)
| NodConsumido                (* alimentar_larva: [consumir_nectar] returned True *)
| DefResponde                 (* Defensora: attack seen, not yet neutralised *)
| Terminada.

(** An agent object. [intentos_vacios] is the attribute of [Almacenadora],
    [intentos_sin_alimento] that of [Nodriza]. The time attributes
    ([tiempo_vida], [tiempo_trabajo], [tiempo_patrulla]) only feed the clock
    and the sleeps; the clock is the oracle [en_plazo] below. *)
Record Abeja : Type := mkAbeja {
  clase : Clase;
  id_abeja : string;
  rol : string;
  activa : bool;
  intentos_vacios : Z;
  intentos_sin_alimento : Z;
  hilo : Hilo
}.

Definition con_rol (v : string) (b : Abeja) : Abeja :=
  mkAbeja (clase b) (id_abeja b) v (activa b) (intentos_vacios b)
    (intentos_sin_alimento b) (hilo b).

Definition con_intentos_vacios (v : Z) (b : Abeja) : Abeja :=
  mkAbeja (clase b) (id_abeja b) (rol b) (activa b) v
    (intentos_sin_alimento b) (hilo b).

Definition con_intentos_sin_alimento (v : Z) (b : Abeja) : Abeja :=
  mkAbeja (clase b) (id_abeja b) (rol b) (activa b) (intentos_vacios b)
    v (hilo b).

Definition con_hilo (v : Hilo) (b : Abeja) : Abeja :=
  mkAbeja (clase b) (id_abeja b) (rol b) (activa b) (intentos_vacios b)
    (intentos_sin_alimento b) v.

(** The [rol] each subclass passes to [Abeja.__init__]. *)
Definition rol_de_clase (cl : Clase) : string :=
  match cl with
  | Recolectora => "recolectora"
  | Almacenadora => "almacenadora"
  | Nodriza => "nodriza"
  | Defensora => "defensora"
  | Reina => "reina"
  end.

(** An agent is alive from its construction until [run] returns. *)
Definition viva (b : Abeja) : bool :=
  match hilo b with Terminada => false | _ => true end.

(** What one turn of a thread draws from outside the program. A draw that
    is a float is given by a rational and stands for the float nearest to
    it. *)
Record Oraculo : Type := mkOraculo {
  en_plazo : bool;  (* time.time() - tiempo_inicio < self.tiempo_vida *)
  uniforme : Q;     (* random.uniform(1, capacidad_polen) *)
  azar1 : Q;        (* the random.random() compared with 0.2 *)
  uuid : string     (* str(uuid.uuid4())[:8] *)
}.

(** *** [trabajar] of the four worker classes, on [self] and the hive *)

Definition Recolectora_trabajar (azar : Q) (b : Abeja) (c : Colmena)
    : Abeja * Colmena :=
  let '(polen, c1) := visitar_flor azar (id_abeja b) c in
  if 0 <? polen then (b, agregar_nectar_cola polen (id_abeja b) c1)
  else (b, c1).

(** The [else] branch of [Almacenadora.trabajar]. *)
Definition Almacenadora_sin_nectar (b : Abeja) (c : Colmena) : Abeja * Colmena :=
  let n := intentos_vacios b + 1 in
  if 10 <? n
  then (con_intentos_vacios 0 b,
        enviar_mensaje_reina (Inactiva (rol b) (id_abeja b) n) c)
  else (con_intentos_vacios n b, c).

(** A dequeued batch is a non-empty tuple, hence true; the result of
    [almacenar_nectar] is not looked at. *)
Definition Almacenadora_trabajar (b : Abeja) (c : Colmena) : Abeja * Colmena :=
  match obtener_nectar_cola c with
  | (Some (cantidad, id_origen), c1) =>
      let '(_, c2) := almacenar_nectar cantidad (id_abeja b) c1 in
      (con_intentos_vacios 0 b, c2)
  | (None, c1) => Almacenadora_sin_nectar b c1
  end.

(** The [else] branch of [Nodriza.trabajar]. *)
Definition Nodriza_sin_alimento (b : Abeja) (c : Colmena) : Abeja * Colmena :=
  let n := intentos_sin_alimento b + 1 in
  if 5 <? n
  then (con_intentos_sin_alimento 0 b,
        enviar_mensaje_reina (FaltaAlimento (rol b) (id_abeja b)) c)
  else (con_intentos_sin_alimento n b, c).

Definition Nodriza_trabajar (b : Abeja) (c : Colmena) : Abeja * Colmena :=
  match alimentar_larva (id_abeja b) c with
  | (true, c1) => (con_intentos_sin_alimento 0 b, c1)
  | (false, c1) => Nodriza_sin_alimento b c1
  end.

Definition Defensora_trabajar (b : Abeja) (c : Colmena) : Abeja * Colmena :=
  if event_ataque c then (b, neutralizar_ataque (id_abeja b) c) else (b, c).

(** The [finally] of [Abeja.run]: the Alive -> Dead transition. *)
Definition Abeja_run_finally (b : Abeja) (c : Colmena) : Abeja * Colmena :=
  (con_hilo Terminada b,
   if negb (event_fin_simulacion c)
   then enviar_mensaje_reina (Muerte (rol b) (id_abeja b)) c
   else c).

(** The test of the [while] of [Abeja.run]. *)
Definition Abeja_run_sigue (plazo : bool) (b : Abeja) (c : Colmena) : bool :=
  plazo && activa b && negb (event_fin_simulacion c).

(** The night rest at the top of the loop body. *)
Definition Abeja_run_descansa (b : Abeja) (c : Colmena) : bool :=
  negb (event_dia c) && negb (String.eqb (rol b) "defensora").

(** ** Insertion-ordered dictionaries with string keys

    Used where the code iterates over a [dict]: [equilibrio_ideal],
    [diferencias] and the registry [abejas_activas]. *)
Section Dict.
Context {A : Type}.

Fixpoint dict_get (k : string) (d : list (string * A)) : option A :=
  match d with
  | [] => None
  | (k', v) :: d' => if String.eqb k k' then Some v else dict_get k d'
  end.

(** [d[k] = v]: in place when the key exists, appended otherwise. *)
Fixpoint dict_set (k : string) (v : A) (d : list (string * A))
    : list (string * A) :=
  match d with
  | [] => [(k, v)]
  | (k', v') :: d' =>
      if String.eqb k k' then (k', v) :: d' else (k', v') :: dict_set k v d'
  end.

(** [del d[k]], guarded by [k in d] at its only use. *)
Fixpoint dict_del (k : string) (d : list (string * A)) : list (string * A) :=
  match d with
  | [] => []
  | (k', v') :: d' =>
      if String.eqb k k' then d' else (k', v') :: dict_del k d'
  end.

Definition dict_in (k : string) (d : list (string * A)) : bool :=
  match dict_get k d with Some _ => true | None => false end.

End Dict.

(** ** The whole program state

    [abejas] holds every agent object constructed so far; the position of an
    object in it is its address, and the registry of the queen refers to
    agents by address, as the Python dictionary refers to the objects
    themselves. The program has one queen; her attributes
    [equilibrio_ideal] and [abejas_activas] are fields of the state. *)
Record Sistema : Type := mkSistema {
  colmena : Colmena;
  abejas : list Abeja;
  equilibrio_ideal : list (string * Q);
  abejas_activas : list (string * nat)
}.

Definition con_colmena (v : Colmena) (s : Sistema) : Sistema :=
  mkSistema v (abejas s) (equilibrio_ideal s) (abejas_activas s).

Definition con_abejas (v : list Abeja) (s : Sistema) : Sistema :=
  mkSistema (colmena s) v (equilibrio_ideal s) (abejas_activas s).

Definition con_equilibrio_ideal (v : list (string * Q)) (s : Sistema) : Sistema :=
  mkSistema (colmena s) (abejas s) v (abejas_activas s).

Definition con_abejas_activas (v : list (string * nat)) (s : Sistema) : Sistema :=
  mkSistema (colmena s) (abejas s) (equilibrio_ideal s) v.

(** Writes back an agent and the hive after a method that touched both. *)
Definition con_abeja_y_colmena (dir : nat) (bc : Abeja * Colmena) (s : Sistema)
    : Sistema :=
  con_colmena (snd bc) (con_abejas (<[dir := fst bc]> (abejas s)) s).

(** The state right after [colmena = Colmena(...)]. *)
Definition Sistema_inicial (c : Colmena) : Sistema := mkSistema c [] [] [].

(** [Abeja.__init__] as called by the constructor of the subclass [cl]:
    [id_abeja or str(uuid.uuid4())[:8]], then [registrar_abeja]. Returns the
    address of the new object. *)
Definition Abeja_init (cl : Clase) (id : option string) (uuid : string)
    (s : Sistema) : nat * Sistema :=
  let id_final :=
    match id with
    | Some i => if Py.truthy i then i else uuid
    | None => uuid
    end in
  let b := mkAbeja cl id_final (rol_de_clase cl) true 0 0 Creada in
  (length (abejas s),
   con_colmena (registrar_abeja id_final (rol_de_clase cl) (colmena s))
     (con_abejas (abejas s ++ [b]) s)).

(** [Thread.start]. *)
Definition Thread_start (dir : nat) (s : Sistema) : Sistema :=
  match abejas s !! dir with
  | Some b =>
      match hilo b with
      | Creada => con_abejas (<[dir := con_hilo EnBucle b]> (abejas s)) s
      | _ => s
      end
  | None => s
  end.

(** [Abeja.cambiar_rol]. *)
Definition Abeja_cambiar_rol (dir : nat) (nuevo_rol : string) (s : Sistema)
    : Sistema :=
  match abejas s !! dir with
  | Some b =>
      let rol_anterior := rol b in
      con_colmena (cambiar_rol_abeja rol_anterior nuevo_rol (colmena s))
        (con_abejas (<[dir := con_rol nuevo_rol b]> (abejas s)) s)
  | None => s
  end.

(** *** Class [Reina] *)

Definition equilibrio_por_defecto : list (string * Q) :=
  [("recolectora", 4 # 10); ("almacenadora", 25 # 100);
   ("nodriza", 25 # 100); ("defensora", 1 # 10)]%Q.

(** [Reina.__init__]: [equilibrio_ideal or {...}] takes the default for
    [None] and for an empty dictionary. *)
Definition Reina_init (equilibrio : option (list (string * Q)))
    (id : option string) (uuid : string) (s : Sistema) : nat * Sistema :=
  let '(dir, s1) := Abeja_init Reina id uuid s in
  let e :=
    match equilibrio with
    | Some (x :: e') => x :: e'
    | _ => equilibrio_por_defecto
    end in
  (dir, con_abejas_activas [] (con_equilibrio_ideal e s1)).

(** [fabrica_abejas]. *)
Definition fabrica_abejas (rol : string) : option Clase :=
  if String.eqb rol "recolectora" then Some Recolectora
  else if String.eqb rol "almacenadora" then Some Almacenadora
  else if String.eqb rol "nodriza" then Some Nodriza
  else if String.eqb rol "defensora" then Some Defensora
  else None.

Definition agregar_abeja (dir : nat) (s : Sistema) : Sistema :=
  match abejas s !! dir with
  | Some b => con_abejas_activas (dict_set (id_abeja b) dir (abejas_activas s)) s
  | None => s
  end.

(** [crear_abeja]: construct with the defaults, register with the queen,
    start the thread. *)
Definition crear_abeja (rol : string) (uuid : string) (s : Sistema)
    : option nat * Sistema :=
  match fabrica_abejas rol with
  | Some cl =>
      let '(dir, s1) := Abeja_init cl None uuid s in
      (Some dir, Thread_start dir (agregar_abeja dir s1))
  | None => (None, s)
  end.

Definition reemplazar_abeja_muerta (rol : string) (uuid : string) (s : Sistema)
    : option nat * Sistema :=
  crear_abeja rol uuid s.

(** *** The rebalance algorithm *)

(** A value of [diferencias]: a finite float (or the [int] 0), by its exact
    value, or [float('inf')]. *)
Inductive Desviacion : Type :=
| Finita (q : Q)
| Infinita.

(** The literal [0.1] of [identificar_desequilibrio]: the float nearest to
    one tenth, which is a little above it. *)
Definition umbral : Q := Py.fl (1 # 10).

Definition Qlt_bool (a b : Q) : bool := negb (Qle_bool b a).

(** [a < b] on deviations. *)
Definition desv_lt (a b : Desviacion) : bool :=
  match a, b with
  | Finita x, Finita y => Qlt_bool x y
  | Finita _, Infinita => true
  | Infinita, _ => false
  end.

(** [calcular_roles_ideales]: the comprehension over
    [equilibrio_ideal.items()]. [total_abejas * porcentaje] is an [int]
    times a float: the [int] is converted and the product is a float, which
    [round] then takes to an [int]. A ratio of the table stands for the
    float nearest to it, as the literal [0.4] of the program text does. *)
Definition calcular_roles_ideales (total_abejas : Z)
    (equilibrio : list (string * Q)) : list (string * Z) :=
  fold_left
    (fun acc '(rol, porcentaje) =>
       dict_set rol
         (Py.round (Py.fmul (Py.float_of_int total_abejas) (Py.fl porcentaje)))
         acc)
    equilibrio [].

(** The body of the [for rol in self.equilibrio_ideal] loop. *)
Definition diferencia_de (roles_ideales : list (string * Z))
    (distribucion_actual : gmap string Z) (rol : string) : Desviacion :=
  let ideal := default 0 (dict_get rol roles_ideales) in
  let actual := Py.get0 distribucion_actual rol in
  if ideal =? 0 then (if 0 <? actual then Infinita else Finita 0)
  else Finita (Py.truediv (actual - ideal) ideal).

Definition calcular_diferencias (equilibrio : list (string * Q))
    (distribucion_actual : gmap string Z) : list (string * Desviacion) :=
  let total_abejas := Py.sum_values distribucion_actual in
  let roles_ideales := calcular_roles_ideales total_abejas equilibrio in
  fold_left
    (fun acc '(rol, _) =>
       dict_set rol (diferencia_de roles_ideales distribucion_actual rol) acc)
    equilibrio [].

(** [max(d, key=d.get)] and [min(d, key=d.get)]: the first key, in
    iteration order, whose value is the largest (smallest). [mejor] is the
    candidate so far. *)
Fixpoint max_desde (mejor : string * Desviacion)
    (d : list (string * Desviacion)) : string * Desviacion :=
  match d with
  | [] => mejor
  | (k, v) :: d' => max_desde (if desv_lt (snd mejor) v then (k, v) else mejor) d'
  end.

Fixpoint min_desde (mejor : string * Desviacion)
    (d : list (string * Desviacion)) : string * Desviacion :=
  match d with
  | [] => mejor
  | (k, v) :: d' => min_desde (if desv_lt v (snd mejor) then (k, v) else mejor) d'
  end.

(** [identificar_desequilibrio]. The outer [None] is the [ValueError] that
    [max] raises on an empty [diferencias]; the inner one is the result
    [(None, None)]. *)
Definition identificar_desequilibrio (s : Sistema)
    : option (option (string * string)) :=
  let distribucion_actual := obtener_distribucion_roles (colmena s) in
  let total_abejas := Py.sum_values distribucion_actual in
  if total_abejas =? 0 then Some None
  else
    match calcular_diferencias (equilibrio_ideal s) distribucion_actual with
    | [] => None
    | x :: d =>
        let '(rol_excedente, dif_excedente) := max_desde x d in
        let '(rol_deficiente, dif_deficiente) := min_desde x d in
        if desv_lt (Finita umbral) dif_excedente
           && desv_lt dif_deficiente (Finita (- umbral))
        then Some (Some (rol_excedente, rol_deficiente))
        else Some None
    end.

(** The [for] over [abejas_activas.items()]: the address of the first
    registered agent whose [rol] is [r]. *)
Fixpoint primera_con_rol (r : string) (heap : list Abeja)
    (registro : list (string * nat)) : option nat :=
  match registro with
  | [] => None
  | (_, dir) :: registro' =>
      match heap !! dir with
      | Some b =>
          if String.eqb (rol b) r then Some dir
          else primera_con_rol r heap registro'
      | None => primera_con_rol r heap registro'
      end
  end.

(** [reasignar_roles]; [None] when [identificar_desequilibrio] raises. *)
Definition reasignar_roles (s : Sistema) : option (bool * Sistema) :=
  match identificar_desequilibrio s with
  | None => None
  | Some None => Some (false, s)
  | Some (Some (rol_excedente, rol_deficiente)) =>
      if Py.truthy rol_excedente && Py.truthy rol_deficiente then
        match primera_con_rol rol_excedente (abejas s) (abejas_activas s) with
        | Some dir => Some (true, Abeja_cambiar_rol dir rol_deficiente s)
        | None => Some (false, s)
        end
      else Some (false, s)
  end.

(** [procesar_mensaje] for a message that is present. *)
Definition procesar_mensaje (mensaje : Mensaje) (uuid : string) (s : Sistema)
    : Sistema :=
  match mensaje with
  | Muerte r id =>
      let s1 :=
        if dict_in id (abejas_activas s)
        then con_abejas_activas (dict_del id (abejas_activas s)) s
        else s in
      snd (reemplazar_abeja_muerta r uuid s1)
  | Inactiva r id _ =>
      if String.eqb r "almacenadora" then
        if 0 <? nectar_recolectado (contador_global (colmena s)) then
          match dict_get id (abejas_activas s) with
          | Some dir => Abeja_cambiar_rol dir "recolectora" s
          | None => s
          end
        else s
      else s
  | FaltaAlimento r id =>
      if String.eqb r "nodriza"
      then con_colmena (enviar_mensaje_reina NecesidadNectar (colmena s)) s
      else s
  | NecesidadNectar => s
  end.

(** [Reina.trabajar]. The second component tells whether an exception left
    the method; the state is the one reached when it was raised. The last
    statement only reads [obtener_metricas] into a local variable. *)
Definition Reina_trabajar (o : Oraculo) (s : Sistema) : Sistema * bool :=
  let '(mensaje, c1) := obtener_mensaje_reina (colmena s) in
  let s1 := con_colmena c1 s in
  let s2 :=
    match mensaje with
    | Some m => procesar_mensaje m (uuid o) s1
    | None => s1
    end in
  if Qlt_bool (Py.fl (azar1 o)) (Py.fl (2 # 10)) then
    match reasignar_roles s2 with
    | Some (_, s3) => (s3, false)
    | None => (s2, true)
    end
  else (s2, false).

(** ** Interleaving semantics

    Threads run concurrently, so between two critical sections of one call
    any section of another thread may run. One step of a thread is: at
    [EnBucle], the test of the [while], the night rest, and the first
    critical section of [trabajar], or else the [finally]; elsewhere, the
    next critical section of the call in progress. [Reina.trabajar] is one
    step: it writes the census, the mailbox, the registry and the role
    labels, and leaves the cells, the larvae, the nectar queue and the
    nectar counters alone. *)

(** One step of a worker thread, on [self] and the hive. *)
Definition paso_obrera (o : Oraculo) (b : Abeja) (c : Colmena) : Abeja * Colmena :=
  match hilo b with
  | Creada | Terminada => (b, c)
  | EnBucle =>
      if Abeja_run_sigue (en_plazo o) b c then
        if Abeja_run_descansa b c then (b, c)
        else
          match clase b with
          | Recolectora =>
              let '(polen, c1) := visitar_flor (uniforme o) (id_abeja b) c in
              if 0 <? polen then (con_hilo (RecLleva polen) b, c1) else (b, c1)
          | Almacenadora =>
              match obtener_nectar_cola c with
              | (Some (cantidad, _), c1) => (con_hilo (AlmObtenido cantidad) b, c1)
              | (None, c1) => Almacenadora_sin_nectar b c1
              end
          | Nodriza =>
              match consumir_nectar (id_abeja b) c with
              | (true, c1) => (con_hilo NodConsumido b, c1)
              | (false, c1) => Nodriza_sin_alimento b c1
              end
          | Defensora =>
              if event_ataque c then (con_hilo DefResponde b, c) else (b, c)
          | Reina => (b, c)
          end
      else Abeja_run_finally b c
  | RecLleva polen =>
      (con_hilo (RecPuesto polen) b, cola_nectar_put polen (id_abeja b) c)
  | RecPuesto polen =>
      (con_hilo EnBucle b, contar_recolectado polen (id_abeja b) c)
  | AlmObtenido cantidad =>
      match semaforo_acquire c with
      | Some c1 => (con_hilo (AlmAdquirido cantidad) b, c1)
      | None => (con_hilo EnBucle (con_intentos_vacios 0 b), c)
      end
  | AlmAdquirido cantidad => (con_hilo (AlmContado cantidad) b, ocupar_celda c)
  | AlmContado cantidad =>
      (con_hilo EnBucle (con_intentos_vacios 0 b),
       contar_almacenado cantidad (id_abeja b) c)
  | NodConsumido =>
      match alimentar_si_cabe (id_abeja b) c with
      | (true, c1) => (con_hilo EnBucle (con_intentos_sin_alimento 0 b), c1)
      | (false, c1) => Nodriza_sin_alimento (con_hilo EnBucle b) c1
      end
  | DefResponde => (con_hilo EnBucle b, neutralizar_ataque (id_abeja b) c)
  end.

(** The [finally] of the thread at address [dir]. *)
Definition terminar (dir : nat) (s : Sistema) : Sistema :=
  match abejas s !! dir with
  | Some b => con_abeja_y_colmena dir (Abeja_run_finally b (colmena s)) s
  | None => s
  end.

(** One step of the thread at address [dir]. *)
Definition avanzar (o : Oraculo) (dir : nat) (s : Sistema) : Sistema :=
  match abejas s !! dir with
  | None => s
  | Some b =>
      match clase b, hilo b with
      | Reina, EnBucle =>
          if Abeja_run_sigue (en_plazo o) b (colmena s) then
            if Abeja_run_descansa b (colmena s) then s
            else
              let '(s1, excepcion) := Reina_trabajar o s in
              if excepcion then terminar dir s1 else s1
          else terminar dir s
      | _, _ => con_abeja_y_colmena dir (paso_obrera o b (colmena s)) s
      end
  end.

(** What can happen to the program state: the statements of [main] and of
    the threads of [eventos.py] that touch it, and the steps of the agent
    threads. *)
Inductive Evento : Type :=
| EvObrera (cl : Clase) (id : option string) (uuid : string)
    (* main: fabrica[rol](colmena, ...) *)
| EvReina (equilibrio : option (list (string * Q))) (id : option string)
    (uuid : string)
    (* main: Reina(colmena) *)
| EvStart (dir : nat)                    (* abeja.start() *)
| EvAgregar (dir : nat)                  (* reina.agregar_abeja(abeja) *)
| EvAvanzar (o : Oraculo) (dir : nat)    (* one step of an agent thread *)
| EvClima (lluvia : bool) (calidad : Q)  (* EventoClima: cambiar_clima *)
| EvCicloDia (es_dia : bool)             (* EventoDiaNoche: cambiar_ciclo_dia *)
| EvAtaque                               (* EventoAtaque: registrar_ataque *)
| EvAtaqueVencido                        (* EventoAtaque: event_ataque.clear() *)
| EvFinSimulacion.                       (* GestorEventos: event_fin_simulacion.set() *)

Definition ejecutar (e : Evento) (s : Sistema) : Sistema :=
  match e with
  | EvObrera cl id uuid =>
      match cl with
      | Reina => s
      | _ => snd (Abeja_init cl id uuid s)
      end
  | EvReina equilibrio id uuid => snd (Reina_init equilibrio id uuid s)
  | EvStart dir => Thread_start dir s
  | EvAgregar dir => agregar_abeja dir s
  | EvAvanzar o dir => avanzar o dir s
  | EvClima lluvia calidad => con_colmena (cambiar_clima lluvia calidad (colmena s)) s
  | EvCicloDia es_dia => con_colmena (cambiar_ciclo_dia es_dia (colmena s)) s
  | EvAtaque => con_colmena (registrar_ataque (colmena s)) s
  | EvAtaqueVencido => con_colmena (con_event_ataque false (colmena s)) s
  | EvFinSimulacion => con_colmena (con_event_fin_simulacion true (colmena s)) s
  end.

(** The state after a sequence of events, oldest first. *)
Definition ejecutar_todos (es : list Evento) (s : Sistema) : Sistema :=
  fold_left (fun s e => ejecutar e s) es s.

(** The reachable states: those a hive that could be constructed reaches
    through some sequence of events. *)
Inductive alcanzable : Sistema -> Prop :=
| alcanzable_inicial cap pol larv c :
    Colmena_init cap pol larv = Some c ->
    alcanzable (Sistema_inicial c)
| alcanzable_paso e s :
    alcanzable s -> alcanzable (ejecutar e s).

(** ** Runs of sequential calls, for the scenarios *)

(** [almacenar_nectar] called once per element of [lotes], in order. *)
Fixpoint almacenar_todos (lotes : list (Z * string)) (c : Colmena)
    : list bool * Colmena :=
  match lotes with
  | [] => ([], c)
  | (cantidad, id) :: lotes' =>
      let '(r, c1) := almacenar_nectar cantidad id c in
      let '(rs, c2) := almacenar_todos lotes' c1 in
      (r :: rs, c2)
  end.

(** ** What the invariants look at *)

(** The part of the hive the worker sections read and write. *)
Definition vista (c : Colmena)
    : Z * Z * Z * Z * Z * list (Z * string) * Z * Z :=
  (capacidad_celdas c, celdas_ocupadas c, semaforo_celdas c, num_larvas c,
   larvas_alimentadas c, queue_nectar c,
   nectar_recolectado (contador_global c),
   nectar_almacenado (contador_global c)).

(** A thread outside any call of [trabajar] counts as [EnBucle]. *)
Definition fase (h : Hilo) : Hilo :=
  match h with
  | Creada | Terminada => EnBucle
  | _ => h
  end.

Definition fases (l : list Abeja) : list Hilo := map (fun b => fase (hilo b)) l.

(** Sum of a weight over the threads. *)
Definition peso (f : Hilo -> Z) (fs : list Hilo) : Z :=
  foldr (fun h acc => f h + acc) 0 fs.

(** A permit of [semaforo_celdas] taken and not yet turned into an
    occupied cell. *)
Definition permiso (h : Hilo) : Z :=
  match h with AlmAdquirido _ => 1 | _ => 0 end.

(** Nectar dequeued by a storer and not yet counted as stored. *)
Definition en_mano (h : Hilo) : Z :=
  match h with
  | AlmObtenido q | AlmAdquirido q | AlmContado q => q
  | _ => 0
  end.

(** Nectar already in [queue_nectar] whose forager has not yet added it to
    [nectar_recolectado]. *)
Definition sin_contar (h : Hilo) : Z :=
  match h with RecPuesto q => q | _ => 0 end.

(** Every amount a thread carries is positive. *)
Definition lleva_positivo (h : Hilo) : Prop :=
  match h with
  | RecLleva q | RecPuesto q | AlmObtenido q | AlmAdquirido q | AlmContado q =>
      0 < q
  | _ => True
  end.

(** [sum] of the amounts waiting in [queue_nectar]. *)
Definition en_cola (q : list (Z * string)) : Z :=
  foldr (fun x acc => fst x + acc) 0 q.

Record Inv (c : Colmena) (fs : list Hilo) : Prop := mkInv {
  inv_semaforo : 0 <= semaforo_celdas c;
  inv_celdas : 0 <= celdas_ocupadas c;
  inv_permisos :
    semaforo_celdas c + celdas_ocupadas c + peso permiso fs = capacidad_celdas c;
  inv_larvas_0 : 0 <= larvas_alimentadas c;
  inv_larvas :
    larvas_alimentadas c <= num_larvas c \/
    (num_larvas c < 0 /\ larvas_alimentadas c = 0);
  inv_lleva : Forall lleva_positivo fs;
  inv_cola : Forall (fun x => 0 < fst x) (queue_nectar c);
  inv_nectar :
    nectar_almacenado (contador_global c) + en_cola (queue_nectar c)
      + peso en_mano fs
    <= nectar_recolectado (contador_global c) + peso sin_contar fs
}.

Definition Inv_sistema (s : Sistema) : Prop :=
  Inv (colmena s) (fases (abejas s)).

(** [s'] differs from [s] only outside the view and by threads that are
    outside [trabajar]. *)
Definition extiende (s s' : Sistema) : Prop :=
  vista (colmena s') = vista (colmena s) /\
  exists k, fases (abejas s') = fases (abejas s) ++ replicate k EnBucle.

(** ** Observations used in the statements *)

(** [alimentar_larva] called once per element of [ids], in order. *)
Fixpoint alimentar_todos (ids : list string) (c : Colmena)
    : list bool * Colmena :=
  match ids with
  | [] => ([], c)
  | id :: ids' =>
      let '(r, c1) := alimentar_larva id c in
      let '(rs, c2) := alimentar_todos ids' c1 in
      (r :: rs, c2)
  end.

(** The sum of the role census. *)
Definition censo_total (s : Sistema) : Z :=
  Py.sum_values (obtener_distribucion_roles (colmena s)).

(** The number of agents currently alive. *)
Definition vivas (s : Sistema) : Z :=
  foldr (fun b acc => (if viva b then 1 else 0) + acc) 0 (abejas s).

(** The deviations [identificar_desequilibrio] computes in state [s]. *)
Definition desviaciones (s : Sistema) : list (string * Desviacion) :=
  calcular_diferencias (equilibrio_ideal s)
    (obtener_distribucion_roles (colmena s)).

(** The first [n] steps of the thread at [dir], with the same oracle. *)
Definition avanzar_n (n : nat) (o : Oraculo) (dir : nat) : list Evento :=
  replicate n (EvAvanzar o dir).

(** What the census does count: the agent objects constructed so far,
    dead or alive. *)
Definition censo_cuenta_objetos (s : Sistema) : Prop :=
  censo_total s = Z.of_nat (length (abejas s)).

(** The state a constructible hive reaches through [es], [None] when the
    constructor raises. *)
Definition correr (capacidad_celdas capacidad_polen num_larvas : Z)
    (es : list Evento) : option Sistema :=
  match Colmena_init capacidad_celdas capacidad_polen num_larvas with
  | Some c => Some (ejecutar_todos es (Sistema_inicial c))
  | None => None
  end.

(** *** Sample oracles and event sequences *)

(** A turn within the lifespan: the draw of [visitar_flor] is 5, the draw of
    [Reina.trabajar] is 1 (no rebalance), the fresh identifier is ["b2"]. *)
Definition oraculo_en_plazo : Oraculo := mkOraculo true 5 1 "b2".

(** A turn after the lifespan has elapsed. *)
Definition oraculo_vencida : Oraculo := mkOraculo false 5 1 "b2".

(** A forager visits a flower and appends its batch to [queue_nectar]; before
    it adds the batch to [nectar_recolectado], a storer dequeues the batch and
    stores it. *)
Definition traza_adelantada : list Evento :=
  [EvObrera Recolectora (Some "r1") "x"; EvObrera Almacenadora (Some "a1") "x";
   EvStart 0; EvStart 1]
  ++ avanzar_n 2 oraculo_en_plazo 0 ++ avanzar_n 4 oraculo_en_plazo 1.

(** The census of Scenario C, and the census after one forager has become a
    storer. *)
Definition censo_escenario_C : gmap string Z :=
  <["recolectora" := 4]> (<["almacenadora" := 1]>
    (<["nodriza" := 1]> (<["defensora" := 1]> ∅))).

Definition censo_escenario_C_final : gmap string Z :=
  <["recolectora" := 3]> (<["almacenadora" := 2]>
    (<["nodriza" := 1]> (<["defensora" := 1]> ∅))).

(** A program state with a given census, heap and registry, on a default
    hive and the default ratios. *)
Definition sistema_con (censo : gmap string Z) (heap : list Abeja)
    (registro : list (string * nat)) : option Sistema :=
  match Colmena_por_defecto with
  | Some c =>
      Some (mkSistema (con_abejas_por_rol censo c) heap
              equilibrio_por_defecto registro)
  | None => None
  end.

(** A colony with the census of Scenario C: one storer, four foragers, one
    nurse and one guard, all started and all registered with the queen. *)
Definition colonia_escenario_C : list Abeja :=
  [mkAbeja Almacenadora "a1" "almacenadora" true 0 0 EnBucle;
   mkAbeja Recolectora "r1" "recolectora" true 0 0 EnBucle;
   mkAbeja Recolectora "r2" "recolectora" true 0 0 EnBucle;
   mkAbeja Recolectora "r3" "recolectora" true 0 0 EnBucle;
   mkAbeja Recolectora "r4" "recolectora" true 0 0 EnBucle;
   mkAbeja Nodriza "n1" "nodriza" true 0 0 EnBucle;
   mkAbeja Defensora "d1" "defensora" true 0 0 EnBucle].

Definition registro_escenario_C : list (string * nat) :=
  [("a1", 0%nat); ("r1", 1%nat); ("r2", 2%nat); ("r3", 3%nat); ("r4", 4%nat);
   ("n1", 5%nat); ("d1", 6%nat)].

(** The queen and one nurse are constructed, started and registered as
    [main] does; the lifespan of the nurse elapses and it dies. *)
Definition traza_muerte : list Evento :=
  [EvReina None (Some "reina") "q"; EvStart 0;
   EvObrera Nodriza (Some "n1") "x"; EvStart 1; EvAgregar 1;
   EvAvanzar oraculo_vencida 1].

(** Then the queen takes the death message and creates the replacement. *)
Definition traza_reemplazo : list Evento :=
  traza_muerte ++ [EvAvanzar oraculo_en_plazo 0].

(** ** One iteration of [run] without interleaving *)

(** The [trabajar] the class of a worker dispatches to. *)
Definition trabajar (o : Oraculo) (b : Abeja) (c : Colmena) : Abeja * Colmena :=
  match clase b with
  | Recolectora => Recolectora_trabajar (uniforme o) b c
  | Almacenadora => Almacenadora_trabajar b c
  | Nodriza => Nodriza_trabajar b c
  | Defensora => Defensora_trabajar b c
  | Reina => (b, c)
  end.

(** One pass through the [while] of [Abeja.run] for a worker, or the
    [finally] when the test fails. *)
Definition Abeja_run_iteracion (o : Oraculo) (b : Abeja) (c : Colmena)
    : Abeja * Colmena :=
  if Abeja_run_sigue (en_plazo o) b c then
    if Abeja_run_descansa b c then (b, c) else trabajar o b c
  else Abeja_run_finally b c.

(** At most [n] further steps of a worker, stopping when it is back outside
    [trabajar]. *)
Fixpoint completar (n : nat) (o : Oraculo) (bc : Abeja * Colmena)
    : Abeja * Colmena :=
  match n with
  | O => bc
  | S n' =>
      match hilo (fst bc) with
      | Creada | EnBucle | Terminada => bc
      | _ => completar n' o (paso_obrera o (fst bc) (snd bc))
      end
  end.

(** The start of [main] with the population of Scenario C: the queen, then
    each worker constructed, started and registered. *)
Definition traza_escenario_C : list Evento :=
  [EvReina None (Some "reina") "q"; EvStart 0;
   EvObrera Recolectora (Some "r1") "x"; EvStart 1; EvAgregar 1;
   EvObrera Recolectora (Some "r2") "x"; EvStart 2; EvAgregar 2;
   EvObrera Recolectora (Some "r3") "x"; EvStart 3; EvAgregar 3;
   EvObrera Recolectora (Some "r4") "x"; EvStart 4; EvAgregar 4;
   EvObrera Almacenadora (Some "a1") "x"; EvStart 5; EvAgregar 5;
   EvObrera Nodriza (Some "n1") "x"; EvStart 6; EvAgregar 6;
   EvObrera Defensora (Some "d1") "x"; EvStart 7; EvAgregar 7].

(** ** Further observations *)

(** The part of the hive that no method of the queen writes: everything
    but the census, her mailbox and the counter of role changes. *)
Definition marco (c : Colmena) :=
  (capacidad_celdas c, capacidad_polen c, celdas_ocupadas c, num_larvas c,
   larvas_alimentadas c, queue_nectar c,
   (nectar_recolectado (contador_global c),
    nectar_almacenado (contador_global c),
    ataques_detectados (contador_global c),
    ataques_neutralizados (contador_global c),
    flores_visitadas (contador_global c),
    cg_larvas_alimentadas (contador_global c)),
   estadisticas_abejas c, semaforo_celdas c,
   (event_ataque c, event_dia c, event_lluvia c, event_fin_simulacion c),
   calidad_flores c).

(** [b'] is a later state of the agent object [b]: same class, same
    identifier, same [activa]; a thread that has finished stays finished and
    a thread is never put back to before its start. *)
Definition misma_identidad (b b' : Abeja) : Prop :=
  clase b' = clase b /\ id_abeja b' = id_abeja b /\ activa b' = activa b /\
  (hilo b = Terminada -> hilo b' = Terminada) /\
  (hilo b' = Creada -> hilo b = Creada).

(** [l'] is a later state of the heap [l]: every object is still at its
    address, and new objects come after the old ones. *)
Definition heap_crece (l l' : list Abeja) : Prop :=
  (length l <= length l')%nat /\
  forall dir b, l !! dir = Some b ->
    exists b', l' !! dir = Some b' /\ misma_identidad b b'.

(** What a step of the queen, a construction or a thread start may do. *)
Definition respeta (s s' : Sistema) : Prop :=
  marco (colmena s') = marco (colmena s) /\
  heap_crece (abejas s) (abejas s').

(** The registry of the queen is a dictionary (no identifier twice) whose
    every entry refers to an existing agent with that identifier. *)
Definition registro_bien_formado (s : Sistema) : Prop :=
  NoDup (map fst (abejas_activas s)) /\
  forall id dir, In (id, dir) (abejas_activas s) ->
    exists b, abejas s !! dir = Some b /\ id_abeja b = id.

(** The deviation of one role in state [s], as the loop of
    [identificar_desequilibrio] computes it. *)
Definition desviacion_de (s : Sistema) (rol : string) : Desviacion :=
  diferencia_de
    (calcular_roles_ideales (censo_total s) (equilibrio_ideal s))
    (obtener_distribucion_roles (colmena s)) rol.

(** [agregar_nectar_cola] called once per element of [lotes], in order. *)
Fixpoint agregar_todos (lotes : list (Z * string)) (c : Colmena) : Colmena :=
  match lotes with
  | [] => c
  | (cantidad, id) :: lotes' =>
      agregar_todos lotes' (agregar_nectar_cola cantidad id c)
  end.

(** [obtener_nectar_cola] called [n] times. *)
Fixpoint obtener_todos (n : nat) (c : Colmena)
    : list (option (Z * string)) * Colmena :=
  match n with
  | O => ([], c)
  | S n' =>
      let '(r, c1) := obtener_nectar_cola c in
      let '(rs, c2) := obtener_todos n' c1 in
      (r :: rs, c2)
  end.

(** [n] consecutive calls of a [trabajar] on the same agent. *)
Definition trabajar_n (f : Abeja -> Colmena -> Abeja * Colmena) (n : nat)
    (b : Abeja) (c : Colmena) : Abeja * Colmena :=
  Nat.iter n (fun bc => f (fst bc) (snd bc)) (b, c).

(** The sum over all agents of one of their statistics:
    [sum(e[k] for e in estadisticas_abejas.values())]. *)
Definition suma_estadistica (k : string) (e : gmap string (gmap string Z)) : Z :=
  map_fold (fun _ fila acc => Py.get0 fila k + acc) 0 e.

(** Nectar a forager has brought from a flower and not yet added to
    [nectar_recolectado]. *)
Definition por_contar (h : Hilo) : Z :=
  match h with RecLleva q | RecPuesto q => q | _ => 0 end.

(** The global counters agree with the statistics kept per agent, the two
    counts of fed larvae agree, and the nectar collected or on its way is
    covered by the visits made. *)
Record Inv_cuentas (c : Colmena) (fs : list Hilo) : Prop := mkInv_cuentas {
  ic_recolectado :
    suma_estadistica "nectar_recolectado" (estadisticas_abejas c)
    = nectar_recolectado (contador_global c);
  ic_almacenado :
    suma_estadistica "nectar_almacenado" (estadisticas_abejas c)
    = nectar_almacenado (contador_global c);
  ic_flores :
    suma_estadistica "flores_visitadas" (estadisticas_abejas c)
    = flores_visitadas (contador_global c);
  ic_larvas :
    suma_estadistica "larvas_alimentadas" (estadisticas_abejas c)
    = cg_larvas_alimentadas (contador_global c);
  ic_neutralizados :
    suma_estadistica "ataques_neutralizados" (estadisticas_abejas c)
    = ataques_neutralizados (contador_global c);
  ic_larvas_campo :
    cg_larvas_alimentadas (contador_global c) = larvas_alimentadas c;
  ic_visitas :
    nectar_recolectado (contador_global c) + peso por_contar fs
    <= Z.max 0 (capacidad_polen c) * flores_visitadas (contador_global c)
}.

Definition Inv_cuentas_sistema (s : Sistema) : Prop :=
  Inv_cuentas (colmena s) (fases (abejas s)).




(** The start of [main] with a population in which every role has its ideal
    count: the queen, four foragers, two storers, two nurses and one guard
    (total 10), each worker constructed, started and registered. *)
Definition traza_equilibrada : list Evento :=
  [EvReina None (Some "reina") "q"; EvStart 0;
   EvObrera Recolectora (Some "r1") "x"; EvStart 1; EvAgregar 1;
   EvObrera Recolectora (Some "r2") "x"; EvStart 2; EvAgregar 2;
   EvObrera Recolectora (Some "r3") "x"; EvStart 3; EvAgregar 3;
   EvObrera Recolectora (Some "r4") "x"; EvStart 4; EvAgregar 4;
   EvObrera Almacenadora (Some "a1") "x"; EvStart 5; EvAgregar 5;
   EvObrera Almacenadora (Some "a2") "x"; EvStart 6; EvAgregar 6;
   EvObrera Nodriza (Some "n1") "x"; EvStart 7; EvAgregar 7;
   EvObrera Nodriza (Some "n2") "x"; EvStart 8; EvAgregar 8;
   EvObrera Defensora (Some "d1") "x"; EvStart 9; EvAgregar 9].

(** A program state with a given census, ratio table, heap and registry, on
    a default hive. *)
Definition sistema_con_tabla (censo : gmap string Z)
    (tabla : list (string * Q)) (heap : list Abeja)
    (registro : list (string * nat)) : option Sistema :=
  match Colmena_por_defecto with
  | Some c =>
      Some (mkSistema (con_abejas_por_rol censo c) heap tabla registro)
  | None => None
  end.

(** * Proofs *)

(** ** Weights over the threads *)

Lemma peso_app f fs gs : peso f (fs ++ gs) = peso f fs + peso f gs.
Proof.
  induction fs as [|h fs IH]; simpl; [lia|]. rewrite IH. lia.
Qed.

Lemma peso_replicate f k h : f h = 0 -> peso f (replicate k h) = 0.
Proof.
  intros Hh. induction k as [|k IH]; simpl; [reflexivity|]. rewrite IH, Hh. lia.
Qed.

Lemma peso_insert f (fs : list Hilo) i h h' :
  fs !! i = Some h -> peso f (<[i := h']> fs) = peso f fs - f h + f h'.
Proof.
  revert i. induction fs as [|x fs IH]; intros [|i] Hi; simpl in *;
    try discriminate.
  - injection Hi as ->. lia.
  - rewrite (IH i Hi). lia.
Qed.

Lemma fases_insert (l : list Abeja) i b :
  fases (<[i := b]> l) = <[i := fase (hilo b)]> (fases l).
Proof. unfold fases. apply (list_fmap_insert (fun b => fase (hilo b))). Qed.

Lemma fases_lookup (l : list Abeja) i b :
  l !! i = Some b -> fases l !! i = Some (fase (hilo b)).
Proof. intros H. unfold fases. rewrite list_lookup_fmap, H. reflexivity. Qed.

Lemma fases_app l1 l2 : fases (l1 ++ l2) = fases l1 ++ fases l2.
Proof. unfold fases. apply map_app. Qed.

Lemma peso_en_mano_nonneg fs : Forall lleva_positivo fs -> 0 <= peso en_mano fs.
Proof.
  induction 1 as [|h fs Hh _ IH]; simpl; [lia|].
  destruct h; simpl in *; lia.
Qed.

Lemma en_cola_nonneg q : Forall (fun x => 0 < fst x) q -> 0 <= en_cola q.
Proof. induction 1; simpl; lia. Qed.

Lemma en_cola_app q1 q2 : en_cola (q1 ++ q2) = en_cola q1 + en_cola q2.
Proof. induction q1 as [|x q1 IH]; simpl; [lia|]. rewrite IH. lia. Qed.

(** ** The invariant *)

Lemma Inv_vista c c' fs : vista c' = vista c -> Inv c fs -> Inv c' fs.
Proof.
  unfold vista. intros H [H1 H2 H3 H4 H5 H6 H7 H8].
  injection H as E1 E2 E3 E4 E5 E6 E7 E8.
  constructor; rewrite ?E1, ?E2, ?E3, ?E4, ?E5, ?E6, ?E7, ?E8; assumption.
Qed.

Lemma Inv_reposo c fs k : Inv c fs -> Inv c (fs ++ replicate k EnBucle).
Proof.
  intros [H1 H2 H3 H4 H5 H6 H7 H8].
  constructor; rewrite ?peso_app, ?peso_replicate by reflexivity;
    try assumption; try lia.
  apply Forall_app. split; [assumption|].
  apply Forall_replicate. exact I.
Qed.

Lemma Inv_extiende s s' : extiende s s' -> Inv_sistema s -> Inv_sistema s'.
Proof.
  unfold Inv_sistema. intros [Hv [k Hk]] H. rewrite Hk.
  apply Inv_reposo. eapply Inv_vista; eassumption.
Qed.

Lemma extiende_refl s : extiende s s.
Proof. split; [reflexivity|]. exists 0%nat. simpl. now rewrite app_nil_r. Qed.

Lemma extiende_trans s1 s2 s3 : extiende s1 s2 -> extiende s2 s3 -> extiende s1 s3.
Proof.
  intros [V1 [k1 F1]] [V2 [k2 F2]]. split; [congruence|].
  exists (k1 + k2)%nat. rewrite F2, F1, <- app_assoc, replicate_add. reflexivity.
Qed.

Lemma Inv_inicial cap pol larv c :
  Colmena_init cap pol larv = Some c -> Inv c [].
Proof.
  unfold Colmena_init. destruct (Z.ltb_spec cap 0); [discriminate|].
  intros [= <-]. constructor; simpl; try lia; constructor.
Qed.

(** The hive fields after each critical section. *)
Lemma semaforo_acquire_Some c c1 :
  semaforo_acquire c = Some c1 ->
  0 < semaforo_celdas c /\ c1 = con_semaforo_celdas (semaforo_celdas c - 1) c.
Proof.
  unfold semaforo_acquire. destruct (Z.ltb_spec 0 (semaforo_celdas c));
    [|discriminate]. intros [= <-]. split; [assumption|reflexivity].
Qed.

Lemma visitar_flor_vista azar id c :
  vista (snd (visitar_flor azar id c)) = vista c.
Proof.
  unfold visitar_flor. destruct (negb (event_dia c)); reflexivity.
Qed.

Ltac inv_paso Hi :=
  constructor;
  rewrite ?(peso_insert _ _ _ _ _ Hi); simpl;
  try (apply Forall_insert; [assumption|simpl]);
  try assumption; try lia.

Lemma paso_obrera_Inv o b c fs i :
  fs !! i = Some (fase (hilo b)) -> Inv c fs ->
  Inv (snd (paso_obrera o b c))
      (<[i := fase (hilo (fst (paso_obrera o b c)))]> fs).
Proof.
  intros Hi HI.
  assert (Hpos : lleva_positivo (fase (hilo b))).
  { destruct HI as [_ _ _ _ _ H6 _ _].
    rewrite Forall_lookup in H6. exact (H6 _ _ Hi). }
  assert (Hid : forall c', vista c' = vista c -> Inv c' (<[i := fase (hilo b)]> fs)).
  { intros c' Hv. rewrite list_insert_id by assumption.
    eapply Inv_vista; eassumption. }
  unfold paso_obrera.
  destruct (hilo b) eqn:Hh; simpl in Hi, Hpos.
  - (* Creada *) simpl. rewrite Hh. apply Hid. reflexivity.
  - (* EnBucle *)
    destruct (Abeja_run_sigue (en_plazo o) b c).
    + destruct (Abeja_run_descansa b c).
      { simpl. rewrite Hh. apply Hid. reflexivity. }
      destruct (clase b).
      * (* Recolectora *)
        pose proof (visitar_flor_vista (uniforme o) (id_abeja b) c) as Hv.
        destruct (visitar_flor (uniforme o) (id_abeja b) c) as [polen c1].
        simpl in Hv.
        destruct (Z.ltb_spec 0 polen); simpl.
        -- apply (Inv_vista c c1) in HI; [|exact Hv].
           destruct HI as [H1 H2 H3 H4 H5 H6 H7 H8]. inv_paso Hi.
        -- rewrite Hh. apply Hid. assumption.
      * (* Almacenadora *)
        unfold obtener_nectar_cola.
        destruct (queue_nectar c) as [|[q id0] cola] eqn:Hq.
        -- unfold Almacenadora_sin_nectar.
           destruct (10 <? intentos_vacios b + 1); simpl; rewrite Hh;
             apply Hid; reflexivity.
        -- simpl. destruct HI as [H1 H2 H3 H4 H5 H6 H7 H8].
           rewrite Hq in H7, H8. inversion H7; subst. simpl in *.
           inv_paso Hi.
      * (* Nodriza *)
        unfold consumir_nectar.
        destruct (Z.ltb_spec 0 (celdas_ocupadas c)); simpl.
        -- destruct HI as [H1 H2 H3 H4 H5 H6 H7 H8]. inv_paso Hi.
        -- unfold Nodriza_sin_alimento.
           destruct (5 <? intentos_sin_alimento b + 1); simpl; rewrite Hh;
             apply Hid; reflexivity.
      * (* Defensora *)
        destruct (event_ataque c); simpl.
        -- destruct HI as [H1 H2 H3 H4 H5 H6 H7 H8]. inv_paso Hi.
        -- rewrite Hh. apply Hid. reflexivity.
      * (* Reina *) simpl. rewrite Hh. apply Hid. reflexivity.
    + (* finally *)
      unfold Abeja_run_finally. simpl.
      destruct (negb (event_fin_simulacion c)); apply Hid; reflexivity.
  - (* RecLleva *)
    simpl. destruct HI as [H1 H2 H3 H4 H5 H6 H7 H8]. inv_paso Hi.
    + apply Forall_app. split; [assumption|]. constructor; [simpl; lia|constructor].
    + rewrite en_cola_app. simpl. lia.
  - (* RecPuesto *)
    simpl. destruct HI as [H1 H2 H3 H4 H5 H6 H7 H8]. inv_paso Hi.
  - (* AlmObtenido *)
    destruct (semaforo_acquire c) as [c1|] eqn:Hs; simpl.
    + apply semaforo_acquire_Some in Hs as [Hs ->].
      destruct HI as [H1 H2 H3 H4 H5 H6 H7 H8]. inv_paso Hi.
    + destruct HI as [H1 H2 H3 H4 H5 H6 H7 H8]. inv_paso Hi.
  - (* AlmAdquirido *)
    simpl. destruct HI as [H1 H2 H3 H4 H5 H6 H7 H8]. inv_paso Hi.
  - (* AlmContado *)
    simpl. destruct HI as [H1 H2 H3 H4 H5 H6 H7 H8]. inv_paso Hi.
  - (* NodConsumido *)
    unfold alimentar_si_cabe.
    destruct (Z.ltb_spec (larvas_alimentadas c) (num_larvas c)); simpl.
    + destruct HI as [H1 H2 H3 H4 H5 H6 H7 H8]. inv_paso Hi.
    + unfold Nodriza_sin_alimento. simpl.
      destruct (5 <? intentos_sin_alimento b + 1); simpl;
        destruct HI as [H1 H2 H3 H4 H5 H6 H7 H8]; inv_paso Hi.
  - (* DefResponde *)
    simpl. destruct HI as [H1 H2 H3 H4 H5 H6 H7 H8]. inv_paso Hi.
  - (* Terminada *) simpl. rewrite Hh. apply Hid. reflexivity.
Qed.

(** ** The queen and the constructors stay outside the view *)

Lemma extiende_mismo s s' :
  vista (colmena s') = vista (colmena s) ->
  fases (abejas s') = fases (abejas s) -> extiende s s'.
Proof.
  intros Hv Hf. split; [assumption|]. exists 0%nat.
  simpl. rewrite app_nil_r. assumption.
Qed.

Lemma fases_insert_misma (l : list Abeja) i b b' :
  l !! i = Some b -> fase (hilo b') = fase (hilo b) ->
  fases (<[i := b']> l) = fases l.
Proof.
  intros Hl Hf. rewrite fases_insert, Hf.
  apply list_insert_id, fases_lookup, Hl.
Qed.

Lemma Abeja_init_extiende cl id uuid s :
  extiende s (snd (Abeja_init cl id uuid s)).
Proof.
  split; [reflexivity|]. exists 1%nat. simpl. apply fases_app.
Qed.

Lemma Thread_start_extiende dir s : extiende s (Thread_start dir s).
Proof.
  unfold Thread_start. destruct (abejas s !! dir) as [b|] eqn:Hb;
    [|apply extiende_refl].
  destruct (hilo b) eqn:Hh; try apply extiende_refl.
  apply extiende_mismo; [reflexivity|]. simpl.
  apply fases_insert_misma with b; [assumption|]. rewrite Hh. reflexivity.
Qed.

Lemma agregar_abeja_extiende dir s : extiende s (agregar_abeja dir s).
Proof.
  unfold agregar_abeja. destruct (abejas s !! dir);
    [apply extiende_mismo; reflexivity|apply extiende_refl].
Qed.

Lemma Abeja_cambiar_rol_extiende dir r s : extiende s (Abeja_cambiar_rol dir r s).
Proof.
  unfold Abeja_cambiar_rol. destruct (abejas s !! dir) as [b|] eqn:Hb;
    [|apply extiende_refl].
  apply extiende_mismo; [reflexivity|]. simpl.
  apply fases_insert_misma with b; [assumption|reflexivity].
Qed.

Lemma crear_abeja_extiende r uuid s : extiende s (snd (crear_abeja r uuid s)).
Proof.
  unfold crear_abeja. destruct (fabrica_abejas r) as [cl|];
    [|apply extiende_refl].
  pose proof (Abeja_init_extiende cl None uuid s) as H.
  destruct (Abeja_init cl None uuid s) as [dir s1]. simpl in *.
  eapply extiende_trans; [exact H|].
  eapply extiende_trans; [apply agregar_abeja_extiende|].
  apply Thread_start_extiende.
Qed.

Lemma procesar_mensaje_extiende m uuid s : extiende s (procesar_mensaje m uuid s).
Proof.
  destruct m as [r id|r id n|r id|]; simpl.
  - unfold reemplazar_abeja_muerta.
    eapply extiende_trans; [|apply crear_abeja_extiende].
    destruct (dict_in id (abejas_activas s));
      [apply extiende_mismo; reflexivity|apply extiende_refl].
  - destruct (String.eqb r "almacenadora"); [|apply extiende_refl].
    destruct (0 <? _); [|apply extiende_refl].
    destruct (dict_get id (abejas_activas s));
      [apply Abeja_cambiar_rol_extiende|apply extiende_refl].
  - destruct (String.eqb r "nodriza");
      [apply extiende_mismo; reflexivity|apply extiende_refl].
  - apply extiende_refl.
Qed.

Lemma reasignar_roles_extiende s b s' :
  reasignar_roles s = Some (b, s') -> extiende s s'.
Proof.
  unfold reasignar_roles.
  destruct (identificar_desequilibrio s) as [[[re rd]|]|]; try discriminate.
  - destruct (Py.truthy re && Py.truthy rd).
    + destruct (primera_con_rol re (abejas s) (abejas_activas s)).
      * intros [= _ <-]. apply Abeja_cambiar_rol_extiende.
      * intros [= _ <-]. apply extiende_refl.
    + intros [= _ <-]. apply extiende_refl.
  - intros [= _ <-]. apply extiende_refl.
Qed.

Lemma Reina_trabajar_extiende o s : extiende s (fst (Reina_trabajar o s)).
Proof.
  unfold Reina_trabajar, obtener_mensaje_reina.
  assert (H2 : extiende s
    (let '(mensaje, c1) :=
       match queue_reina (colmena s) with
       | [] => (None, colmena s)
       | m :: resto => (Some m, con_queue_reina resto (colmena s))
       end in
     match mensaje with
     | Some m => procesar_mensaje m (uuid o) (con_colmena c1 s)
     | None => con_colmena c1 s
     end)).
  { destruct (queue_reina (colmena s)) as [|m resto].
    - apply extiende_mismo; reflexivity.
    - eapply extiende_trans; [|apply procesar_mensaje_extiende].
      apply extiende_mismo; reflexivity. }
  destruct (queue_reina (colmena s)) as [|m resto];
    (destruct (Qlt_bool (Py.fl (azar1 o)) (Py.fl (2 # 10))); [|exact H2]);
    match goal with
    | |- context [reasignar_roles ?x] =>
        destruct (reasignar_roles x) as [[r s3]|] eqn:Hr; simpl;
        [eapply extiende_trans; [exact H2|];
         eapply reasignar_roles_extiende; exact Hr
        | exact H2]
    end.
Qed.

Lemma terminar_extiende dir s :
  (forall b, abejas s !! dir = Some b -> fase (hilo b) = EnBucle) ->
  extiende s (terminar dir s).
Proof.
  intros H. unfold terminar.
  destruct (abejas s !! dir) as [b|] eqn:Hb; [|apply extiende_refl].
  apply extiende_mismo.
  - unfold Abeja_run_finally. simpl.
    destruct (negb (event_fin_simulacion (colmena s))); reflexivity.
  - simpl. apply fases_insert_misma with b; [assumption|].
    rewrite (H b eq_refl). reflexivity.
Qed.

Lemma extiende_fase s s' dir b :
  extiende s s' -> abejas s !! dir = Some b ->
  exists b', abejas s' !! dir = Some b' /\ fase (hilo b') = fase (hilo b).
Proof.
  intros [_ [k Hk]] Hb.
  apply fases_lookup in Hb.
  assert (H : fases (abejas s') !! dir = Some (fase (hilo b))).
  { rewrite Hk. apply lookup_app_l_Some, Hb. }
  unfold fases in H. rewrite list_lookup_fmap in H.
  destruct (abejas s' !! dir) as [b'|]; [|discriminate].
  exists b'. split; [reflexivity|]. simpl in H. congruence.
Qed.

Lemma Reina_init_extiende e id uuid s : extiende s (snd (Reina_init e id uuid s)).
Proof.
  unfold Reina_init.
  pose proof (Abeja_init_extiende Reina id uuid s) as H.
  destruct (Abeja_init Reina id uuid s) as [dir s1]. simpl in *.
  eapply extiende_trans; [exact H|]. apply extiende_mismo; reflexivity.
Qed.

(** ** Every event keeps the invariant *)

Lemma avanzar_Inv o dir s : Inv_sistema s -> Inv_sistema (avanzar o dir s).
Proof.
  intros HI. unfold avanzar.
  destruct (abejas s !! dir) as [b|] eqn:Hb; [|assumption].
  assert (Hobrera :
    Inv_sistema (con_abeja_y_colmena dir (paso_obrera o b (colmena s)) s)).
  { unfold Inv_sistema, con_abeja_y_colmena. simpl. rewrite fases_insert.
    apply paso_obrera_Inv; [apply fases_lookup, Hb|exact HI]. }
  destruct (clase b); try exact Hobrera.
  destruct (hilo b) eqn:Hh; try exact Hobrera.
  assert (Hfin : forall s1, extiende s s1 -> Inv_sistema (terminar dir s1)).
  { intros s1 Hs1. eapply Inv_extiende; [|exact HI].
    eapply extiende_trans; [exact Hs1|].
    apply terminar_extiende. intros b1 Hb1.
    destruct (extiende_fase _ _ _ _ Hs1 Hb) as [b' [Hb' Hf]].
    rewrite Hb1 in Hb'. injection Hb' as <-. rewrite Hf, Hh. reflexivity. }
  destruct (Abeja_run_sigue (en_plazo o) b (colmena s)).
  - destruct (Abeja_run_descansa b (colmena s)); [assumption|].
    pose proof (Reina_trabajar_extiende o s) as He.
    destruct (Reina_trabajar o s) as [s1 ex]. simpl in He.
    destruct ex; [apply Hfin, He|].
    eapply Inv_extiende; eassumption.
  - apply Hfin, extiende_refl.
Qed.

Lemma ejecutar_Inv e s : Inv_sistema s -> Inv_sistema (ejecutar e s).
Proof.
  intros HI. destruct e as [cl id u|eq id u|dir|dir|o dir|ll q|d| | |]; simpl.
  - destruct cl; try assumption;
      (eapply Inv_extiende; [apply Abeja_init_extiende|assumption]).
  - eapply Inv_extiende; [apply Reina_init_extiende|assumption].
  - eapply Inv_extiende; [apply Thread_start_extiende|assumption].
  - eapply Inv_extiende; [apply agregar_abeja_extiende|assumption].
  - apply avanzar_Inv, HI.
  - eapply Inv_extiende; [|exact HI]. apply extiende_mismo; reflexivity.
  - eapply Inv_extiende; [|exact HI]. apply extiende_mismo; reflexivity.
  - eapply Inv_extiende; [|exact HI]. apply extiende_mismo; reflexivity.
  - eapply Inv_extiende; [|exact HI]. apply extiende_mismo; reflexivity.
  - eapply Inv_extiende; [|exact HI]. apply extiende_mismo; reflexivity.
Qed.

Lemma alcanzable_Inv s : alcanzable s -> Inv_sistema s.
Proof.
  induction 1 as [cap pol larv c Hc|e s _ IH].
  - unfold Inv_sistema. simpl. eapply Inv_inicial, Hc.
  - apply ejecutar_Inv, IH.
Qed.

(** ** The role census *)

Lemma sum_values_delete (d : gmap string Z) k :
  Py.sum_values d = Py.get0 d k + Py.sum_values (delete k d).
Proof.
  unfold Py.sum_values, Py.get0.
  destruct (d !! k) as [x|] eqn:Hk; simpl.
  - apply (map_fold_delete_L (fun _ v acc => v + acc) 0 k x d); [|exact Hk].
    intros. lia.
  - rewrite delete_id by exact Hk. lia.
Qed.

Lemma sum_values_insert (d : gmap string Z) k v :
  Py.sum_values (<[k := v]> d) = v + Py.sum_values (delete k d).
Proof.
  rewrite <- insert_delete_eq. unfold Py.sum_values.
  apply (map_fold_insert_L (fun _ v acc => v + acc) 0 k v (delete k d)).
  - intros. lia.
  - apply lookup_delete_eq.
Qed.

Lemma sum_values_add_at k n d :
  Py.sum_values (Py.add_at k n d) = Py.sum_values d + n.
Proof.
  unfold Py.add_at. rewrite sum_values_insert, (sum_values_delete d k). lia.
Qed.

Lemma get0_add_at_eq k n d : Py.get0 (Py.add_at k n d) k = Py.get0 d k + n.
Proof. unfold Py.add_at, Py.get0 at 1. rewrite lookup_insert_eq. reflexivity. Qed.

Lemma paso_obrera_censo o b c :
  abejas_por_rol (snd (paso_obrera o b c)) = abejas_por_rol c.
Proof.
  unfold paso_obrera.
  destruct (hilo b); simpl; try reflexivity.
  - destruct (Abeja_run_sigue (en_plazo o) b c).
    + destruct (Abeja_run_descansa b c); [reflexivity|].
      destruct (clase b); simpl; try reflexivity.
      * unfold visitar_flor. destruct (negb (event_dia c)); simpl.
        -- reflexivity.
        -- destruct (0 <? _); reflexivity.
      * unfold obtener_nectar_cola.
        destruct (queue_nectar c) as [|[q id0] cola]; simpl; [|reflexivity].
        unfold Almacenadora_sin_nectar. destruct (10 <? _); reflexivity.
      * unfold consumir_nectar. destruct (0 <? _); simpl; [reflexivity|].
        unfold Nodriza_sin_alimento. destruct (5 <? _); reflexivity.
      * destruct (event_ataque c); reflexivity.
    + unfold Abeja_run_finally. simpl.
      destruct (negb (event_fin_simulacion c)); reflexivity.
  - unfold semaforo_acquire. destruct (0 <? _); reflexivity.
  - unfold alimentar_si_cabe. destruct (_ <? _); simpl; [reflexivity|].
    unfold Nodriza_sin_alimento. simpl. destruct (5 <? _); reflexivity.
Qed.

Lemma Abeja_init_cuenta cl id uuid s :
  censo_cuenta_objetos s -> censo_cuenta_objetos (snd (Abeja_init cl id uuid s)).
Proof.
  unfold censo_cuenta_objetos, censo_total, obtener_distribucion_roles. simpl.
  intros H. rewrite sum_values_add_at, H, length_app. simpl. lia.
Qed.

Lemma Thread_start_cuenta dir s :
  censo_cuenta_objetos s -> censo_cuenta_objetos (Thread_start dir s).
Proof.
  unfold Thread_start, censo_cuenta_objetos, censo_total. intros H.
  destruct (abejas s !! dir) as [b|]; [|exact H].
  destruct (hilo b); try exact H. simpl. rewrite length_insert. exact H.
Qed.

Lemma agregar_abeja_cuenta dir s :
  censo_cuenta_objetos s -> censo_cuenta_objetos (agregar_abeja dir s).
Proof.
  unfold agregar_abeja. intros H. destruct (abejas s !! dir); exact H.
Qed.

Lemma cambiar_rol_abeja_total r1 r2 c :
  Py.sum_values (abejas_por_rol (cambiar_rol_abeja r1 r2 c))
  = Py.sum_values (abejas_por_rol c).
Proof. simpl. rewrite !sum_values_add_at. lia. Qed.

Lemma Abeja_cambiar_rol_cuenta dir r s :
  censo_cuenta_objetos s -> censo_cuenta_objetos (Abeja_cambiar_rol dir r s).
Proof.
  unfold Abeja_cambiar_rol, censo_cuenta_objetos, censo_total,
    obtener_distribucion_roles. intros H.
  destruct (abejas s !! dir) as [b|]; [|exact H].
  cbn [colmena abejas con_colmena con_abejas].
  rewrite cambiar_rol_abeja_total, length_insert. exact H.
Qed.

Lemma crear_abeja_cuenta r uuid s :
  censo_cuenta_objetos s -> censo_cuenta_objetos (snd (crear_abeja r uuid s)).
Proof.
  intros H. unfold crear_abeja. destruct (fabrica_abejas r) as [cl|]; [|exact H].
  pose proof (Abeja_init_cuenta cl None uuid s H) as H1.
  destruct (Abeja_init cl None uuid s) as [dir s1]. simpl in *.
  apply Thread_start_cuenta, agregar_abeja_cuenta, H1.
Qed.

Lemma procesar_mensaje_cuenta m uuid s :
  censo_cuenta_objetos s -> censo_cuenta_objetos (procesar_mensaje m uuid s).
Proof.
  intros H. destruct m as [r id|r id n|r id|]; simpl.
  - apply crear_abeja_cuenta. destruct (dict_in id (abejas_activas s)); exact H.
  - destruct (String.eqb r "almacenadora"); [|exact H].
    destruct (0 <? _); [|exact H].
    destruct (dict_get id (abejas_activas s));
      [apply Abeja_cambiar_rol_cuenta|]; exact H.
  - destruct (String.eqb r "nodriza"); exact H.
  - exact H.
Qed.

Lemma reasignar_roles_cuenta s b s' :
  reasignar_roles s = Some (b, s') ->
  censo_cuenta_objetos s -> censo_cuenta_objetos s'.
Proof.
  unfold reasignar_roles. intros Hr H.
  destruct (identificar_desequilibrio s) as [[[re rd]|]|]; try discriminate.
  - destruct (Py.truthy re && Py.truthy rd).
    + destruct (primera_con_rol re (abejas s) (abejas_activas s));
        injection Hr as _ <-; [apply Abeja_cambiar_rol_cuenta|]; exact H.
    + injection Hr as _ <-. exact H.
  - injection Hr as _ <-. exact H.
Qed.

Lemma Reina_trabajar_cuenta o s :
  censo_cuenta_objetos s -> censo_cuenta_objetos (fst (Reina_trabajar o s)).
Proof.
  intros H. unfold Reina_trabajar, obtener_mensaje_reina.
  destruct (queue_reina (colmena s)) as [|m resto].
  - destruct (Qlt_bool (Py.fl (azar1 o)) (Py.fl (2 # 10))); [|exact H].
    destruct (reasignar_roles _) as [[r s3]|] eqn:Hr; simpl; [|exact H].
    eapply reasignar_roles_cuenta; [exact Hr|exact H].
  - assert (H2 : censo_cuenta_objetos
      (procesar_mensaje m (uuid o)
         (con_colmena (con_queue_reina resto (colmena s)) s))).
    { apply procesar_mensaje_cuenta. exact H. }
    destruct (Qlt_bool (Py.fl (azar1 o)) (Py.fl (2 # 10))); [|exact H2].
    destruct (reasignar_roles _) as [[r s3]|] eqn:Hr; simpl; [|exact H2].
    eapply reasignar_roles_cuenta; [exact Hr|exact H2].
Qed.

Lemma terminar_cuenta dir s :
  censo_cuenta_objetos s -> censo_cuenta_objetos (terminar dir s).
Proof.
  unfold terminar, censo_cuenta_objetos, censo_total. intros H.
  destruct (abejas s !! dir) as [b|]; [|exact H].
  unfold Abeja_run_finally. simpl. rewrite length_insert.
  destruct (negb (event_fin_simulacion (colmena s))); exact H.
Qed.

Lemma avanzar_cuenta o dir s :
  censo_cuenta_objetos s -> censo_cuenta_objetos (avanzar o dir s).
Proof.
  intros H. unfold avanzar.
  destruct (abejas s !! dir) as [b|] eqn:Hb; [|exact H].
  assert (Hobrera : censo_cuenta_objetos
    (con_abeja_y_colmena dir (paso_obrera o b (colmena s)) s)).
  { unfold censo_cuenta_objetos, censo_total, obtener_distribucion_roles.
    simpl. rewrite paso_obrera_censo, length_insert. exact H. }
  destruct (clase b); try exact Hobrera.
  destruct (hilo b); try exact Hobrera.
  destruct (Abeja_run_sigue (en_plazo o) b (colmena s)).
  - destruct (Abeja_run_descansa b (colmena s)); [exact H|].
    pose proof (Reina_trabajar_cuenta o s H) as H1.
    destruct (Reina_trabajar o s) as [s1 ex]. simpl in H1.
    destruct ex; [apply terminar_cuenta|]; exact H1.
  - apply terminar_cuenta, H.
Qed.

Lemma ejecutar_cuenta e s :
  censo_cuenta_objetos s -> censo_cuenta_objetos (ejecutar e s).
Proof.
  intros H. destruct e as [cl id u|eq id u|dir|dir|o dir|ll q|d| | |]; simpl;
    try exact H.
  - destruct cl; try exact H; apply Abeja_init_cuenta, H.
  - exact (Abeja_init_cuenta Reina id u s H).
  - apply Thread_start_cuenta, H.
  - apply agregar_abeja_cuenta, H.
  - apply avanzar_cuenta, H.
Qed.

Lemma alcanzable_cuenta s : alcanzable s -> censo_cuenta_objetos s.
Proof.
  induction 1 as [cap pol larv c Hc|e s _ IH].
  - unfold Colmena_init in Hc. destruct (cap <? 0); [discriminate|].
    injection Hc as <-. reflexivity.
  - apply ejecutar_cuenta, IH.
Qed.

Lemma alcanzable_todos es cap pol larv c :
  Colmena_init cap pol larv = Some c ->
  alcanzable (ejecutar_todos es (Sistema_inicial c)).
Proof.
  intros Hc. unfold ejecutar_todos.
  assert (H0 : alcanzable (Sistema_inicial c)) by (econstructor; exact Hc).
  revert H0. generalize (Sistema_inicial c) as s.
  induction es as [|e es IH]; intros s Hs; simpl; [exact Hs|].
  apply IH. constructor. exact Hs.
Qed.

Lemma correr_alcanzable cap pol larv es s :
  correr cap pol larv es = Some s -> alcanzable s.
Proof.
  unfold correr. destruct (Colmena_init cap pol larv) as [c|] eqn:Hc;
    [|discriminate].
  intros [= <-]. eapply alcanzable_todos, Hc.
Qed.

(** ** Cells *)

Lemma peso_permiso_nonneg fs : 0 <= peso permiso fs.
Proof.
  induction fs as [|h fs IH]; simpl; [lia|]. destruct h; simpl; lia.
Qed.

Lemma almacenar_nectar_libre q id c :
  0 < semaforo_celdas c ->
  fst (almacenar_nectar q id c) = true /\
  celdas_ocupadas (snd (almacenar_nectar q id c)) = celdas_ocupadas c + 1 /\
  semaforo_celdas (snd (almacenar_nectar q id c)) = semaforo_celdas c - 1.
Proof.
  intros H. unfold almacenar_nectar, semaforo_acquire.
  destruct (Z.ltb_spec 0 (semaforo_celdas c)); [|lia]. simpl. auto.
Qed.

Lemma almacenar_nectar_lleno q id c :
  semaforo_celdas c <= 0 -> almacenar_nectar q id c = (false, c).
Proof.
  intros H. unfold almacenar_nectar, semaforo_acquire.
  destruct (Z.ltb_spec 0 (semaforo_celdas c)); [lia|]. reflexivity.
Qed.

(** Of [n] sequential calls against [m] free cells, the first [min n m]
    succeed and the others fail. *)
Lemma almacenar_todos_spec lotes : forall c m,
  semaforo_celdas c = Z.of_nat m ->
  let n := length lotes in
  fst (almacenar_todos lotes c)
    = replicate (Nat.min n m) true ++ replicate (n - Nat.min n m) false /\
  celdas_ocupadas (snd (almacenar_todos lotes c))
    = celdas_ocupadas c + Z.of_nat (Nat.min n m) /\
  semaforo_celdas (snd (almacenar_todos lotes c))
    = semaforo_celdas c - Z.of_nat (Nat.min n m).
Proof.
  induction lotes as [|[q id] lotes IH]; intros c m Hm; simpl.
  - repeat split; lia.
  - destruct m as [|m].
    + rewrite almacenar_nectar_lleno by lia.
      specialize (IH c 0%nat Hm). simpl in IH.
      destruct (almacenar_todos lotes c) as [rs c2]. simpl in *.
      rewrite Nat.min_0_r, Nat.sub_0_r in IH. simpl in IH.
      destruct IH as (-> & -> & ->). repeat split; lia.
    + destruct (almacenar_nectar_libre q id c) as (Hr & Hc & Hs); [lia|].
      destruct (almacenar_nectar q id c) as [r c1]. simpl in Hr, Hc, Hs.
      subst r. specialize (IH c1 m ltac:(lia)). simpl in IH.
      destruct (almacenar_todos lotes c1) as [rs c2]. simpl in *.
      destruct IH as (-> & -> & ->). repeat split; lia.
Qed.

(** C4. In every reachable state [0 <= celdas_ocupadas <= capacidad_celdas];
    and on a hive built with [capacidad_celdas = 10], twelve sequential calls
    of [almacenar_nectar] return [True] ten times, then [False] twice, and
    leave [celdas_ocupadas = 10]. *)
Theorem C4_celdas_acotadas :
  (forall s, alcanzable s ->
     0 <= celdas_ocupadas (colmena s) <= capacidad_celdas (colmena s)) /\
  (forall pol larv c lotes,
     Colmena_init 10 pol larv = Some c -> length lotes = 12%nat ->
     fst (almacenar_todos lotes c) = replicate 10 true ++ replicate 2 false /\
     celdas_ocupadas (snd (almacenar_todos lotes c)) = 10).
Proof.
  split.
  - intros s Hs. destruct (alcanzable_Inv s Hs) as [H1 H2 H3 _ _ _ _ _].
    pose proof (peso_permiso_nonneg (fases (abejas s))). lia.
  - intros pol larv c lotes Hc Hl.
    unfold Colmena_init in Hc. simpl in Hc. injection Hc as <-.
    destruct (almacenar_todos_spec lotes
      (mkColmena 10 pol 0 larv 0 [] (mkContadores 0 0 0 0 0 0 0) ∅ 10
         false true false false 1%Q ∅ []) 10%nat eq_refl) as (Hr & Hcel & _).
    rewrite Hl in Hr, Hcel. simpl in Hr, Hcel. split; assumption.
Qed.

(** A concrete run of Scenario A. *)
Lemma C4_celdas_acotadas_witness :
  exists c, Colmena_init 10 5 20 = Some c /\
    fst (almacenar_todos (replicate 12 (3, "a1")) c)
      = replicate 10 true ++ replicate 2 false /\
    celdas_ocupadas (snd (almacenar_todos (replicate 12 (3, "a1")) c)) = 10.
Proof.
  eexists. split; [reflexivity|].
  apply (proj2 C4_celdas_acotadas 5 20 _ (replicate 12 (3, "a1")));
    reflexivity.
Defined.

(** ** Larvae *)

Lemma consumir_nectar_vacio id c :
  celdas_ocupadas c <= 0 -> consumir_nectar id c = (false, c).
Proof.
  intros H. unfold consumir_nectar.
  destruct (Z.ltb_spec 0 (celdas_ocupadas c)); [lia|reflexivity].
Qed.

Lemma consumir_nectar_hay id c :
  0 < celdas_ocupadas c ->
  consumir_nectar id c =
    (true,
     con_estadisticas_abejas
       (Py.add_at2 id "nectar_consumido" 1 (estadisticas_abejas c))
       (con_semaforo_celdas (semaforo_celdas c + 1)
          (con_celdas_ocupadas (celdas_ocupadas c - 1) c))).
Proof.
  intros H. unfold consumir_nectar.
  destruct (Z.ltb_spec 0 (celdas_ocupadas c)); [reflexivity|lia].
Qed.

Lemma alimentar_larva_sin_nectar id c :
  celdas_ocupadas c <= 0 -> alimentar_larva id c = (false, c).
Proof.
  intros H. unfold alimentar_larva. rewrite consumir_nectar_vacio by exact H.
  reflexivity.
Qed.

Lemma alimentar_larva_cabe id c :
  0 < celdas_ocupadas c -> larvas_alimentadas c < num_larvas c ->
  fst (alimentar_larva id c) = true /\
  larvas_alimentadas (snd (alimentar_larva id c)) = larvas_alimentadas c + 1 /\
  num_larvas (snd (alimentar_larva id c)) = num_larvas c /\
  celdas_ocupadas (snd (alimentar_larva id c)) = celdas_ocupadas c - 1 /\
  cg_larvas_alimentadas (contador_global (snd (alimentar_larva id c)))
    = cg_larvas_alimentadas (contador_global c) + 1.
Proof.
  intros H1 H2. unfold alimentar_larva.
  rewrite consumir_nectar_hay by exact H1. unfold alimentar_si_cabe. simpl.
  destruct (Z.ltb_spec (larvas_alimentadas c) (num_larvas c)); [|lia].
  simpl. auto.
Qed.

(** With nectar stored and every larva fed, the call fails after the cell
    has been released. *)
Lemma alimentar_larva_llenas id c :
  0 < celdas_ocupadas c -> num_larvas c <= larvas_alimentadas c ->
  alimentar_larva id c = (false, snd (consumir_nectar id c)) /\
  celdas_ocupadas (snd (alimentar_larva id c)) = celdas_ocupadas c - 1 /\
  semaforo_celdas (snd (alimentar_larva id c)) = semaforo_celdas c + 1 /\
  larvas_alimentadas (snd (alimentar_larva id c)) = larvas_alimentadas c /\
  num_larvas (snd (alimentar_larva id c)) = num_larvas c /\
  contador_global (snd (alimentar_larva id c)) = contador_global c.
Proof.
  intros H1 H2. unfold alimentar_larva.
  rewrite consumir_nectar_hay by exact H1. unfold alimentar_si_cabe. simpl.
  destruct (Z.ltb_spec (larvas_alimentadas c) (num_larvas c)); [lia|].
  simpl. auto 10.
Qed.

(** Of [n] sequential calls, each finding nectar, against [m] larvae still
    to feed, the first [min n m] succeed and the others fail. *)
Lemma alimentar_todos_spec ids : forall c m,
  num_larvas c - larvas_alimentadas c = Z.of_nat m ->
  Z.of_nat (length ids) <= celdas_ocupadas c ->
  let n := length ids in
  fst (alimentar_todos ids c)
    = replicate (Nat.min n m) true ++ replicate (n - Nat.min n m) false /\
  larvas_alimentadas (snd (alimentar_todos ids c))
    = larvas_alimentadas c + Z.of_nat (Nat.min n m).
Proof.
  induction ids as [|id ids IH]; intros c m Hm Hn; simpl.
  - split; [reflexivity|lia].
  - simpl in Hn. destruct m as [|m].
    + destruct (alimentar_larva_llenas id c) as (He & Hc & _ & Hl & Hnl & _);
        [lia|lia|].
      destruct (alimentar_larva id c) as [r c1]. simpl in *.
      injection He as -> _.
      specialize (IH c1 0%nat ltac:(lia) ltac:(lia)). simpl in IH.
      destruct (alimentar_todos ids c1) as [rs c2]. simpl in *.
      rewrite Nat.min_0_r, Nat.sub_0_r in IH. simpl in IH.
      destruct IH as (-> & ->). split; [reflexivity|lia].
    + destruct (alimentar_larva_cabe id c) as (Hr & Hl & Hnl & Hc & _);
        [lia|lia|].
      destruct (alimentar_larva id c) as [r c1]. simpl in *. subst r.
      specialize (IH c1 m ltac:(lia) ltac:(lia)). simpl in IH.
      destruct (alimentar_todos ids c1) as [rs c2]. simpl in *.
      destruct IH as (-> & ->). split; [reflexivity|lia].
Qed.

(** C5. In every reachable state of a hive built with a number of larvae
    that is not negative, [larvas_alimentadas <= num_larvas]; and with
    [num_larvas = 3], no larva fed yet and nectar in store at each call,
    five sequential calls of [alimentar_larva] return [True] three times,
    then [False] twice, and leave [larvas_alimentadas = 3]. *)
Theorem C5_larvas_acotadas :
  (forall s, alcanzable s -> 0 <= num_larvas (colmena s) ->
     larvas_alimentadas (colmena s) <= num_larvas (colmena s)) /\
  (forall c ids,
     num_larvas c = 3 -> larvas_alimentadas c = 0 ->
     5 <= celdas_ocupadas c -> length ids = 5%nat ->
     fst (alimentar_todos ids c) = [true; true; true; false; false] /\
     larvas_alimentadas (snd (alimentar_todos ids c)) = 3).
Proof.
  split.
  - intros s Hs Hn. destruct (alcanzable_Inv s Hs) as [_ _ _ _ H5 _ _ _]. lia.
  - intros c ids Hn Hl Hc Hi.
    destruct (alimentar_todos_spec ids c 3%nat) as (Hr & Hf);
      [lia|rewrite Hi; lia|].
    rewrite Hi in Hr, Hf. simpl in Hr, Hf. split; [exact Hr|lia].
Qed.

(** A concrete run of Scenario B: a hive of three larvae, five batches
    stored, then five feeding calls. *)
Lemma C5_larvas_acotadas_witness :
  exists c0, Colmena_init 10 5 3 = Some c0 /\
    let c := snd (almacenar_todos (replicate 5 (2, "a1")) c0) in
    fst (alimentar_todos (replicate 5 "n1") c)
      = [true; true; true; false; false] /\
    larvas_alimentadas (snd (alimentar_todos (replicate 5 "n1") c)) = 3.
Proof.
  eexists. split; [reflexivity|].
  apply (proj2 C5_larvas_acotadas); [reflexivity|reflexivity| |reflexivity].
  vm_compute. discriminate.
Defined.

(** C2 as stated fails: on a hive of one larva, already fed, with one
    occupied cell, [alimentar_larva] returns [False] and the cell is gone. *)
Lemma C2_alimentar_larva_contraejemplo :
  exists c0, Colmena_init 10 5 1 = Some c0 /\
    let c := snd (alimentar_larva "n1"
                    (snd (almacenar_todos [(2, "a1"); (3, "a1")] c0))) in
    larvas_alimentadas c = 1 /\ celdas_ocupadas c = 1 /\
    fst (alimentar_larva "n1" c) = false /\
    celdas_ocupadas (snd (alimentar_larva "n1" c)) = 0.
Proof.
  eexists. split; [reflexivity|]. vm_compute. repeat split; reflexivity.
Qed.

(** C2, amended. [alimentar_larva] returns [True] exactly when a cell is
    occupied and a larva is still to be fed. Whenever it returns [False],
    [larvas_alimentadas] and [contador_global] are as before; and when it
    returns [False] for want of nectar, the whole hive is as before. *)
Theorem C2_alimentar_larva id c :
  (fst (alimentar_larva id c) = true <->
     0 < celdas_ocupadas c /\ larvas_alimentadas c < num_larvas c) /\
  (fst (alimentar_larva id c) = false ->
     larvas_alimentadas (snd (alimentar_larva id c)) = larvas_alimentadas c /\
     contador_global (snd (alimentar_larva id c)) = contador_global c) /\
  (celdas_ocupadas c <= 0 -> alimentar_larva id c = (false, c)).
Proof.
  destruct (Z.le_gt_cases (celdas_ocupadas c) 0) as [Hc|Hc].
  { rewrite (alimentar_larva_sin_nectar id c Hc). simpl.
    split; [split; [discriminate|lia]|]. split; [split|]; reflexivity. }
  destruct (Z.le_gt_cases (num_larvas c) (larvas_alimentadas c)) as [Hl|Hl].
  - destruct (alimentar_larva_llenas id c) as (He & _ & _ & H4 & _ & H6);
      [lia|exact Hl|].
    split; [|split].
    + rewrite He. simpl. split; [discriminate|lia].
    + intros _. split; assumption.
    + lia.
  - destruct (alimentar_larva_cabe id c) as (Hr & _); [lia|lia|].
    split; [|split].
    + split; [lia|intros _; exact Hr].
    + rewrite Hr. discriminate.
    + lia.
Qed.

Lemma C2_alimentar_larva_witness :
  exists c0, Colmena_init 10 5 1 = Some c0 /\
    let c := snd (alimentar_larva "n1"
                    (snd (almacenar_todos [(2, "a1"); (3, "a1")] c0))) in
    larvas_alimentadas (snd (alimentar_larva "n1" c)) = larvas_alimentadas c /\
    alimentar_larva "n1" c0 = (false, c0).
Proof.
  eexists. split; [reflexivity|]. split.
  - apply (proj1 (proj2 (C2_alimentar_larva "n1" _))).
    vm_compute. reflexivity.
  - apply (proj2 (proj2 (C2_alimentar_larva "n1" _))).
    vm_compute. discriminate.
Defined.

(** ** Flowers *)

(** C8. At night [visitar_flor] returns 0 and leaves the hive as it is,
    whatever [calidad_flores]. By day, for every draw and every quality, it
    returns the float product of the draw and the quality, rounded, capped at
    [capacidad_polen] and floored at 0, and adds exactly one to
    [flores_visitadas]; the result lies in [0, capacidad_polen] as soon as
    that capacity is not negative. *)
Theorem C8_visitar_flor azar id c :
  (event_dia c = false -> visitar_flor azar id c = (0, c)) /\
  (event_dia c = true ->
     fst (visitar_flor azar id c)
       = Z.max 0 (Z.min (Py.round (Py.fmul (Py.fl azar) (Py.fl (calidad_flores c)))) (capacidad_polen c)) /\
     flores_visitadas (contador_global (snd (visitar_flor azar id c)))
       = flores_visitadas (contador_global c) + 1 /\
     (0 <= capacidad_polen c ->
        0 <= fst (visitar_flor azar id c) <= capacidad_polen c)).
Proof.
  unfold visitar_flor. split; intros Hd; rewrite Hd; simpl.
  - reflexivity.
  - repeat split; lia.
Qed.

Lemma C8_visitar_flor_witness :
  exists c, Colmena_init 100 5 20 = Some c /\
    visitar_flor (7 # 2) "r1" (cambiar_ciclo_dia false (cambiar_clima true (3 # 10) c))
      = (0, cambiar_ciclo_dia false (cambiar_clima true (3 # 10) c)) /\
    fst (visitar_flor (7 # 2) "r1" (cambiar_clima false (12 # 10) c)) = 4 /\
    0 <= fst (visitar_flor (9 # 2) "r1" (cambiar_clima false (12 # 10) c)) <= 5.
Proof.
  eexists. split; [reflexivity|]. split; [|split].
  - apply (proj1 (C8_visitar_flor (7 # 2) "r1" _)). reflexivity.
  - match goal with
    | |- fst (visitar_flor ?a ?i ?c) = _ =>
        rewrite (proj1 (proj2 (C8_visitar_flor a i c) eq_refl))
    end.
    reflexivity.
  - match goal with
    | |- _ <= fst (visitar_flor ?a ?i ?c) <= _ =>
        apply (proj2 (proj2 (proj2 (C8_visitar_flor a i c) eq_refl)))
    end.
    simpl. lia.
Defined.

(** ** Death *)

(** C9. The [finally] of [run] ends the thread and appends the death message
    to the mailbox of the queen exactly when [event_fin_simulacion] is not
    set; every step in which a worker dies is such a step; and a worker that
    finds the event set at the head of its loop dies and leaves the hive
    untouched. *)
Theorem C9_muerte_y_fin_de_simulacion :
  (forall b c,
     hilo (fst (Abeja_run_finally b c)) = Terminada /\
     queue_reina (snd (Abeja_run_finally b c))
       = queue_reina c ++
         (if event_fin_simulacion c then [] else [Muerte (rol b) (id_abeja b)])) /\
  (forall o b c,
     viva b = true -> viva (fst (paso_obrera o b c)) = false ->
     queue_reina (snd (paso_obrera o b c))
       = queue_reina c ++
         (if event_fin_simulacion c then [] else [Muerte (rol b) (id_abeja b)])) /\
  (forall o b c,
     hilo b = EnBucle -> event_fin_simulacion c = true ->
     paso_obrera o b c = (con_hilo Terminada b, c)).
Proof.
  split; [|split].
  - intros b c. unfold Abeja_run_finally. simpl. split; [reflexivity|].
    destruct (event_fin_simulacion c); simpl; [now rewrite app_nil_r|reflexivity].
  - intros o b c Hv. unfold paso_obrera, viva in *.
    destruct (hilo b) eqn:Hh; try discriminate; simpl;
      try (rewrite Hh; discriminate).
    + destruct (Abeja_run_sigue (en_plazo o) b c).
      * destruct (Abeja_run_descansa b c); [simpl; rewrite Hh; discriminate|].
        destruct (clase b); simpl.
        -- destruct (visitar_flor (uniforme o) (id_abeja b) c) as [p c1].
           destruct (0 <? p); simpl; [discriminate|rewrite Hh; discriminate].
        -- destruct (obtener_nectar_cola c) as [[[q i]|] c1]; simpl;
             [discriminate|].
           unfold Almacenadora_sin_nectar. destruct (10 <? _); simpl;
             rewrite Hh; discriminate.
        -- destruct (consumir_nectar (id_abeja b) c) as [[|] c1]; simpl;
             [discriminate|].
           unfold Nodriza_sin_alimento. destruct (5 <? _); simpl;
             rewrite Hh; discriminate.
        -- destruct (event_ataque c); simpl;
             [discriminate|rewrite Hh; discriminate].
        -- rewrite Hh. discriminate.
      * intros _. unfold Abeja_run_finally. simpl.
        destruct (event_fin_simulacion c); simpl;
          [now rewrite app_nil_r|reflexivity].
    + destruct (semaforo_acquire c); simpl; discriminate.
    + destruct (alimentar_si_cabe (id_abeja b) c) as [[|] c1]; simpl;
        [discriminate|].
      unfold Nodriza_sin_alimento. simpl. destruct (5 <? _); simpl; discriminate.
  - intros o b c Hh Hf. unfold paso_obrera, Abeja_run_sigue, Abeja_run_finally.
    rewrite Hh, Hf, andb_false_r. reflexivity.
Qed.

Lemma C9_muerte_y_fin_de_simulacion_witness :
  exists c, Colmena_init 100 5 20 = Some c /\
    let b := mkAbeja Nodriza "n1" "nodriza" true 0 0 EnBucle in
    queue_reina (snd (paso_obrera oraculo_vencida b c))
      = [Muerte "nodriza" "n1"] /\
    queue_reina
      (snd (paso_obrera oraculo_en_plazo b (con_event_fin_simulacion true c)))
      = [].
Proof.
  eexists. split; [reflexivity|]. split.
  - match goal with
    | |- queue_reina (snd (paso_obrera ?o ?b ?c)) = _ =>
        rewrite (proj1 (proj2 C9_muerte_y_fin_de_simulacion) o b c
                   eq_refl eq_refl)
    end.
    reflexivity.
  - match goal with
    | |- queue_reina (snd (paso_obrera ?o ?b ?c)) = _ =>
        rewrite (proj1 (proj2 C9_muerte_y_fin_de_simulacion) o b c
                   eq_refl eq_refl)
    end.
    reflexivity.
Defined.

(** ** Nectar accounting *)

Lemma peso_sin_contar_cero (l : list Abeja) :
  (forall b q, In b l -> hilo b <> RecPuesto q) ->
  peso sin_contar (fases l) = 0.
Proof.
  induction l as [|b l IH]; intros H; simpl; [reflexivity|].
  rewrite IH by (intros b' q Hb'; apply H; right; exact Hb').
  assert (Hb : forall q, hilo b <> RecPuesto q)
    by (intros q; apply H; left; reflexivity).
  destruct (hilo b) eqn:Hh; simpl; try reflexivity.
  exfalso. eapply Hb. reflexivity.
Qed.

(** C10 as stated fails: a reachable state with 5 units stored and none
    collected yet. The forager has put its batch in the queue and has not
    yet reached the counters. *)
Lemma C10_nectar_contraejemplo :
  exists s, correr 100 5 20 traza_adelantada = Some s /\ alcanzable s /\
    nectar_almacenado (contador_global (colmena s)) = 5 /\
    nectar_recolectado (contador_global (colmena s)) = 0 /\
    fases (abejas s) = [RecPuesto 5; EnBucle].
Proof.
  eexists. split; [reflexivity|]. split.
  - apply (correr_alcanzable 100 5 20 traza_adelantada). reflexivity.
  - vm_compute. repeat split; reflexivity.
Qed.

(** C10, amended. When the storer has dequeued a batch and
    [almacenar_nectar] returns [False], its work unit ends with the batch
    gone from the queue and the rest of the hive untouched (so
    [nectar_almacenado] does not move); in the interleaving semantics the
    failed acquire likewise changes nothing. In every reachable state
    [nectar_almacenado] is at most [nectar_recolectado] plus the batches
    that foragers have queued and not yet counted; hence it is at most
    [nectar_recolectado] whenever no forager stands between the [put] and
    the counter update of [agregar_nectar_cola]. *)
Theorem C10_lote_perdido_y_contabilidad :
  (forall b c q id_origen resto,
     queue_nectar c = (q, id_origen) :: resto ->
     fst (almacenar_nectar q (id_abeja b) (con_queue_nectar resto c)) = false ->
     Almacenadora_trabajar b c
       = (con_intentos_vacios 0 b, con_queue_nectar resto c)) /\
  (forall o b c q,
     hilo b = AlmObtenido q -> semaforo_acquire c = None ->
     paso_obrera o b c = (con_hilo EnBucle (con_intentos_vacios 0 b), c)) /\
  (forall s, alcanzable s ->
     nectar_almacenado (contador_global (colmena s))
     <= nectar_recolectado (contador_global (colmena s))
        + peso sin_contar (fases (abejas s))) /\
  (forall s, alcanzable s ->
     (forall b q, In b (abejas s) -> hilo b <> RecPuesto q) ->
     nectar_almacenado (contador_global (colmena s))
     <= nectar_recolectado (contador_global (colmena s))).
Proof.
  assert (Hcota : forall s, alcanzable s ->
     nectar_almacenado (contador_global (colmena s))
     <= nectar_recolectado (contador_global (colmena s))
        + peso sin_contar (fases (abejas s))).
  { intros s Hs. destruct (alcanzable_Inv s Hs) as [_ _ _ _ _ H6 H7 H8].
    pose proof (peso_en_mano_nonneg _ H6).
    pose proof (en_cola_nonneg _ H7). lia. }
  split; [|split; [|split]].
  - intros b c q id_origen resto Hq Hf.
    unfold Almacenadora_trabajar, obtener_nectar_cola. rewrite Hq.
    unfold almacenar_nectar in *.
    destruct (semaforo_acquire (con_queue_nectar resto c)); [discriminate|].
    reflexivity.
  - intros o b c q Hh Hs. unfold paso_obrera. rewrite Hh, Hs. reflexivity.
  - exact Hcota.
  - intros s Hs Hno. specialize (Hcota s Hs).
    rewrite peso_sin_contar_cero in Hcota by exact Hno. lia.
Qed.

Lemma C10_lote_perdido_y_contabilidad_witness :
  exists c0, Colmena_init 0 5 20 = Some c0 /\
    let b := mkAbeja Almacenadora "a1" "almacenadora" true 3 0 EnBucle in
    let c := agregar_nectar_cola 4 "r1" c0 in
    Almacenadora_trabajar b c
      = (con_intentos_vacios 0 b, con_queue_nectar [] c).
Proof.
  eexists. split; [reflexivity|].
  apply (proj1 C10_lote_perdido_y_contabilidad _ _ 4 "r1" []); reflexivity.
Defined.

(** ** Rebalancing *)

Lemma max_desde_In d : forall x, In (max_desde x d) (x :: d).
Proof.
  induction d as [|[k v] d IH]; intros x; simpl; [left; reflexivity|].
  destruct (IH (if desv_lt (snd x) v then (k, v) else x)) as [H|H].
  - destruct (desv_lt (snd x) v); rewrite <- H; auto.
  - right. right. exact H.
Qed.

Lemma dict_set_no_vacio {A} k (v : A) l : dict_set k v l <> [].
Proof.
  destruct l as [|[k' v'] l]; simpl; [discriminate|].
  destruct (String.eqb k k'); discriminate.
Qed.

Lemma calcular_diferencias_no_vacio e d :
  e <> [] -> calcular_diferencias e d <> [].
Proof.
  unfold calcular_diferencias.
  generalize (calcular_roles_ideales (Py.sum_values d) e) as ri. intros ri He.
  assert (H : forall (e : list (string * Q)) acc, acc <> [] \/ e <> [] ->
    fold_left
      (fun acc '(rol, _) => dict_set rol (diferencia_de ri d rol) acc)
      e acc <> []).
  { clear. intros e. induction e as [|[r p] e IH]; intros acc [Ha|Ha]; simpl;
      try congruence; apply IH; left; apply dict_set_no_vacio. }
  apply H. right. exact He.
Qed.

(** The float arithmetic on sample values: the literal [0.1]; products
    whose exact value is a half or just above one and whose float is just
    below it; and the pair that [identificar_desequilibrio] and
    [reasignar_roles] then find. *)
Example fl_un_decimo :
  Py.fl (1 # 10) = (3602879701896397 # 36028797018963968)%Q.
Proof. vm_compute. reflexivity. Qed.

Example ideales_de_45 :
  calcular_roles_ideales 45
    [("recolectora", 7 # 10); ("almacenadora", 3 # 10)]%Q
  = [("recolectora", 31); ("almacenadora", 14)].
Proof. vm_compute. reflexivity. Qed.

Example ideales_de_150 :
  calcular_roles_ideales 150
    [("recolectora", 41 # 100); ("almacenadora", 7 # 100);
     ("nodriza", 52 # 100)]%Q
  = [("recolectora", 61); ("almacenadora", 11); ("nodriza", 78)].
Proof. vm_compute. reflexivity. Qed.

Example desequilibrio_de_45 :
  exists s,
    sistema_con_tabla
      (<["reina" := 1]> (<["recolectora" := 35]> (<["almacenadora" := 9]> ∅)))
      [("recolectora", 7 # 10); ("almacenadora", 3 # 10)]%Q [] [] = Some s /\
    identificar_desequilibrio s = Some (Some ("recolectora", "almacenadora")).
Proof. eexists. split; [reflexivity|]. vm_compute. reflexivity. Qed.

Example reasignacion_de_150 :
  exists s,
    sistema_con_tabla
      (<["reina" := 1]> (<["recolectora" := 68]> (<["almacenadora" := 9]>
         (<["nodriza" := 72]> ∅))))
      [("recolectora", 41 # 100); ("almacenadora", 7 # 100);
       ("nodriza", 52 # 100)]%Q
      [mkAbeja Recolectora "r1" "recolectora" true 0 0 EnBucle]
      [("r1", 0%nat)] = Some s /\
    identificar_desequilibrio s = Some (Some ("recolectora", "almacenadora")) /\
    reasignar_roles s = Some (true, Abeja_cambiar_rol 0 "almacenadora" s).
Proof.
  eexists. split; [reflexivity|].
  match goal with
  | |- identificar_desequilibrio ?s = _ /\ _ =>
      assert (Hid : identificar_desequilibrio s
                    = Some (Some ("recolectora", "almacenadora")))
        by (vm_compute; reflexivity)
  end.
  split; [exact Hid|].
  unfold reasignar_roles. rewrite Hid. reflexivity.
Qed.

Lemma sin_desviacion_forallb (l : list (string * Desviacion)) :
  forallb (fun x => negb (desv_lt (Finita umbral) (snd x))
                    && negb (desv_lt (snd x) (Finita (- umbral)))) l = true ->
  forall rol d, In (rol, d) l ->
    desv_lt (Finita umbral) d = false /\
    desv_lt d (Finita (- umbral)) = false.
Proof.
  intros H rol d Hin. rewrite forallb_forall in H.
  specialize (H (rol, d) Hin). simpl in H.
  apply andb_prop in H as [H1 H2].
  split; apply negb_true_iff; assumption.
Qed.

(** C7. When no deviation that [identificar_desequilibrio] computes exceeds
    the float 0.1 and none is below the float -0.1, [reasignar_roles]
    returns [False] and the whole program state, census and roles included,
    is the one it started from. *)
Theorem C7_sin_desequilibrio_no_cambia s :
  equilibrio_ideal s <> [] ->
  (forall rol d, In (rol, d) (desviaciones s) ->
     desv_lt (Finita umbral) d = false /\
     desv_lt d (Finita (- umbral)) = false) ->
  reasignar_roles s = Some (false, s).
Proof.
  intros Hne Hd. unfold reasignar_roles, identificar_desequilibrio.
  destruct (Py.sum_values (obtener_distribucion_roles (colmena s)) =? 0);
    [reflexivity|].
  pose proof (calcular_diferencias_no_vacio (equilibrio_ideal s)
    (obtener_distribucion_roles (colmena s)) Hne) as Hnv.
  fold (desviaciones s) in Hnv |- *.
  destruct (desviaciones s) as [|x d] eqn:Hds; [congruence|].
  pose proof (max_desde_In d x) as Hmax.
  destruct (max_desde x d) as [re de].
  destruct (min_desde x d) as [rd dd].
  destruct (Hd re de Hmax) as [H1 _]. rewrite H1. reflexivity.
Qed.

(** A colony of ten that [main] could have started, in which four
    registered foragers could be relabelled if the census asked for it. *)
Lemma C7_sin_desequilibrio_no_cambia_witness :
  exists s, correr 100 5 20 traza_equilibrada = Some s /\
    length (abejas s) = 10%nat /\
    primera_con_rol "recolectora" (abejas s) (abejas_activas s) = Some 1%nat /\
    reasignar_roles s = Some (false, s).
Proof.
  eexists. split; [reflexivity|].
  split; [vm_compute; reflexivity|].
  split; [vm_compute; reflexivity|].
  apply C7_sin_desequilibrio_no_cambia.
  - vm_compute. discriminate.
  - apply sin_desviacion_forallb. vm_compute. reflexivity.
Defined.

Lemma primera_con_rol_existe r heap registro :
  (exists id dir b, In (id, dir) registro /\ heap !! dir = Some b /\ rol b = r) ->
  exists dir b, primera_con_rol r heap registro = Some dir /\
    heap !! dir = Some b /\ rol b = r.
Proof.
  induction registro as [|[id0 dir0] registro IH]; intros (id & dir & b & Hin & Hb & Hr).
  - destruct Hin.
  - simpl. destruct (heap !! dir0) as [b0|] eqn:Hb0.
    + destruct (String.eqb (rol b0) r) eqn:He.
      * exists dir0, b0. apply String.eqb_eq in He. auto.
      * destruct Hin as [Hin|Hin].
        -- injection Hin as -> ->. rewrite Hb in Hb0. injection Hb0 as <-.
           rewrite Hr, String.eqb_refl in He. discriminate.
        -- apply IH. exists id, dir, b. auto.
    + destruct Hin as [Hin|Hin].
      * injection Hin as -> ->. congruence.
      * apply IH. exists id, dir, b. auto.
Qed.

(** C6. With the census of Scenario C, the default ratios and a registered
    forager, the ideals are 3, 2, 2, 1; the deviations are the floats 1/3,
    -1/2, -1/2 and 0; the imbalance found is forager over storer; and
    [reasignar_roles] returns [True] after giving the role of storer to one
    registered agent whose role was forager, no other agent being touched,
    which leaves the census at 3, 2, 1, 1. *)
Theorem C6_escenario_C s :
  obtener_distribucion_roles (colmena s) = censo_escenario_C ->
  equilibrio_ideal s = equilibrio_por_defecto ->
  (exists id dir b, In (id, dir) (abejas_activas s) /\
     abejas s !! dir = Some b /\ rol b = "recolectora") ->
  Py.sum_values (obtener_distribucion_roles (colmena s)) = 7 /\
  calcular_roles_ideales 7 (equilibrio_ideal s)
    = [("recolectora", 3); ("almacenadora", 2); ("nodriza", 2); ("defensora", 1)] /\
  desviaciones s
    = [("recolectora", Finita (Py.truediv 1 3));
       ("almacenadora", Finita (-1 # 2));
       ("nodriza", Finita (-1 # 2)); ("defensora", Finita (0 # 1))] /\
  identificar_desequilibrio s = Some (Some ("recolectora", "almacenadora")) /\
  exists dir b s',
    abejas s !! dir = Some b /\ rol b = "recolectora" /\
    reasignar_roles s = Some (true, s') /\
    abejas s' = <[dir := con_rol "almacenadora" b]> (abejas s) /\
    obtener_distribucion_roles (colmena s') = censo_escenario_C_final.
Proof.
  intros Hc He Hreg.
  assert (Hid : identificar_desequilibrio s
                = Some (Some ("recolectora", "almacenadora"))).
  { unfold identificar_desequilibrio. rewrite Hc, He. vm_compute. reflexivity. }
  split; [rewrite Hc; vm_compute; reflexivity|].
  split; [rewrite He; vm_compute; reflexivity|].
  split; [unfold desviaciones; rewrite Hc, He; vm_compute; reflexivity|].
  split; [exact Hid|].
  destruct (primera_con_rol_existe _ _ _ Hreg) as (dir & b & Hp & Hb & Hr).
  exists dir, b, (Abeja_cambiar_rol dir "almacenadora" s).
  split; [exact Hb|]. split; [exact Hr|]. split.
  - unfold reasignar_roles. rewrite Hid. simpl. rewrite Hp. reflexivity.
  - unfold Abeja_cambiar_rol. rewrite Hb. simpl. split; [reflexivity|].
    unfold obtener_distribucion_roles in *. simpl. rewrite Hc, Hr.
    reflexivity.
Qed.

Lemma C6_escenario_C_witness :
  exists s,
    sistema_con censo_escenario_C colonia_escenario_C registro_escenario_C
      = Some s /\
    exists s',
      reasignar_roles s = Some (true, s') /\
      abejas s'
        = <[1%nat := mkAbeja Recolectora "r1" "almacenadora" true 0 0 EnBucle]>
            colonia_escenario_C /\
      obtener_distribucion_roles (colmena s') = censo_escenario_C_final.
Proof.
  eexists. split; [reflexivity|].
  match goal with
  | |- exists s', reasignar_roles ?s = _ /\ _ =>
      destruct (C6_escenario_C s) as (_ & _ & _ & _ & dir & b & s' & Hb & Hr & Hs & Ha & Hc)
  end.
  - reflexivity.
  - reflexivity.
  - exists "r1", 1%nat, (mkAbeja Recolectora "r1" "recolectora" true 0 0 EnBucle).
    split; [right; left; reflexivity|]. split; reflexivity.
  - exists s'. split; [exact Hs|]. split; [|exact Hc].
    clear - Hs. vm_compute in Hs. injection Hs as <-. reflexivity.
Defined.

(** ** Death, replacement and the census *)

Lemma dict_del_length {A} k (d : list (string * A)) :
  dict_in k d = true -> S (length (dict_del k d)) = length d.
Proof.
  unfold dict_in. induction d as [|[k' v'] d IH]; simpl; [discriminate|].
  destruct (String.eqb k k'); [reflexivity|].
  intros H. simpl. rewrite IH by exact H. reflexivity.
Qed.

Lemma dict_set_length_nuevo {A} k (v : A) (d : list (string * A)) :
  dict_in k d = false -> length (dict_set k v d) = S (length d).
Proof.
  unfold dict_in. induction d as [|[k' v'] d IH]; simpl; [reflexivity|].
  destruct (String.eqb k k'); [discriminate|].
  intros H. simpl. rewrite IH by exact H. reflexivity.
Qed.

Lemma Thread_start_colmena dir s : colmena (Thread_start dir s) = colmena s.
Proof.
  unfold Thread_start. destruct (abejas s !! dir) as [b|]; [|reflexivity].
  destruct (hilo b); reflexivity.
Qed.

Lemma Thread_start_abejas_activas dir s :
  abejas_activas (Thread_start dir s) = abejas_activas s.
Proof.
  unfold Thread_start. destruct (abejas s !! dir) as [b|]; [|reflexivity].
  destruct (hilo b); reflexivity.
Qed.

(** What [crear_abeja] does for a role of the factory. *)
Lemma crear_abeja_fabrica r cl uuid s :
  fabrica_abejas r = Some cl ->
  colmena (snd (crear_abeja r uuid s))
    = registrar_abeja uuid (rol_de_clase cl) (colmena s) /\
  abejas_activas (snd (crear_abeja r uuid s))
    = dict_set uuid (length (abejas s)) (abejas_activas s).
Proof.
  intros Hf. unfold crear_abeja. rewrite Hf. simpl.
  rewrite Thread_start_colmena, Thread_start_abejas_activas.
  unfold agregar_abeja. simpl.
  rewrite lookup_app_r, Nat.sub_diag by reflexivity. simpl. auto.
Qed.

(** C3, as the code has it. Processing [Death{Nurse, x}] always adds one to
    the census entry of the nurses, which the death itself had not lowered;
    the registry keeps its size when [x] was registered and the fresh
    identifier is not otherwise in use. *)
Theorem C3_reemplazo_suma_al_censo x uuid s :
  Py.get0
    (obtener_distribucion_roles
       (colmena (procesar_mensaje (Muerte "nodriza" x) uuid s))) "nodriza"
  = Py.get0 (obtener_distribucion_roles (colmena s)) "nodriza" + 1 /\
  (dict_in x (abejas_activas s) = true ->
   dict_in uuid (dict_del x (abejas_activas s)) = false ->
   length (abejas_activas (procesar_mensaje (Muerte "nodriza" x) uuid s))
   = length (abejas_activas s)).
Proof.
  unfold procesar_mensaje, reemplazar_abeja_muerta.
  split.
  - match goal with
    | |- context [crear_abeja _ _ ?s1] =>
        destruct (crear_abeja_fabrica "nodriza" Nodriza uuid s1 eq_refl)
          as [Hc _]; rewrite Hc
    end.
    unfold obtener_distribucion_roles, registrar_abeja. simpl.
    rewrite get0_add_at_eq.
    destruct (dict_in x (abejas_activas s)); reflexivity.
  - intros Hin Hfresh. rewrite Hin.
    match goal with
    | |- context [crear_abeja _ _ ?s1] =>
        destruct (crear_abeja_fabrica "nodriza" Nodriza uuid s1 eq_refl)
          as [_ Ha]; rewrite Ha
    end.
    simpl. rewrite dict_set_length_nuevo by exact Hfresh.
    apply dict_del_length, Hin.
Qed.

(** The failing input of C3: the state in which the nurse ["n1"] has died,
    and the message the queen then processes. One nurse is alive before and
    after; the census says 1 before and 2 after. *)
Lemma C3_reemplazo_suma_al_censo_witness :
  exists s, correr 100 5 20 traza_muerte = Some s /\
    queue_reina (colmena s) = [Muerte "nodriza" "n1"] /\
    Py.get0 (obtener_distribucion_roles (colmena s)) "nodriza" = 1 /\
    Py.get0
      (obtener_distribucion_roles
         (colmena (procesar_mensaje (Muerte "nodriza" "n1") "b2" s))) "nodriza"
    = 2 /\
    length (abejas_activas (procesar_mensaje (Muerte "nodriza" "n1") "b2" s))
    = length (abejas_activas s).
Proof.
  eexists. split; [reflexivity|].
  split; [reflexivity|]. split; [reflexivity|].
  match goal with
  | |- Py.get0 (obtener_distribucion_roles
         (colmena (procesar_mensaje (Muerte _ ?x) ?u ?s))) _ = _ /\ _ =>
      destruct (C3_reemplazo_suma_al_censo x u s) as [H1 H2]
  end.
  split.
  - rewrite H1. reflexivity.
  - apply H2; reflexivity.
Defined.

Lemma vivas_insert (l : list Abeja) i b b' :
  l !! i = Some b ->
  foldr (fun b acc => (if viva b then 1 else 0) + acc) 0 (<[i := b']> l)
  = foldr (fun b acc => (if viva b then 1 else 0) + acc) 0 l
    - (if viva b then 1 else 0) + (if viva b' then 1 else 0).
Proof.
  revert i. induction l as [|x l IH]; intros [|i] Hi; simpl in *;
    try discriminate.
  - injection Hi as ->. lia.
  - rewrite (IH i Hi). lia.
Qed.

(** C1, as the code has it. Construction adds one to the census total and
    one live agent; a role change keeps both; the death of a live agent
    keeps the census total and removes one live agent. So in every reachable
    state the census total is the number of agents ever constructed, and
    after a first death it exceeds the number of live agents: here, one
    queen and one dead nurse, census total 2, one agent alive. *)
Theorem C1_censo_no_descuenta_muertes :
  (forall cl id uuid s,
     censo_total (snd (Abeja_init cl id uuid s)) = censo_total s + 1 /\
     vivas (snd (Abeja_init cl id uuid s)) = vivas s + 1) /\
  (forall dir r s,
     censo_total (Abeja_cambiar_rol dir r s) = censo_total s /\
     vivas (Abeja_cambiar_rol dir r s) = vivas s) /\
  (forall dir s b,
     abejas s !! dir = Some b -> viva b = true ->
     censo_total (terminar dir s) = censo_total s /\
     vivas (terminar dir s) = vivas s - 1) /\
  (forall s, alcanzable s -> censo_total s = Z.of_nat (length (abejas s))) /\
  (exists s, correr 100 5 20 traza_muerte = Some s /\ alcanzable s /\
     censo_total s = 2 /\ vivas s = 1).
Proof.
  split; [|split; [|split; [|split]]].
  - intros cl id uuid s. split.
    + unfold censo_total, obtener_distribucion_roles. simpl.
      apply sum_values_add_at.
    + unfold vivas. simpl. rewrite foldr_app. simpl.
      generalize (abejas s) as l.
      induction l as [|b l IH]; simpl; [reflexivity|]. rewrite IH. lia.
  - intros dir r s. unfold Abeja_cambiar_rol.
    destruct (abejas s !! dir) as [b|] eqn:Hb; [|split; reflexivity]. split.
    + unfold censo_total, obtener_distribucion_roles.
      cbn [colmena con_colmena]. apply cambiar_rol_abeja_total.
    + unfold vivas. simpl. rewrite (vivas_insert _ _ b) by exact Hb.
      unfold viva. simpl. lia.
  - intros dir s b Hb Hv. unfold terminar. rewrite Hb. split.
    + unfold censo_total, obtener_distribucion_roles, Abeja_run_finally. simpl.
      destruct (negb (event_fin_simulacion (colmena s))); reflexivity.
    + unfold vivas. simpl. rewrite (vivas_insert _ _ b) by exact Hb.
      rewrite Hv. unfold viva. simpl. lia.
  - exact alcanzable_cuenta.
  - eexists. split; [reflexivity|]. split.
    + apply (correr_alcanzable 100 5 20 traza_muerte). reflexivity.
    + vm_compute. split; reflexivity.
Qed.

(** ** The steps of a worker, run without interruption, are its [run] *)

Lemma completar_reposo n o b c :
  fase (hilo b) = EnBucle -> completar n o (b, c) = (b, c).
Proof.
  intros Hf. destruct n as [|n]; [reflexivity|].
  cbn [completar fst]. destruct (hilo b); try reflexivity; discriminate.
Qed.

Lemma completar_paso n o b c :
  fase (hilo b) <> EnBucle ->
  completar (S n) o (b, c) = completar n o (paso_obrera o b c).
Proof.
  intros Hf. cbn [completar fst snd].
  destruct (hilo b); try reflexivity; exfalso; apply Hf; reflexivity.
Qed.

Lemma completar_es_iteracion o b c :
  hilo b = EnBucle ->
  completar 3 o (paso_obrera o b c) = Abeja_run_iteracion o b c.
Proof.
  destruct b as [cl id r act iv isa h]. cbn [hilo]. intros ->.
  unfold Abeja_run_iteracion, paso_obrera at 1. cbn [hilo].
  destruct (Abeja_run_sigue (en_plazo o) _ c);
    [|apply completar_reposo; reflexivity].
  destruct (Abeja_run_descansa _ c);
    [apply completar_reposo; reflexivity|].
  unfold trabajar. cbn [clase id_abeja]. destruct cl.
  - unfold Recolectora_trabajar. cbn [id_abeja].
    destruct (visitar_flor (uniforme o) id c) as [polen c1].
    destruct (0 <? polen).
    + rewrite completar_paso by discriminate.
      unfold paso_obrera at 1. cbn [hilo con_hilo].
      rewrite completar_paso by discriminate.
      unfold paso_obrera at 1. cbn [hilo con_hilo].
      reflexivity.
    + reflexivity.
  - unfold Almacenadora_trabajar, obtener_nectar_cola.
    destruct (queue_nectar c) as [|[q id0] cola].
    + unfold Almacenadora_sin_nectar. cbn [intentos_vacios].
      destruct (10 <? iv + 1); reflexivity.
    + rewrite completar_paso by discriminate.
      unfold paso_obrera at 1, almacenar_nectar. cbn [hilo con_hilo id_abeja].
      destruct (semaforo_acquire (con_queue_nectar cola c)) as [c1|];
        [|reflexivity].
      rewrite completar_paso by discriminate.
      unfold paso_obrera at 1. cbn [hilo con_hilo].
      rewrite completar_paso by discriminate.
      unfold paso_obrera at 1. cbn [hilo con_hilo].
      reflexivity.
  - unfold Nodriza_trabajar, alimentar_larva. cbn [id_abeja].
    destruct (consumir_nectar id c) as [[|] c1].
    + rewrite completar_paso by discriminate.
      unfold paso_obrera at 1. cbn [hilo con_hilo id_abeja].
      destruct (alimentar_si_cabe id c1) as [[|] c2]; [reflexivity|].
      unfold Nodriza_sin_alimento.
      cbn [intentos_sin_alimento con_hilo rol id_abeja].
      destruct (5 <? isa + 1); reflexivity.
    + unfold Nodriza_sin_alimento. cbn [intentos_sin_alimento].
      destruct (5 <? isa + 1); reflexivity.
  - unfold Defensora_trabajar. cbn [id_abeja].
    destruct (event_ataque c); [|reflexivity].
    rewrite completar_paso by discriminate.
    unfold paso_obrera at 1. cbn [hilo con_hilo]. reflexivity.
  - reflexivity.
Qed.

(** ** Further properties *)

(** X1. Of [n] sequential calls of [almacenar_nectar] on a hive whose
    semaphore holds [m] permits, exactly the first [min n m] return [True];
    [celdas_ocupadas] grows by that number. *)
Theorem X1_almacenar_min lotes c m :
  semaforo_celdas c = Z.of_nat m ->
  fst (almacenar_todos lotes c)
    = replicate (Nat.min (length lotes) m) true
      ++ replicate (length lotes - Nat.min (length lotes) m) false /\
  celdas_ocupadas (snd (almacenar_todos lotes c))
    = celdas_ocupadas c + Z.of_nat (Nat.min (length lotes) m).
Proof.
  intros Hm. destruct (almacenar_todos_spec lotes c m Hm) as (H1 & H2 & _).
  split; assumption.
Qed.

Lemma X1_almacenar_min_witness :
  exists c, Colmena_init 2 5 20 = Some c /\
    fst (almacenar_todos [(1, "a1"); (2, "a2"); (3, "a1")] c)
      = [true; true; false].
Proof.
  eexists. split; [reflexivity|].
  match goal with
  | |- fst (almacenar_todos ?l ?c) = _ =>
      rewrite (proj1 (X1_almacenar_min l c 2%nat eq_refl))
  end.
  reflexivity.
Defined.


(** Scenario C as the program reaches it: the queen counts herself in
    the census (total 8); the ideals are still 3, 2, 2, 1, and one call of
    [reasignar_roles] turns the first registered forager into a storer. *)
Example escenario_C_con_reina :
  exists s,
    correr 100 5 20 traza_escenario_C = Some s /\
    obtener_distribucion_roles (colmena s)
      = <["reina" := 1]> censo_escenario_C /\
    calcular_roles_ideales 8 (equilibrio_ideal s)
      = [("recolectora", 3); ("almacenadora", 2); ("nodriza", 2);
         ("defensora", 1)] /\
    reasignar_roles s = Some (true, Abeja_cambiar_rol 1 "almacenadora" s) /\
    abejas (Abeja_cambiar_rol 1 "almacenadora" s)
      = <[1%nat := mkAbeja Recolectora "r1" "almacenadora" true 0 0 EnBucle]>
          (abejas s) /\
    obtener_distribucion_roles (colmena (Abeja_cambiar_rol 1 "almacenadora" s))
      = <["reina" := 1]> censo_escenario_C_final.
Proof.
  eexists. split; [reflexivity|].
  split; [reflexivity|].
  split; [vm_compute; reflexivity|].
  split; [|split;
    [vm_compute; reflexivity
    |apply (bool_decide_eq_true_1 _); vm_compute; reflexivity]].
  unfold reasignar_roles.
  match goal with
  | |- context [identificar_desequilibrio ?s] =>
      assert (Hid : identificar_desequilibrio s
                    = Some (Some ("recolectora", "almacenadora")))
        by (vm_compute; reflexivity);
      rewrite Hid
  end.
  reflexivity.
Qed.

(** ** Agent objects over time *)

Lemma misma_identidad_refl b : misma_identidad b b.
Proof. unfold misma_identidad. auto. Qed.

Lemma misma_identidad_trans b1 b2 b3 :
  misma_identidad b1 b2 -> misma_identidad b2 b3 -> misma_identidad b1 b3.
Proof.
  unfold misma_identidad.
  intros (A1 & A2 & A3 & A4 & A5) (B1 & B2 & B3 & B4 & B5).
  repeat split; try congruence; auto.
Qed.

Lemma heap_crece_refl l : heap_crece l l.
Proof.
  split; [lia|]. intros dir b Hb. exists b. split; [exact Hb|].
  apply misma_identidad_refl.
Qed.

Lemma heap_crece_trans l1 l2 l3 :
  heap_crece l1 l2 -> heap_crece l2 l3 -> heap_crece l1 l3.
Proof.
  intros [L1 H1] [L2 H2]. split; [lia|]. intros dir b Hb.
  destruct (H1 dir b Hb) as (b2 & Hb2 & I2).
  destruct (H2 dir b2 Hb2) as (b3 & Hb3 & I3).
  exists b3. split; [exact Hb3|]. eapply misma_identidad_trans; eassumption.
Qed.

Lemma heap_crece_app l l2 : heap_crece l (l ++ l2).
Proof.
  split; [rewrite length_app; lia|]. intros dir b Hb. exists b.
  split; [apply lookup_app_l_Some, Hb|apply misma_identidad_refl].
Qed.

Lemma heap_crece_insert (l : list Abeja) dir b b' :
  l !! dir = Some b -> misma_identidad b b' -> heap_crece l (<[dir := b']> l).
Proof.
  intros Hb Hi. split; [rewrite length_insert; lia|]. intros j x Hx.
  destruct (decide (j = dir)) as [->|Hne].
  - exists b'. split.
    + apply list_lookup_insert_eq. apply lookup_lt_Some in Hb. exact Hb.
    + rewrite Hb in Hx. injection Hx as <-. exact Hi.
  - exists x. split; [|apply misma_identidad_refl].
    rewrite list_lookup_insert_ne by congruence. exact Hx.
Qed.

Lemma respeta_refl s : respeta s s.
Proof. split; [reflexivity|apply heap_crece_refl]. Qed.

Lemma respeta_trans s1 s2 s3 : respeta s1 s2 -> respeta s2 s3 -> respeta s1 s3.
Proof.
  intros [M1 H1] [M2 H2]. split; [congruence|].
  eapply heap_crece_trans; eassumption.
Qed.

Ltac respeta_igual := split; [reflexivity|apply heap_crece_refl].

Lemma Abeja_init_respeta cl id uuid s : respeta s (snd (Abeja_init cl id uuid s)).
Proof. split; [reflexivity|]. simpl. apply heap_crece_app. Qed.

Lemma Thread_start_respeta dir s : respeta s (Thread_start dir s).
Proof.
  unfold Thread_start. destruct (abejas s !! dir) as [b|] eqn:Hb;
    [|respeta_igual].
  destruct (hilo b) eqn:Hh; try respeta_igual.
  split; [reflexivity|]. simpl. apply heap_crece_insert with b; [exact Hb|].
  unfold misma_identidad. simpl. rewrite Hh.
  repeat split; try reflexivity; discriminate.
Qed.

Lemma agregar_abeja_respeta dir s : respeta s (agregar_abeja dir s).
Proof.
  unfold agregar_abeja. destruct (abejas s !! dir); respeta_igual.
Qed.

Lemma Abeja_cambiar_rol_respeta dir r s : respeta s (Abeja_cambiar_rol dir r s).
Proof.
  unfold Abeja_cambiar_rol. destruct (abejas s !! dir) as [b|] eqn:Hb;
    [|respeta_igual].
  split; [reflexivity|]. simpl. apply heap_crece_insert with b; [exact Hb|].
  unfold misma_identidad. simpl. auto.
Qed.

Lemma crear_abeja_respeta r uuid s : respeta s (snd (crear_abeja r uuid s)).
Proof.
  unfold crear_abeja. destruct (fabrica_abejas r) as [cl|];
    [|respeta_igual].
  pose proof (Abeja_init_respeta cl None uuid s) as H.
  destruct (Abeja_init cl None uuid s) as [dir s1]. simpl in *.
  eapply respeta_trans; [exact H|].
  eapply respeta_trans; [apply agregar_abeja_respeta|].
  apply Thread_start_respeta.
Qed.

Lemma procesar_mensaje_respeta m uuid s : respeta s (procesar_mensaje m uuid s).
Proof.
  destruct m as [r id|r id n|r id|]; simpl.
  - unfold reemplazar_abeja_muerta.
    eapply respeta_trans; [|apply crear_abeja_respeta].
    destruct (dict_in id (abejas_activas s)); respeta_igual.
  - destruct (String.eqb r "almacenadora"); [|respeta_igual].
    destruct (0 <? _); [|respeta_igual].
    destruct (dict_get id (abejas_activas s));
      [apply Abeja_cambiar_rol_respeta|respeta_igual].
  - destruct (String.eqb r "nodriza"); respeta_igual.
  - respeta_igual.
Qed.

Lemma reasignar_roles_respeta s b s' :
  reasignar_roles s = Some (b, s') -> respeta s s'.
Proof.
  unfold reasignar_roles.
  destruct (identificar_desequilibrio s) as [[[re rd]|]|]; try discriminate.
  - destruct (Py.truthy re && Py.truthy rd).
    + destruct (primera_con_rol re (abejas s) (abejas_activas s)).
      * intros [= _ <-]. apply Abeja_cambiar_rol_respeta.
      * intros [= _ <-]. respeta_igual.
    + intros [= _ <-]. respeta_igual.
  - intros [= _ <-]. respeta_igual.
Qed.

Lemma Reina_trabajar_respeta o s : respeta s (fst (Reina_trabajar o s)).
Proof.
  unfold Reina_trabajar, obtener_mensaje_reina.
  destruct (queue_reina (colmena s)) as [|m resto].
  - destruct (Qlt_bool (Py.fl (azar1 o)) (Py.fl (2 # 10))); [|respeta_igual].
    destruct (reasignar_roles _) as [[r s3]|] eqn:Hr; simpl;
      [|respeta_igual].
    apply reasignar_roles_respeta in Hr. exact Hr.
  - assert (H2 : respeta s
      (procesar_mensaje m (uuid o)
         (con_colmena (con_queue_reina resto (colmena s)) s))).
    { eapply respeta_trans; [|apply procesar_mensaje_respeta].
      respeta_igual. }
    destruct (Qlt_bool (Py.fl (azar1 o)) (Py.fl (2 # 10))); [|exact H2].
    destruct (reasignar_roles _) as [[r s3]|] eqn:Hr; simpl; [|exact H2].
    eapply respeta_trans; [exact H2|].
    eapply reasignar_roles_respeta. exact Hr.
Qed.

Lemma terminar_respeta dir s : respeta s (terminar dir s).
Proof.
  unfold terminar. destruct (abejas s !! dir) as [b|] eqn:Hb;
    [|respeta_igual].
  split.
  - unfold Abeja_run_finally. simpl.
    destruct (negb (event_fin_simulacion (colmena s))); reflexivity.
  - simpl. apply heap_crece_insert with b; [exact Hb|].
    unfold misma_identidad. simpl. repeat split; auto. discriminate.
Qed.

Lemma paso_obrera_identidad o b c :
  misma_identidad b (fst (paso_obrera o b c)).
Proof.
  unfold misma_identidad, paso_obrera.
  destruct (hilo b) eqn:Hh; simpl; rewrite ?Hh;
    try (repeat split; auto; discriminate).
  - destruct (Abeja_run_sigue (en_plazo o) b c).
    + destruct (Abeja_run_descansa b c);
        [simpl; rewrite Hh; repeat split; auto; discriminate|].
      destruct (clase b) eqn:Hc; simpl; rewrite ?Hh, ?Hc.
      * destruct (visitar_flor (uniforme o) (id_abeja b) c) as [p c1].
        destruct (0 <? p); simpl; rewrite ?Hh, ?Hc;
          repeat split; auto; discriminate.
      * destruct (obtener_nectar_cola c) as [[[q i]|] c1]; simpl;
          [rewrite ?Hc; repeat split; auto; discriminate|].
        unfold Almacenadora_sin_nectar. destruct (10 <? _); simpl;
          rewrite ?Hh, ?Hc; repeat split; auto; discriminate.
      * destruct (consumir_nectar (id_abeja b) c) as [[|] c1]; simpl;
          [rewrite ?Hc; repeat split; auto; discriminate|].
        unfold Nodriza_sin_alimento. destruct (5 <? _); simpl;
          rewrite ?Hh, ?Hc; repeat split; auto; discriminate.
      * destruct (event_ataque c); simpl; rewrite ?Hh, ?Hc;
          repeat split; auto; discriminate.
      * repeat split; auto; discriminate.
    + simpl. repeat split; auto; discriminate.
  - destruct (semaforo_acquire c); simpl; repeat split; auto; discriminate.
  - destruct (alimentar_si_cabe (id_abeja b) c) as [[|] c1]; simpl;
      [repeat split; auto; discriminate|].
    unfold Nodriza_sin_alimento. simpl. destruct (5 <? _); simpl;
      repeat split; auto; discriminate.
Qed.

Lemma avanzar_heap o dir s : heap_crece (abejas s) (abejas (avanzar o dir s)).
Proof.
  unfold avanzar. destruct (abejas s !! dir) as [b|] eqn:Hb;
    [|apply heap_crece_refl].
  assert (Hobrera : heap_crece (abejas s)
    (abejas (con_abeja_y_colmena dir (paso_obrera o b (colmena s)) s))).
  { simpl. apply heap_crece_insert with b; [exact Hb|].
    apply paso_obrera_identidad. }
  destruct (clase b); try exact Hobrera.
  destruct (hilo b); try exact Hobrera.
  destruct (Abeja_run_sigue (en_plazo o) b (colmena s)).
  - destruct (Abeja_run_descansa b (colmena s)); [apply heap_crece_refl|].
    pose proof (Reina_trabajar_respeta o s) as [_ He].
    destruct (Reina_trabajar o s) as [s1 ex]. simpl in He.
    destruct ex; [|exact He].
    eapply heap_crece_trans; [exact He|apply terminar_respeta].
  - apply terminar_respeta.
Qed.

Lemma ejecutar_heap e s : heap_crece (abejas s) (abejas (ejecutar e s)).
Proof.
  destruct e as [cl id u|eq id u|dir|dir|o dir|ll q|d| | |]; simpl;
    try apply heap_crece_refl.
  - destruct cl; try apply heap_crece_refl; simpl; apply heap_crece_app.
  - apply heap_crece_app.
  - apply Thread_start_respeta.
  - apply agregar_abeja_respeta.
  - apply avanzar_heap.
Qed.

Lemma ejecutar_todos_heap es : forall s,
  heap_crece (abejas s) (abejas (ejecutar_todos es s)).
Proof.
  unfold ejecutar_todos.
  induction es as [|e es IH]; intros s; simpl; [apply heap_crece_refl|].
  eapply heap_crece_trans; [apply ejecutar_heap|apply IH].
Qed.

(** ** The registry of the queen *)

Lemma dict_set_In {A} k (v : A) d k' v' :
  In (k', v') (dict_set k v d) -> (k', v') = (k, v) \/ In (k', v') d.
Proof.
  induction d as [|[k0 v0] d IH]; simpl.
  - intros [H|[]]. left. congruence.
  - destruct (String.eqb k k0) eqn:He.
    + apply String.eqb_eq in He. subst k0.
      intros [H|H]; [left; congruence|right; right; exact H].
    + intros [H|H]; [right; left; exact H|].
      destruct (IH H) as [H'|H']; [left; exact H'|right; right; exact H'].
Qed.

Lemma dict_set_claves {A} k (v : A) d :
  map fst (dict_set k v d)
  = if dict_in k d then map fst d else map fst d ++ [k].
Proof.
  unfold dict_in. induction d as [|[k0 v0] d IH]; simpl; [reflexivity|].
  destruct (String.eqb k k0) eqn:He; simpl.
  - apply String.eqb_eq in He. subst k0. reflexivity.
  - rewrite IH. destruct (dict_get k d); reflexivity.
Qed.

Lemma dict_in_claves {A} k (d : list (string * A)) :
  dict_in k d = true <-> In k (map fst d).
Proof.
  unfold dict_in. induction d as [|[k0 v0] d IH]; simpl.
  - split; [discriminate|intros []].
  - destruct (String.eqb k k0) eqn:He.
    + apply String.eqb_eq in He. subst k0. split; auto.
    + apply String.eqb_neq in He. rewrite IH. split; [auto|].
      intros [H|H]; [congruence|exact H].
Qed.

Lemma dict_set_NoDup {A} k (v : A) d :
  NoDup (map fst d) -> NoDup (map fst (dict_set k v d)).
Proof.
  intros Hd. rewrite dict_set_claves.
  destruct (dict_in k d) eqn:Hin; [exact Hd|].
  apply NoDup_app. split; [exact Hd|]. split.
  - intros x Hx Hx'. apply list_elem_of_In in Hx, Hx'.
    destruct Hx' as [<-|[]].
    apply dict_in_claves in Hx. congruence.
  - apply NoDup_singleton.
Qed.

Lemma dict_del_In {A} k (d : list (string * A)) x :
  In x (dict_del k d) -> In x d.
Proof.
  induction d as [|[k0 v0] d IH]; simpl; [auto|].
  destruct (String.eqb k k0); [auto|]. intros [H|H]; auto.
Qed.

Lemma dict_del_claves_In {A} k (d : list (string * A)) x :
  In x (map fst (dict_del k d)) -> In x (map fst d).
Proof.
  induction d as [|[k0 v0] d IH]; simpl; [auto|].
  destruct (String.eqb k k0); [auto|]. simpl. intros [H|H]; auto.
Qed.

Lemma dict_del_NoDup {A} k (d : list (string * A)) :
  NoDup (map fst d) -> NoDup (map fst (dict_del k d)).
Proof.
  induction d as [|[k0 v0] d IH]; simpl; [auto|].
  intros Hd. apply NoDup_cons in Hd as [Hk Hd].
  destruct (String.eqb k k0); [exact Hd|]. simpl.
  apply NoDup_cons. split; [|apply IH, Hd].
  intros Hx. apply Hk. apply list_elem_of_In. apply list_elem_of_In in Hx.
  eapply dict_del_claves_In. exact Hx.
Qed.

(** After [del d[k]] on a dictionary, the key is gone. *)
Lemma dict_del_fuera {A} k (d : list (string * A)) :
  NoDup (map fst d) -> dict_in k (dict_del k d) = false.
Proof.
  intros Hd. destruct (dict_in k (dict_del k d)) eqn:Hin; [|reflexivity].
  exfalso. apply dict_in_claves in Hin. revert Hd Hin.
  induction d as [|[k0 v0] d IH]; simpl; [auto|].
  intros Hd. apply NoDup_cons in Hd as [Hk Hd].
  destruct (String.eqb k k0) eqn:He.
  - apply String.eqb_eq in He. subst k0. intros Hin. apply Hk.
    apply list_elem_of_In. exact Hin.
  - apply String.eqb_neq in He. simpl. intros [H|H]; [congruence|].
    apply IH; assumption.
Qed.

Lemma registro_heap s s' :
  registro_bien_formado s ->
  heap_crece (abejas s) (abejas s') ->
  abejas_activas s' = abejas_activas s ->
  registro_bien_formado s'.
Proof.
  intros [Hn Hr] [_ Hh] Ha. split; rewrite Ha; [exact Hn|].
  intros id dir Hin. destruct (Hr id dir Hin) as (b & Hb & Hid).
  destruct (Hh dir b Hb) as (b' & Hb' & (_ & Hid' & _)).
  exists b'. split; [exact Hb'|congruence].
Qed.

Lemma agregar_abeja_registro dir s :
  registro_bien_formado s -> registro_bien_formado (agregar_abeja dir s).
Proof.
  intros [Hn Hr]. unfold agregar_abeja.
  destruct (abejas s !! dir) as [b|] eqn:Hb; [|split; assumption].
  split; simpl.
  - apply dict_set_NoDup, Hn.
  - intros id d Hin. apply dict_set_In in Hin as [Hin|Hin].
    + injection Hin as -> ->. exists b. auto.
    + apply Hr, Hin.
Qed.

Lemma Thread_start_abejas dir s :
  heap_crece (abejas s) (abejas (Thread_start dir s)).
Proof. apply Thread_start_respeta. Qed.

Lemma crear_abeja_registro r uuid s :
  registro_bien_formado s -> registro_bien_formado (snd (crear_abeja r uuid s)).
Proof.
  intros H. unfold crear_abeja. destruct (fabrica_abejas r) as [cl|]; [|exact H].
  assert (H1 : registro_bien_formado (snd (Abeja_init cl None uuid s))).
  { eapply registro_heap; [exact H| |reflexivity].
    apply Abeja_init_respeta. }
  destruct (Abeja_init cl None uuid s) as [dir s1]. simpl in *.
  eapply registro_heap; [apply agregar_abeja_registro, H1| |].
  - apply Thread_start_respeta.
  - apply Thread_start_abejas_activas.
Qed.

Lemma Abeja_cambiar_rol_registro dir r s :
  registro_bien_formado s -> registro_bien_formado (Abeja_cambiar_rol dir r s).
Proof.
  intros H. eapply registro_heap; [exact H|apply Abeja_cambiar_rol_respeta|].
  unfold Abeja_cambiar_rol. destruct (abejas s !! dir); reflexivity.
Qed.

Lemma procesar_mensaje_registro m uuid s :
  registro_bien_formado s -> registro_bien_formado (procesar_mensaje m uuid s).
Proof.
  intros H. destruct m as [r id|r id n|r id|]; simpl.
  - apply crear_abeja_registro.
    destruct (dict_in id (abejas_activas s)); [|exact H].
    destruct H as [Hn Hr]. split; simpl.
    + apply dict_del_NoDup, Hn.
    + intros i d Hin. apply Hr. eapply dict_del_In. exact Hin.
  - destruct (String.eqb r "almacenadora"); [|exact H].
    destruct (0 <? _); [|exact H].
    destruct (dict_get id (abejas_activas s));
      [apply Abeja_cambiar_rol_registro|]; exact H.
  - destruct (String.eqb r "nodriza"); exact H.
  - exact H.
Qed.

Lemma reasignar_roles_registro s b s' :
  reasignar_roles s = Some (b, s') ->
  registro_bien_formado s -> registro_bien_formado s'.
Proof.
  unfold reasignar_roles. intros Hr H.
  destruct (identificar_desequilibrio s) as [[[re rd]|]|]; try discriminate.
  - destruct (Py.truthy re && Py.truthy rd).
    + destruct (primera_con_rol re (abejas s) (abejas_activas s));
        injection Hr as _ <-; [apply Abeja_cambiar_rol_registro|]; exact H.
    + injection Hr as _ <-. exact H.
  - injection Hr as _ <-. exact H.
Qed.

Lemma Reina_trabajar_registro o s :
  registro_bien_formado s -> registro_bien_formado (fst (Reina_trabajar o s)).
Proof.
  intros H. unfold Reina_trabajar, obtener_mensaje_reina.
  destruct (queue_reina (colmena s)) as [|m resto].
  - destruct (Qlt_bool (Py.fl (azar1 o)) (Py.fl (2 # 10))); [|exact H].
    destruct (reasignar_roles _) as [[r s3]|] eqn:Hr; simpl; [|exact H].
    eapply reasignar_roles_registro; [exact Hr|exact H].
  - assert (H2 : registro_bien_formado
      (procesar_mensaje m (uuid o)
         (con_colmena (con_queue_reina resto (colmena s)) s))).
    { apply procesar_mensaje_registro. exact H. }
    destruct (Qlt_bool (Py.fl (azar1 o)) (Py.fl (2 # 10))); [|exact H2].
    destruct (reasignar_roles _) as [[r s3]|] eqn:Hr; simpl; [|exact H2].
    eapply reasignar_roles_registro; [exact Hr|exact H2].
Qed.

Lemma terminar_registro dir s :
  registro_bien_formado s -> registro_bien_formado (terminar dir s).
Proof.
  intros H. eapply registro_heap; [exact H|apply terminar_respeta|].
  unfold terminar. destruct (abejas s !! dir); reflexivity.
Qed.

Lemma avanzar_registro o dir s :
  registro_bien_formado s -> registro_bien_formado (avanzar o dir s).
Proof.
  intros H. unfold avanzar.
  destruct (abejas s !! dir) as [b|] eqn:Hb; [|exact H].
  assert (Hobrera : registro_bien_formado
    (con_abeja_y_colmena dir (paso_obrera o b (colmena s)) s)).
  { eapply registro_heap; [exact H| |reflexivity]. simpl.
    apply heap_crece_insert with b; [exact Hb|apply paso_obrera_identidad]. }
  destruct (clase b); try exact Hobrera.
  destruct (hilo b); try exact Hobrera.
  destruct (Abeja_run_sigue (en_plazo o) b (colmena s)).
  - destruct (Abeja_run_descansa b (colmena s)); [exact H|].
    pose proof (Reina_trabajar_registro o s H) as H1.
    destruct (Reina_trabajar o s) as [s1 ex]. simpl in H1.
    destruct ex; [apply terminar_registro|]; exact H1.
  - apply terminar_registro, H.
Qed.

Lemma ejecutar_registro e s :
  registro_bien_formado s -> registro_bien_formado (ejecutar e s).
Proof.
  intros H. destruct e as [cl id u|eq id u|dir|dir|o dir|ll q|d| | |]; simpl;
    try exact H.
  - destruct cl; try exact H;
      (eapply registro_heap; [exact H|apply Abeja_init_respeta|reflexivity]).
  - split; simpl; [constructor|intros i d []].
  - eapply registro_heap; [exact H|apply Thread_start_respeta|].
    apply Thread_start_abejas_activas.
  - apply agregar_abeja_registro, H.
  - apply avanzar_registro, H.
Qed.

Lemma alcanzable_registro s : alcanzable s -> registro_bien_formado s.
Proof.
  induction 1 as [cap pol larv c Hc|e s _ IH].
  - split; simpl; [constructor|intros i d []].
  - apply ejecutar_registro, IH.
Qed.

(** ** The order on deviations and the choice of surplus and deficit *)

Lemma Qlt_bool_false a b : Qlt_bool a b = false <-> (b <= a)%Q.
Proof.
  unfold Qlt_bool. rewrite negb_false_iff. apply Qle_bool_iff.
Qed.

Lemma Qlt_bool_true a b : Qlt_bool a b = true <-> (a < b)%Q.
Proof.
  unfold Qlt_bool. rewrite negb_true_iff. split.
  - intros H. apply Qnot_le_lt. intros Hle.
    apply Qle_bool_iff in Hle. congruence.
  - intros H. destruct (Qle_bool b a) eqn:E; [|reflexivity].
    apply Qle_bool_iff in E. exfalso. exact (Qlt_not_le _ _ H E).
Qed.

Lemma desv_lt_irrefl a : desv_lt a a = false.
Proof.
  destruct a as [q|]; simpl; [|reflexivity].
  apply Qlt_bool_false. apply Qle_refl.
Qed.

(** [b <= a] and [c <= b] give [c <= a]. *)
Lemma desv_ge_trans a b c :
  desv_lt a b = false -> desv_lt b c = false -> desv_lt a c = false.
Proof.
  destruct a as [x|], b as [y|], c as [z|]; simpl;
    try reflexivity; try discriminate.
  rewrite !Qlt_bool_false. intros H1 H2. eapply Qle_trans; eassumption.
Qed.

(** [b <= a] and [c < b] give [c <= a]. *)
Lemma desv_ge_lt a b c :
  desv_lt a b = false -> desv_lt c b = true -> desv_lt a c = false.
Proof.
  destruct a as [x|], b as [y|], c as [z|]; simpl;
    try reflexivity; try discriminate.
  rewrite !Qlt_bool_false, Qlt_bool_true. intros H1 H2.
  apply Qlt_le_weak. eapply Qlt_le_trans; eassumption.
Qed.

(** [a <= b] and [b < c] give [a <= c], read on the other side. *)
Lemma desv_le_lt a b c :
  desv_lt b a = false -> desv_lt b c = true -> desv_lt c a = false.
Proof.
  destruct a as [x|], b as [y|], c as [z|]; simpl;
    try reflexivity; try discriminate.
  rewrite !Qlt_bool_false, Qlt_bool_true. intros H1 H2.
  apply Qlt_le_weak. eapply Qle_lt_trans; eassumption.
Qed.

Lemma max_desde_es_maximo d : forall x e,
  In e (x :: d) -> desv_lt (snd (max_desde x d)) (snd e) = false.
Proof.
  induction d as [|[k v] d IH]; intros x e He.
  - destruct He as [<-|[]]. simpl. apply desv_lt_irrefl.
  - simpl. destruct (desv_lt (snd x) v) eqn:Hx.
    + destruct He as [<-|[<-|He]].
      * eapply desv_ge_lt; [|exact Hx]. apply (IH (k, v) (k, v)).
        left. reflexivity.
      * apply (IH (k, v) (k, v)). left. reflexivity.
      * apply IH. right. exact He.
    + destruct He as [<-|[<-|He]].
      * apply IH. left. reflexivity.
      * eapply desv_ge_trans; [|exact Hx]. apply IH. left. reflexivity.
      * apply IH. right. exact He.
Qed.

Lemma min_desde_In d : forall x, In (min_desde x d) (x :: d).
Proof.
  induction d as [|[k v] d IH]; intros x; simpl; [left; reflexivity|].
  destruct (IH (if desv_lt v (snd x) then (k, v) else x)) as [H|H].
  - destruct (desv_lt v (snd x)); rewrite <- H; auto.
  - right. right. exact H.
Qed.

Lemma min_desde_es_minimo d : forall x e,
  In e (x :: d) -> desv_lt (snd e) (snd (min_desde x d)) = false.
Proof.
  induction d as [|[k v] d IH]; intros x e He.
  - destruct He as [<-|[]]. simpl. apply desv_lt_irrefl.
  - simpl. destruct (desv_lt v (snd x)) eqn:Hx.
    + destruct He as [<-|[<-|He]].
      * eapply desv_le_lt; [|exact Hx]. apply (IH (k, v) (k, v)).
        left. reflexivity.
      * apply (IH (k, v) (k, v)). left. reflexivity.
      * apply IH. right. exact He.
    + destruct He as [<-|[<-|He]].
      * apply IH. left. reflexivity.
      * eapply desv_ge_trans; [exact Hx|]. apply IH. left. reflexivity.
      * apply IH. right. exact He.
Qed.

(** The dictionary a loop [for k in e: d[k] = f(k)] builds. *)
Lemma fold_dict_set_spec {A B} (f : string -> B) (e : list (string * A)) :
  forall acc,
    NoDup (map fst acc) ->
    (forall k v, In (k, v) acc -> v = f k) ->
    let d := fold_left (fun acc '(k, _) => dict_set k (f k) acc) e acc in
    NoDup (map fst d) /\
    (forall k v, In (k, v) d -> v = f k /\ (In k (map fst acc) \/ In k (map fst e))) /\
    (forall k, In k (map fst acc) \/ In k (map fst e) -> In (k, f k) d).
Proof.
  induction e as [|[k0 p0] e IH]; intros acc Hn Hf; simpl.
  - split; [exact Hn|]. split.
    + intros k v Hin. split; [apply Hf, Hin|left].
      apply in_map_iff. exists (k, v). auto.
    + intros k [Hk|[]]. apply in_map_iff in Hk as ([k' v] & <- & Hin).
      simpl. rewrite <- (Hf _ _ Hin). exact Hin.
  - assert (Hn' : NoDup (map fst (dict_set k0 (f k0) acc)))
      by (apply dict_set_NoDup, Hn).
    assert (Hf' : forall k v, In (k, v) (dict_set k0 (f k0) acc) -> v = f k).
    { intros k v Hin. apply dict_set_In in Hin as [Hin|Hin];
        [congruence|apply Hf, Hin]. }
    destruct (IH _ Hn' Hf') as (D1 & D2 & D3). split; [exact D1|]. split.
    + intros k v Hin. destruct (D2 k v Hin) as [Hv Hk]. split; [exact Hv|].
      destruct Hk as [Hk|Hk]; [|right; right; exact Hk].
      rewrite dict_set_claves in Hk.
      destruct (dict_in k0 acc); [left; exact Hk|].
      apply in_app_iff in Hk as [Hk|[<-|[]]]; [left; exact Hk|right; left].
      reflexivity.
    + intros k Hk. apply D3. rewrite dict_set_claves.
      destruct (dict_in k0 acc) eqn:Hin.
      * destruct Hk as [Hk|[<-|Hk]]; [left; exact Hk| |right; exact Hk].
        left. apply dict_in_claves, Hin.
      * destruct Hk as [Hk|[<-|Hk]]; [| |right; exact Hk];
          left; apply in_app_iff; [left; exact Hk|right; left; reflexivity].
Qed.

Lemma desviaciones_spec s :
  NoDup (map fst (desviaciones s)) /\
  (forall k v, In (k, v) (desviaciones s) ->
     v = desviacion_de s k /\ In k (map fst (equilibrio_ideal s))) /\
  (forall k, In k (map fst (equilibrio_ideal s)) ->
     In (k, desviacion_de s k) (desviaciones s)).
Proof.
  unfold desviaciones, calcular_diferencias, desviacion_de, censo_total.
  destruct (fold_dict_set_spec
    (diferencia_de
       (calcular_roles_ideales
          (Py.sum_values (obtener_distribucion_roles (colmena s)))
          (equilibrio_ideal s))
       (obtener_distribucion_roles (colmena s)))
    (equilibrio_ideal s) []) as (D1 & D2 & D3).
  - constructor.
  - intros k v [].
  - split; [exact D1|]. split.
    + intros k v Hin. destruct (D2 k v Hin) as [Hv [[]|Hk]]. auto.
    + intros k Hk. apply D3. right. exact Hk.
Qed.

Lemma NoDup_fst_funcional {A} (d : list (string * A)) k v1 v2 :
  NoDup (map fst d) -> In (k, v1) d -> In (k, v2) d -> v1 = v2.
Proof.
  induction d as [|[k0 v0] d IH]; simpl; [intros _ []|].
  intros Hn. apply NoDup_cons in Hn as [Hk Hn].
  intros [H1|H1] [H2|H2].
  - congruence.
  - injection H1 as -> ->. exfalso. apply Hk. apply list_elem_of_In.
    apply in_map_iff. exists (k, v2). auto.
  - injection H2 as -> ->. exfalso. apply Hk. apply list_elem_of_In.
    apply in_map_iff. exists (k, v1). auto.
  - apply IH; assumption.
Qed.

Lemma identificar_desequilibrio_Some s re rd :
  identificar_desequilibrio s = Some (Some (re, rd)) ->
  censo_total s <> 0 /\
  In (re, desviacion_de s re) (desviaciones s) /\
  In (rd, desviacion_de s rd) (desviaciones s) /\
  desv_lt (Finita umbral) (desviacion_de s re) = true /\
  desv_lt (desviacion_de s rd) (Finita (- umbral)) = true /\
  (forall k v, In (k, v) (desviaciones s) ->
     desv_lt (desviacion_de s re) v = false /\
     desv_lt v (desviacion_de s rd) = false).
Proof.
  unfold identificar_desequilibrio. fold (censo_total s).
  destruct (Z.eqb_spec (censo_total s) 0) as [|Hne]; [discriminate|].
  fold (desviaciones s). destruct (desviaciones_spec s) as (_ & D2 & _).
  destruct (desviaciones s) as [|x d] eqn:Hd; [discriminate|].
  pose proof (max_desde_In d x) as Hmax.
  pose proof (min_desde_In d x) as Hmin.
  pose proof (max_desde_es_maximo d x) as Hmax'.
  pose proof (min_desde_es_minimo d x) as Hmin'.
  destruct (max_desde x d) as [re' de]. destruct (min_desde x d) as [rd' dd].
  destruct (desv_lt (Finita umbral) de) eqn:H1; [|discriminate].
  destruct (desv_lt dd (Finita (- umbral))) eqn:H2; [|discriminate].
  simpl. intros [= -> ->].
  destruct (D2 _ _ Hmax) as [-> _]. destruct (D2 _ _ Hmin) as [-> _].
  repeat split; auto.
  - apply (Hmax' (k, v)). exact H.
  - apply (Hmin' (k, v)). exact H.
Qed.

Lemma identificar_desequilibrio_roles s re rd :
  identificar_desequilibrio s = Some (Some (re, rd)) ->
  In re (map fst (equilibrio_ideal s)) /\
  In rd (map fst (equilibrio_ideal s)) /\
  re <> rd /\
  desv_lt (Finita umbral) (desviacion_de s re) = true /\
  desv_lt (desviacion_de s rd) (Finita (- umbral)) = true /\
  (forall k, In k (map fst (equilibrio_ideal s)) ->
     desv_lt (desviacion_de s re) (desviacion_de s k) = false /\
     desv_lt (desviacion_de s k) (desviacion_de s rd) = false).
Proof.
  intros H.
  destruct (identificar_desequilibrio_Some s re rd H)
    as (_ & Hre & Hrd & H1 & H2 & Hall).
  destruct (desviaciones_spec s) as (_ & D2 & D3).
  split; [apply (D2 _ _ Hre)|]. split; [apply (D2 _ _ Hrd)|].
  split; [|split; [exact H1|split; [exact H2|]]].
  - intros ->. destruct (desviacion_de s rd) as [q|];
      [|discriminate H2].
    unfold desv_lt in H1, H2. apply Qlt_bool_true in H1, H2.
    assert (Hc : (umbral < - umbral)%Q)
      by (eapply Qlt_trans; eassumption).
    vm_compute in Hc. discriminate Hc.
  - intros k Hk. apply (Hall k (desviacion_de s k)). apply D3, Hk.
Qed.

(** X4. [identificar_desequilibrio] raises only when the ratio table is
    empty and the census is not. When it names a surplus and a deficit role,
    both are roles of the ratio table, they differ, the deviation of the
    first, computed in floats from the float ideals, is above the float 0.1
    and the largest of the table, and the deviation of the second is below
    the float -0.1 and the smallest. *)
Theorem X4_identificar_desequilibrio s :
  (identificar_desequilibrio s = None <->
     censo_total s <> 0 /\ equilibrio_ideal s = []) /\
  (forall re rd,
     identificar_desequilibrio s = Some (Some (re, rd)) ->
     In re (map fst (equilibrio_ideal s)) /\
     In rd (map fst (equilibrio_ideal s)) /\
     re <> rd /\
     desv_lt (Finita umbral) (desviacion_de s re) = true /\
     desv_lt (desviacion_de s rd) (Finita (- umbral)) = true /\
     (forall k, In k (map fst (equilibrio_ideal s)) ->
        desv_lt (desviacion_de s re) (desviacion_de s k) = false /\
        desv_lt (desviacion_de s k) (desviacion_de s rd) = false)).
Proof.
  split; [|apply identificar_desequilibrio_roles].
  unfold identificar_desequilibrio. fold (censo_total s).
  destruct (Z.eqb_spec (censo_total s) 0) as [Hz|Hne].
  { split; [discriminate|]. intros [H _]. contradiction. }
  destruct (equilibrio_ideal s) as [|x e] eqn:He.
  - simpl. split; auto.
  - pose proof (calcular_diferencias_no_vacio (x :: e)
      (obtener_distribucion_roles (colmena s)) ltac:(discriminate)) as Hnv.
    destruct (calcular_diferencias (x :: e) _) as [|y d]; [congruence|].
    split; [|intros [_ H]; discriminate].
    destruct (max_desde y d) as [re de]. destruct (min_desde y d) as [rd dd].
    destruct (_ && _); discriminate.
Qed.

Lemma primera_con_rol_Some r heap registro dir :
  primera_con_rol r heap registro = Some dir ->
  exists id b, In (id, dir) registro /\ heap !! dir = Some b /\ rol b = r.
Proof.
  induction registro as [|[id0 dir0] registro IH]; simpl; [discriminate|].
  destruct (heap !! dir0) as [b0|] eqn:Hb0.
  - destruct (String.eqb (rol b0) r) eqn:He.
    + intros [= <-]. apply String.eqb_eq in He. exists id0, b0. auto.
    + intros H. destruct (IH H) as (id & b & Hin & Hb & Hr).
      exists id, b. auto.
  - intros H. destruct (IH H) as (id & b & Hin & Hb & Hr). exists id, b. auto.
Qed.

Lemma get0_add_at_ne k k' n d :
  k <> k' -> Py.get0 (Py.add_at k n d) k' = Py.get0 d k'.
Proof.
  intros Hne. unfold Py.add_at, Py.get0 at 1.
  rewrite lookup_insert_ne by exact Hne. reflexivity.
Qed.

(** X5. A call of [reasignar_roles] that returns [False] changes nothing.
    One that returns [True] has relabelled exactly one agent: a registered
    agent that carried the surplus role now carries the deficit role, every
    other agent object is as before, the census has one less for the
    surplus role and one more for the deficit role, its other entries and
    the registry are as before, and [cambios_rol] has grown by one. *)
Theorem X5_reasignar_roles s r s' :
  reasignar_roles s = Some (r, s') ->
  (r = false -> s' = s) /\
  (r = true ->
   exists re rd id dir b,
     identificar_desequilibrio s = Some (Some (re, rd)) /\
     In (id, dir) (abejas_activas s) /\
     abejas s !! dir = Some b /\ rol b = re /\
     abejas s' = <[dir := con_rol rd b]> (abejas s) /\
     abejas_activas s' = abejas_activas s /\
     Py.get0 (obtener_distribucion_roles (colmena s')) re
       = Py.get0 (obtener_distribucion_roles (colmena s)) re - 1 /\
     Py.get0 (obtener_distribucion_roles (colmena s')) rd
       = Py.get0 (obtener_distribucion_roles (colmena s)) rd + 1 /\
     (forall k, k <> re -> k <> rd ->
        Py.get0 (obtener_distribucion_roles (colmena s')) k
        = Py.get0 (obtener_distribucion_roles (colmena s)) k) /\
     cambios_rol (contador_global (colmena s'))
       = cambios_rol (contador_global (colmena s)) + 1 /\
     marco (colmena s') = marco (colmena s)).
Proof.
  unfold reasignar_roles.
  destruct (identificar_desequilibrio s) as [[[re rd]|]|] eqn:Hid;
    try discriminate.
  - destruct (Py.truthy re && Py.truthy rd).
    + destruct (primera_con_rol re (abejas s) (abejas_activas s)) as [dir|]
        eqn:Hp.
      * intros [= <- <-]. split; [discriminate|]. intros _.
        destruct (primera_con_rol_Some _ _ _ _ Hp) as (id & b & Hin & Hb & Hr).
        destruct (identificar_desequilibrio_roles s re rd Hid)
          as (_ & _ & Hne & _).
        exists re, rd, id, dir, b.
        unfold Abeja_cambiar_rol, obtener_distribucion_roles. rewrite Hb, Hr.
        simpl. repeat split; auto.
        -- rewrite get0_add_at_ne, get0_add_at_eq by congruence. reflexivity.
        -- rewrite get0_add_at_eq, get0_add_at_ne by congruence. reflexivity.
        -- intros k H1 H2. rewrite !get0_add_at_ne by congruence. reflexivity.
      * intros [= <- <-]. split; [reflexivity|discriminate].
    + intros [= <- <-]. split; [reflexivity|discriminate].
  - intros [= <- <-]. split; [reflexivity|discriminate].
Qed.

Lemma X5_reasignar_roles_witness :
  exists s,
    sistema_con censo_escenario_C colonia_escenario_C registro_escenario_C
      = Some s /\
    cambios_rol
      (contador_global (colmena (Abeja_cambiar_rol 1 "almacenadora" s)))
    = cambios_rol (contador_global (colmena s)) + 1.
Proof.
  eexists. split; [reflexivity|].
  match goal with
  | |- cambios_rol (contador_global (colmena (Abeja_cambiar_rol _ _ ?s))) = _ =>
      assert (Hr : reasignar_roles s
                   = Some (true, Abeja_cambiar_rol 1 "almacenadora" s))
  end.
  { unfold reasignar_roles.
    match goal with
    | |- context [identificar_desequilibrio ?s] =>
        assert (Hid : identificar_desequilibrio s
                      = Some (Some ("recolectora", "almacenadora")))
          by (vm_compute; reflexivity);
        rewrite Hid
    end.
    reflexivity. }
  destruct (proj2 (X5_reasignar_roles _ _ _ Hr) eq_refl)
    as (re & rd & id & dir & b & _ & _ & _ & _ & _ & _ & _ & _ & _ & Hc & _).
  exact Hc.
Defined.

(** X6. Through any sequence of events every agent object stays at its
    address with the class and the identifier it was constructed with; a
    thread that has finished never runs again and none returns to before its
    start; objects are only ever added. *)
Theorem X6_objetos_permanecen es s :
  heap_crece (abejas s) (abejas (ejecutar_todos es s)).
Proof. apply ejecutar_todos_heap. Qed.

Lemma dict_get_In {A} k (d : list (string * A)) v :
  dict_get k d = Some v -> In (k, v) d.
Proof.
  induction d as [|[k0 v0] d IH]; simpl; [discriminate|].
  destruct (String.eqb k k0) eqn:He.
  - apply String.eqb_eq in He. intros [= ->]. left. congruence.
  - intros H. right. apply IH, H.
Qed.

(** X7. In every reachable state the registry of the queen has no
    identifier twice, and looking an identifier up in it gives the address
    of an existing agent that carries this identifier. *)
Theorem X7_registro_bien_formado s :
  alcanzable s ->
  NoDup (map fst (abejas_activas s)) /\
  (forall id dir, dict_get id (abejas_activas s) = Some dir ->
     exists b, abejas s !! dir = Some b /\ id_abeja b = id).
Proof.
  intros Hs. destruct (alcanzable_registro s Hs) as [Hn Hr].
  split; [exact Hn|]. intros id dir Hg. apply Hr. apply dict_get_In, Hg.
Qed.

Lemma X7_registro_bien_formado_witness :
  exists s, correr 100 5 20 traza_reemplazo = Some s /\
    NoDup (map fst (abejas_activas s)) /\
    exists b, abejas s !! 2%nat = Some b /\ id_abeja b = "b2".
Proof.
  eexists. split; [reflexivity|].
  match goal with
  | |- NoDup (map fst (abejas_activas ?s)) /\ _ =>
      destruct (X7_registro_bien_formado s) as [Hn Hr];
      [apply (correr_alcanzable 100 5 20 traza_reemplazo); reflexivity|]
  end.
  split; [exact Hn|]. apply Hr. reflexivity.
Defined.

(** ** Death messages and replacements *)

Lemma fabrica_abejas_rol r cl : fabrica_abejas r = Some cl -> rol_de_clase cl = r.
Proof.
  unfold fabrica_abejas.
  destruct (String.eqb r "recolectora") eqn:E1;
    [apply String.eqb_eq in E1; intros [= <-]; auto|].
  destruct (String.eqb r "almacenadora") eqn:E2;
    [apply String.eqb_eq in E2; intros [= <-]; auto|].
  destruct (String.eqb r "nodriza") eqn:E3;
    [apply String.eqb_eq in E3; intros [= <-]; auto|].
  destruct (String.eqb r "defensora") eqn:E4;
    [apply String.eqb_eq in E4; intros [= <-]; auto|].
  discriminate.
Qed.

Lemma dict_del_ausente {A} k (d : list (string * A)) :
  dict_in k d = false -> dict_del k d = d.
Proof.
  unfold dict_in. induction d as [|[k0 v0] d IH]; simpl; [reflexivity|].
  destruct (String.eqb k k0); [discriminate|]. intros H. rewrite IH by exact H.
  reflexivity.
Qed.

Lemma dict_get_set_eq {A} k (v : A) d : dict_get k (dict_set k v d) = Some v.
Proof.
  induction d as [|[k0 v0] d IH]; simpl.
  - rewrite String.eqb_refl. reflexivity.
  - destruct (String.eqb k k0) eqn:He; simpl; rewrite He; [reflexivity|exact IH].
Qed.

Lemma dict_get_set_ne {A} k k' (v : A) d :
  k <> k' -> dict_get k' (dict_set k v d) = dict_get k' d.
Proof.
  intros Hne. induction d as [|[k0 v0] d IH]; simpl.
  - apply String.eqb_neq in Hne. rewrite String.eqb_sym, Hne. reflexivity.
  - destruct (String.eqb k k0) eqn:He; simpl.
    + apply String.eqb_eq in He. subst k0.
      apply String.eqb_neq in Hne. rewrite String.eqb_sym, Hne. reflexivity.
    + destruct (String.eqb k' k0); [reflexivity|exact IH].
Qed.

Lemma procesar_muerte_registro_previo x s :
  abejas_activas
    (if dict_in x (abejas_activas s)
     then con_abejas_activas (dict_del x (abejas_activas s)) s else s)
  = dict_del x (abejas_activas s).
Proof.
  destruct (dict_in x (abejas_activas s)) eqn:Hin; [reflexivity|].
  symmetry. apply dict_del_ausente, Hin.
Qed.

(** X8. Processing a death message removes the dead identifier from the
    registry. If the role of the message is one of the four worker roles,
    exactly one agent of the class of that role is constructed with the
    fresh identifier, registered under it, counted in the census under that
    role and started; otherwise nothing is constructed and the hive is left
    as it is. *)
Theorem X8_procesar_muerte r x uuid s :
  (fabrica_abejas r = None ->
     abejas (procesar_mensaje (Muerte r x) uuid s) = abejas s /\
     colmena (procesar_mensaje (Muerte r x) uuid s) = colmena s /\
     abejas_activas (procesar_mensaje (Muerte r x) uuid s)
       = dict_del x (abejas_activas s)) /\
  (forall cl, fabrica_abejas r = Some cl ->
     abejas (procesar_mensaje (Muerte r x) uuid s)
       = abejas s ++ [mkAbeja cl uuid r true 0 0 EnBucle] /\
     colmena (procesar_mensaje (Muerte r x) uuid s)
       = registrar_abeja uuid r (colmena s) /\
     abejas_activas (procesar_mensaje (Muerte r x) uuid s)
       = dict_set uuid (length (abejas s)) (dict_del x (abejas_activas s)) /\
     dict_get uuid (abejas_activas (procesar_mensaje (Muerte r x) uuid s))
       = Some (length (abejas s))) /\
  (NoDup (map fst (abejas_activas s)) -> uuid <> x ->
     dict_get x (abejas_activas (procesar_mensaje (Muerte r x) uuid s)) = None).
Proof.
  assert (Hprev := procesar_muerte_registro_previo x s).
  unfold procesar_mensaje, reemplazar_abeja_muerta.
  set (s1 := if dict_in x (abejas_activas s)
             then con_abejas_activas (dict_del x (abejas_activas s)) s
             else s) in *.
  assert (Ha : abejas s1 = abejas s)
    by (unfold s1; destruct (dict_in x (abejas_activas s)); reflexivity).
  assert (Hc : colmena s1 = colmena s)
    by (unfold s1; destruct (dict_in x (abejas_activas s)); reflexivity).
  assert (Hsome : forall cl, fabrica_abejas r = Some cl ->
     abejas (snd (crear_abeja r uuid s1))
       = abejas s ++ [mkAbeja cl uuid r true 0 0 EnBucle] /\
     colmena (snd (crear_abeja r uuid s1))
       = registrar_abeja uuid r (colmena s) /\
     abejas_activas (snd (crear_abeja r uuid s1))
       = dict_set uuid (length (abejas s)) (dict_del x (abejas_activas s))).
  { intros cl Hf.
    destruct (crear_abeja_fabrica r cl uuid s1 Hf) as [Hcol Hreg].
    rewrite Hcol, Hreg, Hprev, Ha, Hc, (fabrica_abejas_rol r cl Hf).
    split; [|split; reflexivity].
    unfold crear_abeja. rewrite Hf. simpl.
    unfold Thread_start, agregar_abeja. simpl.
    rewrite lookup_app_r, Nat.sub_diag by reflexivity. simpl.
    rewrite lookup_app_r, Nat.sub_diag by reflexivity. simpl.
    rewrite (fabrica_abejas_rol r cl Hf), Ha.
    rewrite insert_app_r_alt, Nat.sub_diag by reflexivity. reflexivity. }
  split; [|split].
  - intros Hf. unfold crear_abeja. rewrite Hf. simpl. auto.
  - intros cl Hf. destruct (Hsome cl Hf) as (H1 & H2 & H3).
    repeat split; try assumption. rewrite H3. apply dict_get_set_eq.
  - intros Hn Hne.
    assert (Hout : dict_get x (dict_del x (abejas_activas s)) = None).
    { pose proof (dict_del_fuera x (abejas_activas s) Hn) as H.
      unfold dict_in in H.
      destruct (dict_get x (dict_del x (abejas_activas s)));
        [discriminate|reflexivity]. }
    destruct (fabrica_abejas r) as [cl|] eqn:Hf.
    + destruct (Hsome cl eq_refl) as (_ & _ & H3). rewrite H3.
      rewrite dict_get_set_ne by exact Hne. exact Hout.
    + unfold crear_abeja. rewrite Hf. simpl. rewrite Hprev. exact Hout.
Qed.

(** ** Statistics per agent and global counters *)

Lemma suma_estadistica_insert k a fila (e : gmap string (gmap string Z)) :
  suma_estadistica k (<[a := fila]> e)
  = suma_estadistica k e - Py.get0 (default ∅ (e !! a)) k + Py.get0 fila k.
Proof.
  unfold suma_estadistica.
  assert (Hdel : map_fold (fun _ f acc => Py.get0 f k + acc) 0 e
    = Py.get0 (default ∅ (e !! a)) k
      + map_fold (fun _ f acc => Py.get0 f k + acc) 0 (delete a e)).
  { destruct (e !! a) as [f0|] eqn:Ha; simpl.
    - apply (map_fold_delete_L (fun _ f acc => Py.get0 f k + acc) 0 a f0 e);
        [intros; lia|exact Ha].
    - rewrite delete_id by exact Ha. unfold Py.get0. rewrite lookup_empty.
      simpl. lia. }
  rewrite Hdel, <- (insert_delete_eq e).
  rewrite (map_fold_insert_L (fun _ f acc => Py.get0 f k + acc) 0 a fila
             (delete a e)); [lia|intros; lia|apply lookup_delete_eq].
Qed.

Lemma suma_estadistica_add_at2 k a k' n e :
  suma_estadistica k (Py.add_at2 a k' n e)
  = suma_estadistica k e + (if String.eqb k' k then n else 0).
Proof.
  unfold Py.add_at2. rewrite suma_estadistica_insert.
  destruct (String.eqb k' k) eqn:He.
  - apply String.eqb_eq in He. subst k'. rewrite get0_add_at_eq. lia.
  - apply String.eqb_neq in He. rewrite get0_add_at_ne by exact He. lia.
Qed.

Lemma Inv_cuentas_marco c c' fs :
  marco c' = marco c -> Inv_cuentas c fs -> Inv_cuentas c' fs.
Proof.
  unfold marco. intros H [H1 H2 H3 H4 H5 H6 H7].
  injection H; intros. constructor; congruence.
Qed.

Lemma Inv_cuentas_reposo c fs k :
  Inv_cuentas c fs -> Inv_cuentas c (fs ++ replicate k EnBucle).
Proof.
  intros [H1 H2 H3 H4 H5 H6 H7].
  constructor; rewrite ?peso_app, ?peso_replicate by reflexivity;
    try assumption; lia.
Qed.

Ltac ic_paso Hi :=
  constructor; simpl;
  rewrite ?suma_estadistica_add_at2; simpl;
  rewrite ?(peso_insert _ _ _ _ _ Hi); simpl;
  try assumption; try lia; try nia.

Lemma paso_obrera_cuentas o b c fs i :
  fs !! i = Some (fase (hilo b)) -> Inv_cuentas c fs ->
  Inv_cuentas (snd (paso_obrera o b c))
      (<[i := fase (hilo (fst (paso_obrera o b c)))]> fs).
Proof.
  intros Hi HI.
  assert (Hid : forall c', marco c' = marco c ->
                Inv_cuentas c' (<[i := fase (hilo b)]> fs)).
  { intros c' Hv. rewrite list_insert_id by assumption.
    eapply Inv_cuentas_marco; eassumption. }
  unfold paso_obrera.
  destruct (hilo b) eqn:Hh; simpl in Hi.
  - simpl. rewrite Hh. apply Hid. reflexivity.
  - destruct (Abeja_run_sigue (en_plazo o) b c).
    + destruct (Abeja_run_descansa b c).
      { simpl. rewrite Hh. apply Hid. reflexivity. }
      destruct (clase b).
      * unfold visitar_flor. destruct (negb (event_dia c)); simpl.
        { rewrite Hh. apply Hid. reflexivity. }
        destruct HI as [H1 H2 H3 H4 H5 H6 H7].
        destruct (Z.ltb_spec 0
          (0 `max` (Py.round (Py.fmul (Py.fl (uniforme o)) (Py.fl (calidad_flores c)))
                    `min` capacidad_polen c))); simpl.
        -- ic_paso Hi.
        -- rewrite Hh. simpl. rewrite list_insert_id by assumption.
           ic_paso Hi.
      * unfold obtener_nectar_cola.
        destruct (queue_nectar c) as [|[q id0] cola] eqn:Hq.
        -- unfold Almacenadora_sin_nectar.
           destruct (10 <? intentos_vacios b + 1); simpl; rewrite Hh;
             apply Hid; reflexivity.
        -- simpl. destruct HI as [H1 H2 H3 H4 H5 H6 H7]. ic_paso Hi.
      * unfold consumir_nectar.
        destruct (Z.ltb_spec 0 (celdas_ocupadas c)); simpl.
        -- destruct HI as [H1 H2 H3 H4 H5 H6 H7]. ic_paso Hi.
        -- unfold Nodriza_sin_alimento.
           destruct (5 <? intentos_sin_alimento b + 1); simpl; rewrite Hh;
             apply Hid; reflexivity.
      * destruct (event_ataque c); simpl.
        -- destruct HI as [H1 H2 H3 H4 H5 H6 H7]. ic_paso Hi.
        -- rewrite Hh. apply Hid. reflexivity.
      * simpl. rewrite Hh. apply Hid. reflexivity.
    + unfold Abeja_run_finally. simpl.
      destruct (negb (event_fin_simulacion c)); apply Hid; reflexivity.
  - simpl. destruct HI as [H1 H2 H3 H4 H5 H6 H7]. ic_paso Hi.
  - simpl. destruct HI as [H1 H2 H3 H4 H5 H6 H7]. ic_paso Hi.
  - destruct (semaforo_acquire c) as [c1|] eqn:Hs; simpl.
    + apply semaforo_acquire_Some in Hs as [Hs ->].
      destruct HI as [H1 H2 H3 H4 H5 H6 H7]. ic_paso Hi.
    + destruct HI as [H1 H2 H3 H4 H5 H6 H7]. ic_paso Hi.
  - simpl. destruct HI as [H1 H2 H3 H4 H5 H6 H7]. ic_paso Hi.
  - simpl. destruct HI as [H1 H2 H3 H4 H5 H6 H7]. ic_paso Hi.
  - unfold alimentar_si_cabe.
    destruct (Z.ltb_spec (larvas_alimentadas c) (num_larvas c)); simpl.
    + destruct HI as [H1 H2 H3 H4 H5 H6 H7]. ic_paso Hi.
    + unfold Nodriza_sin_alimento. simpl.
      destruct (5 <? intentos_sin_alimento b + 1); simpl;
        destruct HI as [H1 H2 H3 H4 H5 H6 H7]; ic_paso Hi.
  - simpl. destruct HI as [H1 H2 H3 H4 H5 H6 H7]. ic_paso Hi.
  - simpl. rewrite Hh. apply Hid. reflexivity.
Qed.

Lemma Inv_cuentas_marco_fases s s' :
  respeta s s' -> extiende s s' ->
  Inv_cuentas_sistema s -> Inv_cuentas_sistema s'.
Proof.
  unfold Inv_cuentas_sistema. intros [Hm _] [_ [k Hk]] H. rewrite Hk.
  apply Inv_cuentas_reposo. eapply Inv_cuentas_marco; eassumption.
Qed.

Lemma Reina_init_respeta e id uuid s : respeta s (snd (Reina_init e id uuid s)).
Proof.
  unfold Reina_init.
  pose proof (Abeja_init_respeta Reina id uuid s) as H.
  destruct (Abeja_init Reina id uuid s) as [dir s1]. simpl in *.
  eapply respeta_trans; [exact H|]. respeta_igual.
Qed.

Lemma Inv_cuentas_inicial cap pol larv c :
  Colmena_init cap pol larv = Some c -> Inv_cuentas c [].
Proof.
  unfold Colmena_init. destruct (Z.ltb_spec cap 0); [discriminate|].
  intros [= <-]. constructor; simpl; try reflexivity; lia.
Qed.

Lemma avanzar_cuentas o dir s :
  Inv_cuentas_sistema s -> Inv_cuentas_sistema (avanzar o dir s).
Proof.
  intros HI. unfold avanzar.
  destruct (abejas s !! dir) as [b|] eqn:Hb; [|assumption].
  assert (Hobrera : Inv_cuentas_sistema
    (con_abeja_y_colmena dir (paso_obrera o b (colmena s)) s)).
  { unfold Inv_cuentas_sistema, con_abeja_y_colmena. simpl.
    rewrite fases_insert.
    apply paso_obrera_cuentas; [apply fases_lookup, Hb|exact HI]. }
  destruct (clase b); try exact Hobrera.
  destruct (hilo b) eqn:Hh; try exact Hobrera.
  assert (Hfin : forall s1, respeta s s1 -> extiende s s1 ->
            Inv_cuentas_sistema (terminar dir s1)).
  { intros s1 Hr Hs1. eapply Inv_cuentas_marco_fases; [| |exact HI].
    - eapply respeta_trans; [exact Hr|apply terminar_respeta].
    - eapply extiende_trans; [exact Hs1|].
      apply terminar_extiende. intros b1 Hb1.
      destruct (extiende_fase _ _ _ _ Hs1 Hb) as [b' [Hb' Hf]].
      rewrite Hb1 in Hb'. injection Hb' as <-. rewrite Hf, Hh. reflexivity. }
  destruct (Abeja_run_sigue (en_plazo o) b (colmena s)).
  - destruct (Abeja_run_descansa b (colmena s)); [assumption|].
    pose proof (Reina_trabajar_extiende o s) as He.
    pose proof (Reina_trabajar_respeta o s) as Hr.
    destruct (Reina_trabajar o s) as [s1 ex]. simpl in He, Hr.
    destruct ex; [apply Hfin; assumption|].
    eapply Inv_cuentas_marco_fases; eassumption.
  - apply Hfin; [apply respeta_refl|apply extiende_refl].
Qed.

Lemma ejecutar_cuentas e s :
  Inv_cuentas_sistema s -> Inv_cuentas_sistema (ejecutar e s).
Proof.
  intros HI. destruct e as [cl id u|eq id u|dir|dir|o dir|ll q|d| | |]; simpl.
  - destruct cl; try assumption;
      (eapply Inv_cuentas_marco_fases;
       [apply Abeja_init_respeta|apply Abeja_init_extiende|assumption]).
  - eapply Inv_cuentas_marco_fases;
      [apply Reina_init_respeta|apply Reina_init_extiende|assumption].
  - eapply Inv_cuentas_marco_fases;
      [apply Thread_start_respeta|apply Thread_start_extiende|assumption].
  - eapply Inv_cuentas_marco_fases;
      [apply agregar_abeja_respeta|apply agregar_abeja_extiende|assumption].
  - apply avanzar_cuentas, HI.
  - destruct HI. constructor; assumption.
  - destruct HI. constructor; assumption.
  - destruct HI. constructor; assumption.
  - destruct HI. constructor; assumption.
  - destruct HI. constructor; assumption.
Qed.

Lemma alcanzable_cuentas s : alcanzable s -> Inv_cuentas_sistema s.
Proof.
  induction 1 as [cap pol larv c Hc|e s _ IH].
  - unfold Inv_cuentas_sistema. simpl. eapply Inv_cuentas_inicial, Hc.
  - apply ejecutar_cuentas, IH.
Qed.

Lemma peso_por_contar_nonneg fs : Forall lleva_positivo fs -> 0 <= peso por_contar fs.
Proof.
  induction 1 as [|h fs Hh _ IH]; simpl; [lia|].
  unfold peso in *. simpl. destruct h; simpl in *; lia.
Qed.

Lemma peso_sin_contar_por_contar fs :
  Forall lleva_positivo fs -> peso sin_contar fs <= peso por_contar fs.
Proof.
  induction 1 as [|h fs Hh _ IH]; simpl; [lia|].
  unfold peso in *. simpl. destruct h; simpl in *; lia.
Qed.

(** X9. In every reachable state each global counter that the agents feed
    is the sum, over all agents, of the statistic of the same name kept per
    agent: nectar collected, nectar stored, flowers visited, larvae fed and
    attacks neutralised; and the global count of fed larvae is the
    attribute [larvas_alimentadas] of the hive. *)
Theorem X9_estadisticas_suman s :
  alcanzable s ->
  suma_estadistica "nectar_recolectado" (estadisticas_abejas (colmena s))
    = nectar_recolectado (contador_global (colmena s)) /\
  suma_estadistica "nectar_almacenado" (estadisticas_abejas (colmena s))
    = nectar_almacenado (contador_global (colmena s)) /\
  suma_estadistica "flores_visitadas" (estadisticas_abejas (colmena s))
    = flores_visitadas (contador_global (colmena s)) /\
  suma_estadistica "larvas_alimentadas" (estadisticas_abejas (colmena s))
    = cg_larvas_alimentadas (contador_global (colmena s)) /\
  suma_estadistica "ataques_neutralizados" (estadisticas_abejas (colmena s))
    = ataques_neutralizados (contador_global (colmena s)) /\
  cg_larvas_alimentadas (contador_global (colmena s))
    = larvas_alimentadas (colmena s).
Proof.
  intros Hs. destruct (alcanzable_cuentas s Hs) as [H1 H2 H3 H4 H5 H6 _].
  repeat split; assumption.
Qed.

Lemma X9_estadisticas_suman_witness :
  exists s, correr 100 5 20 traza_adelantada = Some s /\
    suma_estadistica "nectar_almacenado" (estadisticas_abejas (colmena s))
      = nectar_almacenado (contador_global (colmena s)) /\
    nectar_almacenado (contador_global (colmena s)) = 5.
Proof.
  eexists. split; [reflexivity|].
  split; [|vm_compute; reflexivity].
  match goal with
  | |- suma_estadistica _ (estadisticas_abejas (colmena ?s)) = _ =>
      apply (X9_estadisticas_suman s)
  end.
  apply (correr_alcanzable 100 5 20 traza_adelantada). reflexivity.
Defined.

(** X10. In every reachable state neither the nectar counted as collected
    nor the nectar counted as stored exceeds [capacidad_polen] (taken as 0
    when negative) times the number of flower visits counted. *)
Theorem X10_nectar_cubierto_por_visitas s :
  alcanzable s ->
  nectar_recolectado (contador_global (colmena s))
    <= Z.max 0 (capacidad_polen (colmena s))
       * flores_visitadas (contador_global (colmena s)) /\
  nectar_almacenado (contador_global (colmena s))
    <= Z.max 0 (capacidad_polen (colmena s))
       * flores_visitadas (contador_global (colmena s)).
Proof.
  intros Hs.
  destruct (alcanzable_cuentas s Hs) as [_ _ _ _ _ _ Hv].
  destruct (alcanzable_Inv s Hs) as [_ _ _ _ _ Hl Hc Hn].
  pose proof (peso_por_contar_nonneg _ Hl).
  pose proof (peso_sin_contar_por_contar _ Hl).
  pose proof (peso_en_mano_nonneg _ Hl).
  pose proof (en_cola_nonneg _ Hc).
  split; lia.
Qed.

Lemma X10_nectar_cubierto_por_visitas_witness :
  exists s, correr 100 5 20 traza_adelantada = Some s /\
    nectar_almacenado (contador_global (colmena s))
      <= 5 * flores_visitadas (contador_global (colmena s)).
Proof.
  eexists. split; [reflexivity|].
  match goal with
  | |- nectar_almacenado (contador_global (colmena ?s)) <= _ =>
      apply (proj2 (X10_nectar_cubierto_por_visitas s
        (correr_alcanzable 100 5 20 traza_adelantada s eq_refl)))
  end.
Defined.

(** X11. In every reachable state the permits left in [semaforo_celdas]
    plus the permits held by storers that have acquired one and not yet
    incremented [celdas_ocupadas] are the free cells that [obtener_metricas]
    reports; so the permits left are never negative and never more than the
    free cells, and they are the free cells when no storer is between the
    two statements. *)
Theorem X11_semaforo_y_celdas_libres s :
  alcanzable s ->
  semaforo_celdas (colmena s) + peso permiso (fases (abejas s))
    = m_celdas_libres (obtener_metricas (colmena s)) /\
  0 <= semaforo_celdas (colmena s)
    <= m_celdas_libres (obtener_metricas (colmena s)) /\
  m_celdas_ocupadas (obtener_metricas (colmena s))
    + m_celdas_libres (obtener_metricas (colmena s))
    = capacidad_celdas (colmena s).
Proof.
  intros Hs. destruct (alcanzable_Inv s Hs) as [H1 H2 H3 _ _ _ _ _].
  pose proof (peso_permiso_nonneg (fases (abejas s))).
  unfold obtener_metricas. simpl. lia.
Qed.

Lemma X11_semaforo_y_celdas_libres_witness :
  exists s, correr 100 5 20 traza_adelantada = Some s /\
    semaforo_celdas (colmena s)
      = m_celdas_libres (obtener_metricas (colmena s)).
Proof.
  eexists. split; [reflexivity|].
  match goal with
  | |- semaforo_celdas (colmena ?s) = _ =>
      pose proof (proj1 (X11_semaforo_y_celdas_libres s
        (correr_alcanzable 100 5 20 traza_adelantada s eq_refl))) as H
  end.
  rewrite <- H.
  match goal with
  | |- _ = _ + ?p => replace p with 0 by (vm_compute; reflexivity)
  end.
  lia.
Defined.

(** ** The nectar queue *)

Lemma agregar_todos_cola lotes : forall c,
  queue_nectar (agregar_todos lotes c) = queue_nectar c ++ lotes /\
  nectar_recolectado (contador_global (agregar_todos lotes c))
    = nectar_recolectado (contador_global c) + en_cola lotes.
Proof.
  induction lotes as [|[q id] lotes IH]; intros c; simpl.
  - rewrite app_nil_r. unfold en_cola. simpl. split; [reflexivity|lia].
  - destruct (IH (agregar_nectar_cola q id c)) as [-> ->]. simpl.
    rewrite <- app_assoc. split; [reflexivity|].
    unfold en_cola. simpl. lia.
Qed.

Lemma obtener_todos_spec n : forall c,
  fst (obtener_todos n c)
    = map Some (take n (queue_nectar c))
      ++ replicate (n - length (queue_nectar c)) None /\
  queue_nectar (snd (obtener_todos n c)) = drop n (queue_nectar c).
Proof.
  induction n as [|n IH]; intros c.
  - simpl. rewrite drop_0. split; reflexivity.
  - simpl. unfold obtener_nectar_cola.
    destruct (queue_nectar c) as [|lote resto] eqn:Hq.
    + specialize (IH c). rewrite Hq in IH.
      destruct (obtener_todos n c) as [rs c2]. simpl in *.
      destruct IH as [-> ->]. rewrite take_nil, drop_nil. simpl.
      rewrite Nat.sub_0_r. split; reflexivity.
    + specialize (IH (con_queue_nectar resto c)). simpl in IH.
      destruct (obtener_todos n (con_queue_nectar resto c)) as [rs c2].
      simpl in *. destruct IH as [-> ->]. split; reflexivity.
Qed.

(** X12. [queue_nectar] is first in, first out: after batches are appended
    with [agregar_nectar_cola], [n] calls of [obtener_nectar_cola] return
    the first [n] batches of the old queue followed by the new batches, in
    that order, then [None] for every further call, and leave the rest in
    the queue; the appended amounts are added to [nectar_recolectado]. *)
Theorem X12_cola_nectar_fifo lotes n c :
  fst (obtener_todos n (agregar_todos lotes c))
    = map Some (take n (queue_nectar c ++ lotes))
      ++ replicate (n - length (queue_nectar c ++ lotes)) None /\
  queue_nectar (snd (obtener_todos n (agregar_todos lotes c)))
    = drop n (queue_nectar c ++ lotes) /\
  nectar_recolectado (contador_global (agregar_todos lotes c))
    = nectar_recolectado (contador_global c) + en_cola lotes.
Proof.
  destruct (agregar_todos_cola lotes c) as [Hq Hn].
  destruct (obtener_todos_spec n (agregar_todos lotes c)) as [H1 H2].
  rewrite Hq in H1, H2. repeat split; assumption.
Qed.

(** ** Idle workers *)

Lemma con_intentos_vacios_mismo b : con_intentos_vacios (intentos_vacios b) b = b.
Proof. destruct b; reflexivity. Qed.

Lemma con_intentos_sin_alimento_mismo b :
  con_intentos_sin_alimento (intentos_sin_alimento b) b = b.
Proof. destruct b; reflexivity. Qed.

Lemma con_queue_reina_mismo c : con_queue_reina (queue_reina c ++ []) c = c.
Proof. destruct c; simpl. rewrite app_nil_r. reflexivity. Qed.

Lemma replicate_succ_fin {A} (q : Z) (x : A) :
  0 <= q -> replicate (Z.to_nat (q + 1)) x = replicate (Z.to_nat q) x ++ [x].
Proof.
  intros H. rewrite Z2Nat.inj_add by lia. rewrite replicate_add. reflexivity.
Qed.

(** X13. A storer that finds [queue_nectar] empty at each of [n]
    consecutive calls of [trabajar] counts its attempts and, at every
    eleventh one, sends the queen one message [inactiva] carrying its role
    label, its identifier and [intentos = 11], and starts counting again
    from 0; nothing else in the hive changes. *)
Theorem X13_almacenadora_inactiva n b c :
  queue_nectar c = [] -> 0 <= intentos_vacios b <= 10 ->
  trabajar_n Almacenadora_trabajar n b c
  = (con_intentos_vacios ((intentos_vacios b + Z.of_nat n) mod 11) b,
     con_queue_reina
       (queue_reina c
        ++ replicate (Z.to_nat ((intentos_vacios b + Z.of_nat n) / 11))
             (Inactiva (rol b) (id_abeja b) 11)) c).
Proof.
  intros Hq Hiv. induction n as [|n IH].
  - unfold trabajar_n. simpl. rewrite Z.add_0_r.
    rewrite Z.mod_small, Z.div_small by lia. simpl.
    rewrite con_intentos_vacios_mismo, con_queue_reina_mismo. reflexivity.
  - unfold trabajar_n in *. rewrite Nat.iter_succ, IH.
    set (a := intentos_vacios b + Z.of_nat n).
    assert (Ha : intentos_vacios b + Z.of_nat (S n) = a + 1) by (unfold a; lia).
    rewrite Ha.
    assert (Hm : 0 <= a mod 11 < 11) by (apply Z.mod_pos_bound; lia).
    assert (Hd : 0 <= a / 11) by (apply Z.div_pos; unfold a; lia).
    cbn [fst snd]. unfold Almacenadora_trabajar, obtener_nectar_cola.
    cbn [queue_nectar con_queue_reina]. rewrite Hq.
    unfold Almacenadora_sin_nectar.
    cbn [intentos_vacios con_intentos_vacios rol id_abeja].
    destruct (Z.ltb_spec 10 (a mod 11 + 1)) as [Hlt|Hge].
    + assert (E1 : (a + 1) mod 11 = 0)
        by (revert Hlt Hm; clear; intros; Z.div_mod_to_equations; lia).
      assert (E2 : (a + 1) / 11 = a / 11 + 1)
        by (revert Hlt Hm; clear; intros; Z.div_mod_to_equations; lia).
      assert (E3 : a mod 11 + 1 = 11) by lia.
      rewrite E1, E2, E3, replicate_succ_fin by exact Hd.
      unfold enviar_mensaje_reina. cbn [queue_reina con_queue_reina].
      rewrite <- app_assoc. destruct b, c; reflexivity.
    + assert (E1 : (a + 1) mod 11 = a mod 11 + 1)
        by (revert Hge Hm; clear; intros; Z.div_mod_to_equations; lia).
      assert (E2 : (a + 1) / 11 = a / 11)
        by (revert Hge Hm; clear; intros; Z.div_mod_to_equations; lia).
      rewrite E1, E2. destruct b; reflexivity.
Qed.

Lemma X13_almacenadora_inactiva_witness :
  exists c, Colmena_init 100 5 20 = Some c /\
    trabajar_n Almacenadora_trabajar 25
      (mkAbeja Almacenadora "a1" "almacenadora" true 0 0 EnBucle) c
    = (mkAbeja Almacenadora "a1" "almacenadora" true 3 0 EnBucle,
       con_queue_reina
         [Inactiva "almacenadora" "a1" 11; Inactiva "almacenadora" "a1" 11]
         c).
Proof.
  eexists. split; [reflexivity|].
  match goal with
  | |- trabajar_n _ ?n ?b ?c = _ =>
      rewrite (X13_almacenadora_inactiva n b c eq_refl);
        [reflexivity|simpl; lia]
  end.
Defined.


(** X14. A nurse that finds no occupied cell at each of [n] consecutive
    calls of [trabajar] counts its failures and, at every sixth one, sends
    the queen one message [falta_alimento] carrying its role label and its
    identifier, and starts counting again from 0; nothing else in the hive
    changes. *)
Theorem X14_nodriza_falta_alimento n b c :
  celdas_ocupadas c <= 0 -> 0 <= intentos_sin_alimento b <= 5 ->
  trabajar_n Nodriza_trabajar n b c
  = (con_intentos_sin_alimento
       ((intentos_sin_alimento b + Z.of_nat n) mod 6) b,
     con_queue_reina
       (queue_reina c
        ++ replicate (Z.to_nat ((intentos_sin_alimento b + Z.of_nat n) / 6))
             (FaltaAlimento (rol b) (id_abeja b))) c).
Proof.
  intros Hq Hiv. induction n as [|n IH].
  - unfold trabajar_n. simpl. rewrite Z.add_0_r.
    rewrite Z.mod_small, Z.div_small by lia. simpl.
    rewrite con_intentos_sin_alimento_mismo, con_queue_reina_mismo.
    reflexivity.
  - unfold trabajar_n in *. rewrite Nat.iter_succ, IH.
    set (a := intentos_sin_alimento b + Z.of_nat n).
    assert (Ha : intentos_sin_alimento b + Z.of_nat (S n) = a + 1)
      by (unfold a; lia).
    rewrite Ha.
    assert (Hm : 0 <= a mod 6 < 6) by (apply Z.mod_pos_bound; lia).
    assert (Hd : 0 <= a / 6) by (apply Z.div_pos; unfold a; lia).
    cbn [fst snd]. unfold Nodriza_trabajar.
    rewrite alimentar_larva_sin_nectar by exact Hq.
    unfold Nodriza_sin_alimento.
    cbn [intentos_sin_alimento con_intentos_sin_alimento rol id_abeja].
    destruct (Z.ltb_spec 5 (a mod 6 + 1)) as [Hlt|Hge].
    + assert (E1 : (a + 1) mod 6 = 0)
        by (revert Hlt Hm; clear; intros; Z.div_mod_to_equations; lia).
      assert (E2 : (a + 1) / 6 = a / 6 + 1)
        by (revert Hlt Hm; clear; intros; Z.div_mod_to_equations; lia).
      rewrite E1, E2, replicate_succ_fin by exact Hd.
      unfold enviar_mensaje_reina. cbn [queue_reina con_queue_reina].
      rewrite <- app_assoc. destruct b, c; reflexivity.
    + assert (E1 : (a + 1) mod 6 = a mod 6 + 1)
        by (revert Hge Hm; clear; intros; Z.div_mod_to_equations; lia).
      assert (E2 : (a + 1) / 6 = a / 6)
        by (revert Hge Hm; clear; intros; Z.div_mod_to_equations; lia).
      rewrite E1, E2. destruct b; reflexivity.
Qed.

Lemma X14_nodriza_falta_alimento_witness :
  exists c, Colmena_init 100 5 20 = Some c /\
    trabajar_n Nodriza_trabajar 13
      (mkAbeja Nodriza "n1" "nodriza" true 0 0 EnBucle) c
    = (mkAbeja Nodriza "n1" "nodriza" true 0 1 EnBucle,
       con_queue_reina
         [FaltaAlimento "nodriza" "n1"; FaltaAlimento "nodriza" "n1"] c).
Proof.
  eexists. split; [reflexivity|].
  match goal with
  | |- trabajar_n _ ?n ?b ?c = _ =>
      rewrite (X14_nodriza_falta_alimento n b c);
        [reflexivity|simpl; lia|simpl; lia]
  end.
Defined.


(** ** The role label and the class *)

(** X15. The role label of an agent does not select its work: with any
    other label the [trabajar] of its class makes the same changes to the
    agent and to the hive, the mailbox of the queen apart, where the same
    number of messages is sent (they carry the label). *)
Theorem X15_etiqueta_no_cambia_trabajo o r b c :
  fst (trabajar o (con_rol r b) c) = con_rol r (fst (trabajar o b c)) /\
  con_queue_reina [] (snd (trabajar o (con_rol r b) c))
    = con_queue_reina [] (snd (trabajar o b c)) /\
  length (queue_reina (snd (trabajar o (con_rol r b) c)))
    = length (queue_reina (snd (trabajar o b c))).
Proof.
  unfold trabajar. cbn [clase con_rol].
  destruct (clase b).
  - unfold Recolectora_trabajar. cbn [id_abeja con_rol].
    destruct (visitar_flor (uniforme o) (id_abeja b) c) as [polen c1].
    destruct (0 <? polen); repeat split; reflexivity.
  - unfold Almacenadora_trabajar.
    destruct (obtener_nectar_cola c) as [[[q ido]|] c1].
    + cbn [id_abeja con_rol].
      destruct (almacenar_nectar q (id_abeja b) c1) as [res c2].
      repeat split; reflexivity.
    + unfold Almacenadora_sin_nectar. cbn [intentos_vacios con_rol].
      destruct (10 <? intentos_vacios b + 1); repeat split;
        try reflexivity.
      unfold enviar_mensaje_reina. cbn [queue_reina con_queue_reina snd].
      rewrite !length_app. reflexivity.
  - unfold Nodriza_trabajar. cbn [id_abeja con_rol].
    destruct (alimentar_larva (id_abeja b) c) as [[|] c1].
    + repeat split; reflexivity.
    + unfold Nodriza_sin_alimento. cbn [intentos_sin_alimento con_rol].
      destruct (5 <? intentos_sin_alimento b + 1); repeat split;
        try reflexivity.
      unfold enviar_mensaje_reina. cbn [queue_reina con_queue_reina snd].
      rewrite !length_app. reflexivity.
  - unfold Defensora_trabajar. cbn [id_abeja con_rol].
    destruct (event_ataque c); repeat split; reflexivity.
  - repeat split; reflexivity.
Qed.

(** ** The queen never fails *)

















